(** * Bird observation ingestion: a model of [data_ingestion.py]

    The development embeds the three functions of the ingestion script
    ([load_and_combine_data], [initial_data_cleaning], [upload_to_sql]) and
    its [__main__] block, and proves the properties the specification states
    about them.

    A pandas [DataFrame] is a list of named columns over a common index; a
    cell is a dynamically typed Python value, and the dtype of a column is
    the one pandas infers from its cells.  The library calls the script
    makes are modelled by total functions on these cells; the few that depend
    on CPython's text conversions (parsing a date, parsing a number, printing
    a number) or on [float64] arithmetic (the mean of a column) are the
    fields of a [Runtime], over which every general theorem quantifies.

    Of the dashboard ([app.py]) the development embeds the two pieces that
    compute on the table rather than draw it: the conversion of the
    [Distance] labels in [get_data_from_sql], and the global filters of the
    sidebar.

    A finite [float64] is the rational it stands for.  Not modelled: the
    row labels of the index, the time of day of a [Timestamp], integers
    beyond the range of [int64], characters outside ASCII in [str.upper],
    the change of dtype of a column that [concat] pads with NaN (the cells
    keep their values), and a file system or a database driver that fails
    while the backup or the connection string is written. *)

From Stdlib Require Import QArith Ascii.
From stdpp Require Import base strings list gmap pretty sorting.

Close Scope Q_scope.
Open Scope Z_scope.

(** ** Cells *)

(** A [float64] that is not NaN: NaN is the missing value [NA] of a cell.
    A finite value is the rational the float stands for. *)
Inductive float64 :=
| Finite (q : Q)
| Inf (negative : bool).

(** A parsed date (pandas [Timestamp] at midnight). *)
Record Timestamp := mkTimestamp { ts_year : Z; ts_month : Z; ts_day : Z }.

(** What [to_numeric] makes of one cell. *)
Inductive number :=
| NInt (z : Z)
| NFlt (x : float64).

Inductive value :=
| NA                      (* NaN, None and NaT: whatever [isnull] answers True on *)
| Str (s : string)
| Int (z : Z)
| Flt (x : float64)
| Bool (b : bool)
| Dt (t : Timestamp).

Inductive exn :=
| KeyError (key : string)
| IntCastingNaNError      (* "Cannot convert non-finite values (NA or inf) to integer" *)
| OtherError (msg : string).

Inductive result (A : Type) :=
| Ok (a : A)
| Raise (e : exn).
Arguments Ok {A} a.
Arguments Raise {A} e.

#[global] Instance result_ret : MRet result := fun A a => Ok a.
#[global] Instance result_bind : MBind result := fun A B f m =>
  match m with Ok a => f a | Raise e => Raise e end.

#[global] Instance Q_eq_dec : EqDecision Q.
Proof. solve_decision. Defined.
#[global] Instance float64_eq_dec : EqDecision float64.
Proof. solve_decision. Defined.
#[global] Instance number_eq_dec : EqDecision number.
Proof. solve_decision. Defined.
#[global] Instance Timestamp_eq_dec : EqDecision Timestamp.
Proof. solve_decision. Defined.
#[global] Instance value_eq_dec : EqDecision value.
Proof. solve_decision. Defined.
#[global] Instance exn_eq_dec : EqDecision exn.
Proof. solve_decision. Defined.

Definition isnull (v : value) : bool :=
  match v with NA => true | _ => false end.

(** ** Text *)

Definition upper_ascii (c : Ascii.ascii) : Ascii.ascii :=
  let n := Ascii.N_of_ascii c in
  if ((97 <=? n) && (n <=? 122))%N then Ascii.ascii_of_N (n - 32) else c.

Definition lower_ascii (c : Ascii.ascii) : Ascii.ascii :=
  let n := Ascii.N_of_ascii c in
  if ((65 <=? n) && (n <=? 90))%N then Ascii.ascii_of_N (n + 32) else c.

(** [str.upper] *)
Fixpoint upper (s : string) : string :=
  match s with
  | EmptyString => EmptyString
  | String c s' => String (upper_ascii c) (upper s')
  end.

Fixpoint lower (s : string) : string :=
  match s with
  | EmptyString => EmptyString
  | String c s' => String (lower_ascii c) (lower s')
  end.

(** [str.capitalize]: first character upper-cased, the rest lower-cased. *)
Definition capitalize (s : string) : string :=
  match s with
  | EmptyString => EmptyString
  | String c s' => String (upper_ascii c) (lower s')
  end.

(** White space of ASCII text, as [str.isspace] has it. *)
Definition is_space (c : Ascii.ascii) : bool :=
  let n := Ascii.N_of_ascii c in
  ((9 <=? n) && (n <=? 13) || (28 <=? n) && (n <=? 32))%N.

Fixpoint lstrip (s : string) : string :=
  match s with
  | EmptyString => EmptyString
  | String c s' => if is_space c then lstrip s' else s
  end.

Fixpoint rstrip (s : string) : string :=
  match s with
  | EmptyString => EmptyString
  | String c s' =>
      match rstrip s' with
      | EmptyString => if is_space c then EmptyString else String c EmptyString
      | r => String c r
      end
  end.

(** [str.strip] on ASCII text. *)
Definition strip (s : string) : string := rstrip (lstrip s).

(** ** Frames *)

Record DataFrame := mkDataFrame {
  index_len : nat;                          (* number of rows *)
  columns : list (string * list value)      (* in column order *)
}.

#[global] Instance DataFrame_eq_dec : EqDecision DataFrame.
Proof. solve_decision. Defined.

(** [pd.DataFrame()] *)
Definition DataFrame_new : DataFrame := mkDataFrame 0%nat [].

Definition column_names (df : DataFrame) : list string := (columns df).*1.

(** [col in df.columns] *)
Definition has_col (c : string) (df : DataFrame) : bool :=
  bool_decide (c ∈ column_names df).

Fixpoint lookup_col (c : string) (cols : list (string * list value)) : option (list value) :=
  match cols with
  | [] => None
  | (c', vs) :: cols' => if decide (c = c') then Some vs else lookup_col c cols'
  end.

(** [df[c] = vs]: overwrite the column in place, or append a new last column. *)
Fixpoint assign_col (c : string) (vs : list value) (cols : list (string * list value))
  : list (string * list value) :=
  match cols with
  | [] => [(c, vs)]
  | (c', vs') :: cols' =>
      if decide (c = c') then (c, vs) :: cols' else (c', vs') :: assign_col c vs cols'
  end.

(** [df[c]], raising [KeyError] on an absent column. *)
Definition getitem (c : string) (df : DataFrame) : result (list value) :=
  match lookup_col c (columns df) with
  | Some vs => Ok vs
  | None => Raise (KeyError c)
  end.

Definition setitem (c : string) (vs : list value) (df : DataFrame) : DataFrame :=
  mkDataFrame (index_len df) (assign_col c vs (columns df)).

(** [df.empty]: some axis has length 0. *)
Definition DataFrame_empty (df : DataFrame) : bool :=
  bool_decide (index_len df = 0%nat) || bool_decide (columns df = []).

(** Every column spans the index and no name occurs twice. *)
Definition well_formed (df : DataFrame) : bool :=
  bool_decide (NoDup (column_names df)) &&
  forallb (fun cv => bool_decide (length cv.2 = index_len df)) (columns df).

(** Row [i], read across the columns. *)
Definition row (df : DataFrame) (i : nat) : list value :=
  (fun cv => default NA (cv.2 !! i)) <$> columns df.

Definition rows (df : DataFrame) : list (list value) :=
  row df <$> seq 0 (index_len df).

(** ** The runtime

    The text conversions of CPython and pandas that the script relies on.
    [strptime fmt s] is [None] where parsing raises [ValueError];
    [floatify s] is [None] where the text is no number (or is "nan"): an
    integer literal yields [NInt], any other number [NFlt].  [frame_info]
    and [null_counts] are the texts pandas renders of a frame for the
    summary that [__main__] prints.  [fmean] is the [float64] mean numpy
    computes of a column's values (rounded, and in the order of summation
    numpy chooses); [None] is NaN. *)
Record Runtime := mkRuntime {
  strptime : string -> string -> option Timestamp;
  floatify : string -> option number;
  repr_float : float64 -> string;
  repr_timestamp : Timestamp -> string;
  frame_info : DataFrame -> string;         (* what [df.info()] writes *)
  null_counts : DataFrame -> string;        (* the text of the per-column null counts *)
  fmean : list float64 -> option float64    (* the mean of the values of a column *)
}.

(** ** [drop_duplicates]

    Rows are compared as pandas' hash tables compare Python objects: all
    missing values are one key, and [1], [1.0] and [True] are one key. *)
Inductive hkey :=
| KNull
| KStr (s : string)
| KNum (x : float64)
| KDt (t : Timestamp).

#[global] Instance hkey_eq_dec : EqDecision hkey.
Proof. solve_decision. Defined.

Definition value_key (v : value) : hkey :=
  match v with
  | NA => KNull
  | Str s => KStr s
  | Int z => KNum (Finite (inject_Z z))
  | Flt (Finite q) => KNum (Finite (Qred q))
  | Flt (Inf s) => KNum (Inf s)
  | Bool b => KNum (Finite (inject_Z (if b then 1 else 0)))
  | Dt t => KDt t
  end.

Definition row_key (r : list value) : list hkey := value_key <$> r.

(** [duplicated(keep='first')]: a row is a duplicate when its key was seen
    in an earlier row. *)
Fixpoint duplicated_from (seen : list (list hkey)) (ks : list (list hkey)) : list bool :=
  match ks with
  | [] => []
  | k :: ks' => bool_decide (k ∈ seen) :: duplicated_from (k :: seen) ks'
  end.

Definition duplicated (df : DataFrame) : list bool :=
  duplicated_from [] (row_key <$> rows df).

(** Boolean indexing: the entries of [l] whose mask bit is set. *)
Fixpoint select {A} (mask : list bool) (l : list A) : list A :=
  match mask, l with
  | b :: mask', x :: l' => if b then x :: select mask' l' else select mask' l'
  | _, _ => []
  end.

(** [df.drop_duplicates(inplace=True)]; pandas returns an empty frame as it is. *)
Definition drop_duplicates (df : DataFrame) : DataFrame :=
  if DataFrame_empty df then df
  else
    let keep := negb <$> duplicated df in
    mkDataFrame (length (select keep keep))
                ((fun cv => (cv.1, select keep cv.2)) <$> columns df).

(** ** Series operations *)

Definition str_of_bool (b : bool) : string := if b then "True" else "False".

(** [astype(str)] of one cell. *)
Definition astype_str (rt : Runtime) (v : value) : string :=
  match v with
  | NA => "nan"
  | Str s => s
  | Int z => pretty z
  | Flt x => repr_float rt x
  | Bool b => str_of_bool b
  | Dt t => repr_timestamp rt t
  end.

(** [fillna(fill)] *)
Definition fillna (fill : value) (vs : list value) : list value :=
  (fun v => if isnull v then fill else v) <$> vs.

(** [pd.to_datetime(s, format=fmt, errors='coerce')]: dates pass, missing
    values stay missing, anything else is parsed from its text, and a
    parse failure is coerced to NaT. *)
Definition to_datetime_cell (rt : Runtime) (fmt : string) (v : value) : value :=
  match v with
  | NA => NA
  | Dt t => Dt t
  | _ => match strptime rt fmt (astype_str rt v) with
         | Some t => Dt t
         | None => NA
         end
  end.

Definition to_datetime (rt : Runtime) (fmt : string) (vs : list value) : list value :=
  to_datetime_cell rt fmt <$> vs.

(** [s.map(d)] for a dict [d] over strings: a key that is absent maps to NaN. *)
Definition map_dict (d : list (string * bool)) (s : string) : value :=
  match list_find (fun kv => kv.1 = s) d with
  | Some (_, (_, b)) => Bool b
  | None => NA
  end.

(** The shapes of the cells of a column. *)
Definition date_cell (v : value) : bool :=
  match v with NA | Dt _ => true | _ => false end.
Definition bool_cell (v : value) : bool :=
  match v with Bool _ => true | _ => false end.
Definition int64_cell (v : value) : bool :=
  match v with Int _ => true | _ => false end.
Definition float_or_nan_cell (v : value) : bool :=
  match v with NA | Flt _ => true | _ => false end.

(** The dtype of a column is the one pandas infers from its cells: a
    column of booleans only is a [bool] column, and a column of dates and
    missing dates only, with a date in it, is a [datetime64] column. *)
Definition bool_column (vs : list value) : bool := forallb bool_cell vs.

Definition datetime_column (vs : list value) : bool :=
  forallb date_cell vs && existsb (fun v => negb (isnull v)) vs.

(** The day count of a civil date from 1970-01-01. *)
Definition days_from_civil (y m d : Z) : Z :=
  let y := if m <=? 2 then y - 1 else y in
  let era := y / 400 in
  let yoe := y - era * 400 in
  let doy := (153 * (if 2 <? m then m - 3 else m + 9) + 2) / 5 + d - 1 in
  let doe := yoe * 365 + yoe / 4 - yoe / 100 + doy in
  era * 146097 + doe - 719468.

(** [Timestamp.value]: nanoseconds since the epoch. *)
Definition timestamp_value (t : Timestamp) : Z :=
  days_from_civil (ts_year t) (ts_month t) (ts_day t) * 86400000000000.

(** The integer that stands for NaT in a [datetime64] column. *)
Definition iNaT : Z := - 2 ^ 63.

(** [values.view(np.int64)] of a [datetime64] column, for one cell. *)
Definition datetime_as_int (v : value) : value :=
  match v with
  | Dt t => Int (timestamp_value t)
  | _ => Int iNaT
  end.

(** The [float64] nearest to an integer (ties to even): exact up to 2^53,
    infinite from 2^1024 on. *)
Definition float_of_Z (z : Z) : float64 :=
  let a := Z.abs z in
  if a <? 2 ^ 53 then Finite (inject_Z z)
  else
    let e := Z.log2 a - 52 in
    let q := a / 2 ^ e in
    let r := a mod 2 ^ e in
    let half := 2 ^ (e - 1) in
    let m := if r <? half then q
             else if half <? r then q + 1
             else if Z.even q then q else q + 1 in
    let v := m * 2 ^ e in
    if 2 ^ 1024 <=? v then Inf (z <? 0) else Finite (inject_Z (Z.sgn z * v)).

(** One cell of a column of mixed content in [pd.to_numeric(s,
    errors='coerce')]: text goes through the parser, a bool counts as 0 or
    1, and what is no number (a date among them) is NaN. *)
Definition coerce_cell (rt : Runtime) (v : value) : option number :=
  match v with
  | NA => None
  | Str s => floatify rt s
  | Int z => Some (NInt z)
  | Flt x => Some (NFlt x)
  | Bool b => Some (NInt (if b then 1 else 0))
  | Dt _ => None
  end.

Definition is_int (n : option number) : bool :=
  match n with Some (NInt _) => true | _ => false end.

Definition int_cell (n : option number) : value :=
  match n with Some (NInt z) => Int z | Some (NFlt x) => Flt x | None => NA end.

Definition float_cell (n : option number) : value :=
  match n with
  | Some (NInt z) => Flt (float_of_Z z)
  | Some (NFlt x) => Flt x
  | None => NA
  end.

(** [pd.to_numeric(s, errors='coerce')].  A [bool] column is numeric
    already and is returned as it is; a [datetime64] column is read as its
    nanosecond counts (NaT as the least integer); any other column goes
    cell by cell, and the result is an [int64] column when every cell is an
    integer and a [float64] column (NaN for what does not parse, integers
    rounded to floats) otherwise. *)
Definition to_numeric (rt : Runtime) (vs : list value) : list value :=
  if bool_column vs then vs
  else if datetime_column vs then datetime_as_int <$> vs
  else
    let ns := coerce_cell rt <$> vs in
    if forallb is_int ns then int_cell <$> ns else float_cell <$> ns.

(** Truncation toward zero, as the float to [int64] cast does. *)
Definition Qtrunc (q : Q) : Z := Z.quot (Qnum q) (Z.pos (Qden q)).

(** [astype(int)] of one cell of a numeric column.  (What the cast makes
    of a float beyond the range of [int64] is left as the truncation.) *)
Definition astype_int_cell (v : value) : result value :=
  match v with
  | Int z => Ok (Int z)
  | Flt (Finite q) => Ok (Int (Qtrunc q))
  | Bool b => Ok (Int (if b then 1 else 0))
  | NA | Flt (Inf _) => Raise IntCastingNaNError
  | Str _ | Dt _ => Raise (OtherError "astype")
  end.

Fixpoint astype_int (vs : list value) : result (list value) :=
  match vs with
  | [] => Ok []
  | v :: vs' =>
      z ← astype_int_cell v;
      zs ← astype_int vs';
      Ok (z :: zs)
  end.

Definition cell_float (v : value) : option float64 :=
  match v with
  | Int z => Some (Finite (inject_Z z))
  | Flt x => Some x
  | _ => None
  end.

(** The number a cell counts as in arithmetic and comparisons: a bool is 0
    or 1. *)
Definition cell_number (v : value) : option float64 :=
  match v with
  | Int z => Some (Finite (inject_Z z))
  | Flt x => Some x
  | Bool b => Some (Finite (inject_Z (if b then 1 else 0)))
  | _ => None
  end.

(** [s.mean()], skipping missing cells; [None] is NaN. *)
Definition mean (rt : Runtime) (vs : list value) : option float64 :=
  match omap cell_number vs with
  | [] => None
  | xs => fmean rt xs
  end.

(** [s.fillna(s.mean())]: filling with NaN changes nothing. *)
Definition fillna_mean (rt : Runtime) (vs : list value) : list value :=
  match mean rt vs with
  | Some m => fillna (Flt m) vs
  | None => vs
  end.

(** [s.dt.year]: a float column with NaN where the date is missing. *)
Definition dt_year (vs : list value) : list value :=
  (fun v => match v with
            | Dt t => Flt (Finite (inject_Z (ts_year t)))
            | _ => NA
            end) <$> vs.

(** ** The cleaning engine: [initial_data_cleaning] *)

Fixpoint foldM {A B} (f : B -> A -> result B) (l : list A) (b : B) : result B :=
  match l with
  | [] => Ok b
  | a :: l' => b' ← f b a; foldM f l' b'
  end.

Definition date_format : string := "%d-%m-%Y".

Definition flag_cols : list string :=
  ["Flyover_Observed"; "PIF_Watchlist_Status"; "Regional_Stewardship_Status"].

Definition flag_dict : list (string * bool) := [("TRUE", true); ("FALSE", false)].

Definition numeric_cols : list string :=
  ["Temperature"; "Humidity"; "Initial_Three_Min_Cnt"; "AcceptedTSN"; "AOU_Code"; "Visit"].

Definition count_cols : list string := ["Initial_Three_Min_Cnt"; "Visit"].
Definition code_cols : list string := ["AcceptedTSN"; "AOU_Code"].

Definition categorical_cols : list string :=
  ["Sex"; "ID_Method"; "Distance"; "Sky"; "Wind"; "Disturbance";
   "Common_Name"; "Scientific_Name"; "Sub_Unit_Code"; "Site_Name";
   "Plot_Name"; "Observer"; "Interval_Length"; "NPSTaxonCode";
   "TaxonCode"; "Previously_Obs"].

(** [df[col].astype(str).str.upper().map({'TRUE': True, 'FALSE': False}).fillna(False)] *)
Definition normalize_flags (rt : Runtime) (vs : list value) : list value :=
  fillna (Bool false) ((fun v => map_dict flag_dict (upper (astype_str rt v))) <$> vs).

(** One round of the loop over the flag columns. *)
Definition flag_step (rt : Runtime) (df : DataFrame) (col : string) : result DataFrame :=
  if has_col col df then
    s ← getitem col df;
    Ok (setitem col (normalize_flags rt s) df)
  else Ok df.

(** The role-dependent fill of a column [to_numeric] has coerced. *)
Definition fill_numeric (rt : Runtime) (col : string) (s : list value)
  : result (list value) :=
  if bool_decide (col ∈ count_cols) then
    astype_int (fillna (Flt (Finite 0%Q)) s)
  else if bool_decide (col ∈ code_cols) then
    astype_int (fillna (Flt (Finite (-1)%Q)) s)
  else if negb (forallb isnull s) then
    Ok (fillna_mean rt s)
  else
    Ok (fillna (Flt (Finite 0%Q)) s).

(** One round of the loop over the numeric columns. *)
Definition numeric_step (rt : Runtime) (df : DataFrame) (col : string) : result DataFrame :=
  if has_col col df then
    s ← getitem col df;
    let df := setitem col (to_numeric rt s) df in
    s ← getitem col df;
    s' ← fill_numeric rt col s;
    Ok (setitem col s' df)
  else Ok df.

(** One round of the loop over the categorical columns. *)
Definition categorical_step (df : DataFrame) (col : string) : result DataFrame :=
  if has_col col df then
    s ← getitem col df;
    Ok (setitem col (fillna (Str "Unknown") s) df)
  else Ok df.

Definition derive_year (df : DataFrame) : result DataFrame :=
  if negb (has_col "Year" df) && has_col "Date" df then
    date ← getitem "Date" df;
    year ← astype_int (fillna (Flt (Finite 0%Q)) (dt_year date));
    Ok (setitem "Year" year df)
  else Ok df.

(** The statements of [initial_data_cleaning] in source order (its [print]
    calls, which only report the shape, are left out). *)
Definition initial_data_cleaning (rt : Runtime) (df : DataFrame) : result DataFrame :=
  let df := drop_duplicates df in
  date ← getitem "Date" df;
  let df := setitem "Date" (to_datetime rt date_format date) df in
  df ← foldM (flag_step rt) flag_cols df;
  df ← foldM (numeric_step rt) numeric_cols df;
  df ← foldM categorical_step categorical_cols df;
  derive_year df.

(** ** A reference runtime

    Executable text conversions, used where a statement is evaluated on a
    concrete table.  [strptime] interprets the directives [%d], [%m], [%Y]
    and literal characters and keeps to the range of a nanosecond
    [Timestamp]; [floatify] reads decimal literals (sign, digits, fraction,
    exponent) between blanks, rounded to [float64], and the spellings of
    infinity and NaN; [fmean] adds and divides in [float64]; [repr_float]
    prints integral values and terminating fractions. *)
Module Ref.

Definition digit_of (c : Ascii.ascii) : option Z :=
  let n := Ascii.N_of_ascii c in
  if ((48 <=? n) && (n <=? 57))%N then Some (Z.of_N (n - 48)) else None.

(** At most [fuel] leading digits of [s]: their value, their number, the rest. *)
Fixpoint take_digits (fuel : nat) (acc : Z) (cnt : nat) (s : string) : Z * nat * string :=
  match fuel, s with
  | S fuel', String c s' =>
      match digit_of c with
      | Some d => take_digits fuel' (acc * 10 + d) (S cnt) s'
      | None => (acc, cnt, s)
      end
  | _, _ => (acc, cnt, s)
  end.

Definition is_leap (y : Z) : bool :=
  ((y mod 4 =? 0) && negb (y mod 100 =? 0)) || (y mod 400 =? 0).

Definition days_in_month (y m : Z) : Z :=
  if m =? 2 then (if is_leap y then 29 else 28)
  else if (m =? 4) || (m =? 6) || (m =? 9) || (m =? 11) then 30
  else 31.

(** [Timestamp.min] is 1677-09-21 00:12:43, [Timestamp.max] 2262-04-11 23:47:16. *)
Definition in_bounds (y m d : Z) : bool :=
  let n := y * 10000 + m * 100 + d in
  (16770922 <=? n) && (n <=? 22620411).

Fixpoint strptime_go (fmt s : string) (y m d : Z) : option Timestamp :=
  match fmt with
  | EmptyString =>
      match s with
      | EmptyString =>
          if (d <=? days_in_month y m) && in_bounds y m d
          then Some (mkTimestamp y m d) else None
      | _ => None
      end
  | String "%"%char (String k fmt') =>
      if Ascii.eqb k "d"%char then
        let s := match s with
                 | String " "%char (String c s') =>
                     match digit_of c with
                     | Some _ => String "0"%char (String c s')
                     | None => s
                     end
                 | _ => s
                 end in
        let '(v, n, s') := take_digits 2 0 0%nat s in
        if (0 <? Z.of_nat n) && (1 <=? v) && (v <=? 31) then strptime_go fmt' s' y m v else None
      else if Ascii.eqb k "m"%char then
        let '(v, n, s') := take_digits 2 0 0%nat s in
        if (0 <? Z.of_nat n) && (1 <=? v) && (v <=? 12) then strptime_go fmt' s' y v d else None
      else if Ascii.eqb k "Y"%char then
        let '(v, n, s') := take_digits 4 0 0%nat s in
        if Z.of_nat n =? 4 then strptime_go fmt' s' v m d else None
      else None
  | String c fmt' =>
      match s with
      | String c' s' => if Ascii.eqb c c' then strptime_go fmt' s' y m d else None
      | EmptyString => None
      end
  end.

Definition strptime (fmt s : string) : option Timestamp := strptime_go fmt s 1900 1 1.

Definition split_sign (s : string) : bool * string :=
  match s with
  | String "-"%char s' => (true, s')
  | String "+"%char s' => (false, s')
  | _ => (false, s)
  end.

Definition pow10 (e : Z) : Q :=
  if 0 <=? e then inject_Z (10 ^ e) else (1 / inject_Z (10 ^ (- e)))%Q.

(** An optional exponent part, then the end of the text. *)
Definition exponent (s : string) : option Z :=
  match s with
  | EmptyString => Some 0
  | String c s' =>
      if Ascii.eqb (lower_ascii c) "e"%char then
        let '(neg, s'') := split_sign s' in
        let '(v, n, rest) := take_digits (String.length s'') 0 0%nat s'' in
        match n, rest with
        | S _, EmptyString => Some (if neg then - v else v)
        | _, _ => None
        end
      else None
  end.

(** The [float64] nearest to a rational (ties to even), with gradual
    underflow and overflow to infinity. *)
Definition round_float (q : Q) : float64 :=
  let n := Z.abs (Qnum q) in
  let d := Z.pos (Qden q) in
  if n =? 0 then Finite 0%Q
  else
    let e0 := Z.log2 n - Z.log2 d in
    let ge := if 0 <=? e0 then d * 2 ^ e0 <=? n else d <=? n * 2 ^ (- e0) in
    let e := if ge then e0 else e0 - 1 in
    let p := Z.max (e - 52) (-1074) in
    let num := if 0 <=? p then n else n * 2 ^ (- p) in
    let den := if 0 <=? p then d * 2 ^ p else d in
    let qo := num / den in
    let r := num mod den in
    let m := if 2 * r <? den then qo
             else if den <? 2 * r then qo + 1
             else if Z.even qo then qo else qo + 1 in
    let neg := Qnum q <? 0 in
    let sm := if neg then - m else m in
    if 0 <=? p then
      if 2 ^ 1024 <=? m * 2 ^ p then Inf neg else Finite (inject_Z (sm * 2 ^ p))
    else Finite (Qred (Qmake sm (Z.to_pos (2 ^ (- p))))).

Definition floatify (s : string) : option number :=
  let '(neg, body) := split_sign (strip s) in
  let sgn (q : Q) : Q := if neg then (- q)%Q else q in
  let low := lower body in
  if bool_decide (low = "inf") || bool_decide (low = "infinity") then Some (NFlt (Inf neg))
  else
    let '(ip, n, rest) := take_digits (String.length body) 0 0%nat body in
    match rest with
    | EmptyString =>
        match n with
        | O => None
        | S _ => Some (NInt (if neg then - ip else ip))
        end
    | String "."%char rest' =>
        let '(fp, k, rest'') := take_digits (String.length rest') 0 0%nat rest' in
        match (n + k)%nat, exponent rest'' with
        | S _, Some e =>
            let mant := (inject_Z ip + inject_Z fp * pow10 (- Z.of_nat k))%Q in
            Some (NFlt (round_float (sgn (mant * pow10 e)%Q)))
        | _, _ => None
        end
    | _ =>
        match n, exponent rest with
        | S _, Some e => Some (NFlt (round_float (sgn (inject_Z ip * pow10 e)%Q)))
        | _, _ => None
        end
    end.

(** The digits of the fraction [r / d] (with [0 <= r < d]), at most [fuel] of them. *)
Fixpoint frac_digits (fuel : nat) (r d : Z) : string :=
  match fuel with
  | O => ""
  | S fuel' =>
      if r =? 0 then ""
      else pretty (r * 10 / d) +:+ frac_digits fuel' (r * 10 mod d) d
  end.

Definition repr_float (x : float64) : string :=
  match x with
  | Inf neg => if neg then "-inf" else "inf"
  | Finite q =>
      let q := Qred q in
      let n := Z.abs (Qnum q) in
      let d := Z.pos (Qden q) in
      let sign : string := if Qnum q <? 0 then "-" else "" in
      let frac := frac_digits 17 (n mod d) d in
      sign +:+ pretty (n / d) +:+ "." +:+ (if bool_decide (frac = "") then "0" else frac)
  end.

Definition pad (width : nat) (z : Z) : string :=
  let s := pretty z in
  String.concat "" (replicate (width - String.length s) "0") +:+ s.

Definition repr_timestamp (t : Timestamp) : string :=
  pad 4 (ts_year t) +:+ "-" +:+ pad 2 (ts_month t) +:+ "-" +:+ pad 2 (ts_day t)
    +:+ " 00:00:00".

(** Abridged renderings of the summary texts. *)
Definition frame_info (df : DataFrame) : string :=
  "DataFrame: " +:+ pretty (index_len df) +:+ " entries, "
    +:+ pretty (length (columns df)) +:+ " columns".

Definition null_counts (df : DataFrame) : string :=
  String.concat ", "
    (omap (fun cv : string * list value =>
             let n := length (filter (fun v => isnull v = true) cv.2) in
             if bool_decide (n = 0%nat) then None else Some (cv.1 +:+ " " +:+ pretty n))
          (columns df)).

(** The reference mean adds the values one after the other and divides
    the sum by their number, rounding each result to [float64]. *)
Definition float_add (x y : float64) : option float64 :=
  match x, y with
  | Finite a, Finite b => Some (round_float (a + b)%Q)
  | Inf s, Finite _ | Finite _, Inf s => Some (Inf s)
  | Inf s, Inf s' => if decide (s = s') then Some (Inf s) else None
  end.

Definition float_div_nat (x : float64) (n : nat) : float64 :=
  match x with
  | Finite a => round_float (a / inject_Z (Z.of_nat n))%Q
  | Inf s => Inf s
  end.

Fixpoint float_sum (acc : float64) (xs : list float64) : option float64 :=
  match xs with
  | [] => Some acc
  | x :: xs' => acc' ← float_add acc x; float_sum acc' xs'
  end.

Definition fmean (xs : list float64) : option float64 :=
  s ← float_sum (Finite 0%Q) xs; Some (float_div_nat s (length xs)).

Definition runtime : Runtime :=
  mkRuntime strptime floatify repr_float repr_timestamp frame_info null_counts fmean.

End Ref.

(** ** The world of the script: files, the PostgreSQL server, standard output *)

Inductive file :=
| Workbook (sheets : list (string * DataFrame))   (* sheet name, sheet *)
| Unreadable (e : exn)                            (* [read_excel] raises on it *)
| Csv (df : DataFrame).

(** The server the connection string points at: it refuses the connection
    with [connect_error], or holds [tables]. *)
Record Database := mkDatabase {
  connect_error : option exn;
  tables : gmap string DataFrame
}.

Record World := mkWorld {
  sep : string;                     (* [os.sep] *)
  cwd : string;                     (* [os.getcwd()] *)
  files : gmap string file;
  database : Database;
  stdout : list string              (* the lines printed so far *)
}.

Definition print (line : string) (w : World) : World :=
  mkWorld (sep w) (cwd w) (files w) (database w) (stdout w ++ [line]).

Definition set_files (fs : gmap string file) (w : World) : World :=
  mkWorld (sep w) (cwd w) fs (database w) (stdout w).

Definition set_database (db : Database) (w : World) : World :=
  mkWorld (sep w) (cwd w) (files w) db (stdout w).

Fixpoint ends_with (suffix s : string) : bool :=
  bool_decide (s = suffix) ||
  match s with
  | EmptyString => false
  | String _ s' => ends_with suffix s'
  end.

(** [os.path.join] of a directory and a bare file name. *)
Definition path_join (w : World) (a b : string) : string :=
  if bool_decide (a = "") then b
  else if ends_with (sep w) a then a +:+ b
  else a +:+ sep w +:+ b.

(** [os.path.exists] *)
Definition path_exists (w : World) (p : string) : bool :=
  bool_decide (is_Some (files w !! p)).

(** [pd.read_excel(p, sheet_name=None, engine='openpyxl')] *)
Definition read_excel (w : World) (p : string) : result (list (string * DataFrame)) :=
  match files w !! p with
  | Some (Workbook sheets) => Ok sheets
  | Some (Unreadable e) => Raise e
  | Some (Csv _) => Raise (OtherError "File is not a zip file")
  | None => Raise (OtherError "No such file or directory")
  end.

(** [str(e)] *)
Definition str_exn (e : exn) : string :=
  match e with
  | KeyError k => "'" +:+ k +:+ "'"
  | IntCastingNaNError => "Cannot convert non-finite values (NA or inf) to integer"
  | OtherError msg => msg
  end.

(** [try: body except Exception as e: handler(e)] *)
Definition try_except {A} (body : result A) (handler : exn -> result A) : result A :=
  match body with
  | Ok a => Ok a
  | Raise e => handler e
  end.

(** ** The source loader: [load_and_combine_data] *)

Definition excel_files : list (string * string) :=
  [("FOREST", "Bird_Monitoring_Data_FOREST.XLSX");
   ("GRASSLAND", "Bird_Monitoring_Data_GRASSLAND.XLSX")].

(** [df[c] = scalar]: the scalar in every row. *)
Definition setitem_scalar (c : string) (v : value) (df : DataFrame) : DataFrame :=
  setitem c (replicate (index_len df) v) df.

(** The names of [l] in order of first appearance. *)
Fixpoint unique_from (seen l : list string) : list string :=
  match l with
  | [] => []
  | x :: l' =>
      if bool_decide (x ∈ seen) then unique_from seen l'
      else x :: unique_from (x :: seen) l'
  end.

(** The column [c] of [df] as [concat] sees it: NaN where the frame lacks it. *)
Definition column_or_nan (c : string) (df : DataFrame) : list value :=
  match lookup_col c (columns df) with
  | Some vs => vs
  | None => replicate (index_len df) NA
  end.

(** [pd.concat(dfs, ignore_index=True)] *)
Definition concat (dfs : list DataFrame) : DataFrame :=
  let names := unique_from [] (dfs ≫= column_names) in
  mkDataFrame (sum_list (index_len <$> dfs))
              ((fun c => (c, dfs ≫= column_or_nan c)) <$> names).

(** The body of the loop over the sheets of one workbook. *)
Definition load_sheet (location_type : string)
    (st : list DataFrame * World) (sheet : string * DataFrame) : list DataFrame * World :=
  let '(all_data, w) := st in
  let '(sheet_name, df_sheet) := sheet in
  let df_sheet := setitem_scalar "Location_Type" (Str (capitalize location_type)) df_sheet in
  let df_sheet := setitem_scalar "Admin_Unit_Code" (Str sheet_name) df_sheet in
  (all_data ++ [df_sheet],
   print ("  - Loaded sheet: '" +:+ sheet_name +:+ "' (" +:+ pretty (index_len df_sheet)
          +:+ " rows)") w).

(** The body of the loop over [excel_files]. *)
Definition load_file (folder_path : string)
    (st : list DataFrame * World) (entry : string * string) : result (list DataFrame * World) :=
  let '(all_data, w) := st in
  let '(location_type, filename_excel) := entry in
  let file_path := path_join w folder_path filename_excel in
  if negb (path_exists w file_path) then
    Ok (all_data,
        print ("Error: Excel file '" +:+ filename_excel +:+ "' not found at '" +:+ file_path
               +:+ "'. Please ensure it's in the project folder.") w)
  else
    let w := print ("Reading all sheets from '" +:+ filename_excel +:+ "' for "
                    +:+ location_type +:+ " data...") w in
    try_except
      (excel_sheets_dict ← read_excel w file_path;
       Ok (fold_left (load_sheet location_type) excel_sheets_dict (all_data, w)))
      (fun e => Ok (all_data,
                    print ("Error reading Excel file " +:+ filename_excel +:+ ": "
                           +:+ str_exn e) w)).

(** The loader over an arbitrary table of sources. *)
Definition load_sources (sources : list (string * string)) (folder_path : string) (w : World)
  : result (DataFrame * World) :=
  '(all_data, w) ← foldM (load_file folder_path) sources ([], w);
  if bool_decide (all_data = []) then
    Ok (DataFrame_new,
        print "No data was loaded from Excel files. Please check file names and paths." w)
  else Ok (concat all_data, w).

Definition load_and_combine_data (folder_path : string) (w : World) : result (DataFrame * World) :=
  load_sources excel_files folder_path w.

(** ** The persistence sink: [upload_to_sql] *)

Definition hex_digit (n : N) : Ascii.ascii :=
  if (n <? 10)%N then Ascii.ascii_of_N (48 + n) else Ascii.ascii_of_N (55 + n).

Definition unreserved (c : Ascii.ascii) : bool :=
  let n := Ascii.N_of_ascii c in
  ((48 <=? n) && (n <=? 57) || (65 <=? n) && (n <=? 90) || (97 <=? n) && (n <=? 122))%N
  || bool_decide (c ∈ ["_"; "."; "-"; "~"]%char).

(** [urllib.parse.quote_plus] *)
Fixpoint quote_plus (s : string) : string :=
  match s with
  | EmptyString => EmptyString
  | String c s' =>
      if unreserved c then String c (quote_plus s')
      else if Ascii.eqb c " "%char then String "+"%char (quote_plus s')
      else
        let n := Ascii.N_of_ascii c in
        String "%"%char (String (hex_digit (n / 16)) (String (hex_digit (n mod 16)) (quote_plus s')))
  end.

Definition PG_USERNAME : string := "postgres".
Definition PG_PASSWORD : string := "Roshan@2025".
Definition PG_HOST : string := "localhost".
Definition PG_PORT : string := "5432".
Definition PG_DB_NAME : string := "bird_analysis_db".

Record Engine := mkEngine { url : string }.

(** [sqlalchemy.create_engine]: lazy, no connection is opened yet. *)
Definition create_engine (db_connection_str : string) : Engine := mkEngine db_connection_str.

Inductive if_exists_policy := fail | replace | append.

(** [pd.concat] of an existing table and new rows, for [if_exists='append']. *)
Definition append_rows (old new : DataFrame) : DataFrame := concat [old; new].

(** [df.to_sql(name, engine, if_exists=policy, index=False)]: one connection
    attempt; with the server reached, the table is written as a whole. *)
Definition to_sql (name : string) (engine : Engine) (policy : if_exists_policy)
    (df : DataFrame) (db : Database) : result Database :=
  match connect_error db with
  | Some e => Raise e
  | None =>
      match tables db !! name, policy with
      | Some _, fail => Raise (OtherError ("Table '" +:+ name +:+ "' already exists."))
      | Some old, append => Ok (mkDatabase None (<[name := append_rows old df]> (tables db)))
      | _, _ => Ok (mkDatabase None (<[name := df]> (tables db)))
      end
  end.

Definition db_connection_str : string :=
  "postgresql://" +:+ PG_USERNAME +:+ ":" +:+ quote_plus PG_PASSWORD +:+ "@" +:+ PG_HOST
    +:+ ":" +:+ PG_PORT +:+ "/" +:+ PG_DB_NAME.

Definition masked_connection_line : string :=
  "Attempted connection string (without password shown): postgresql://" +:+ PG_USERNAME
    +:+ ":*****@" +:+ PG_HOST +:+ ":" +:+ PG_PORT +:+ "/" +:+ PG_DB_NAME.

Definition upload_to_sql (df : DataFrame) (w : World) : result World :=
  let engine := create_engine db_connection_str in
  let w := print ("Uploading data to PostgreSQL database: " +:+ PG_DB_NAME +:+ "...") w in
  try_except
    (db ← to_sql "bird_observations" engine replace df (database w);
     Ok (print "Data uploaded successfully to PostgreSQL." (set_database db w)))
    (fun e =>
       let w := print ("Error uploading data to PostgreSQL: " +:+ str_exn e) w in
       let w := print "Please ensure your PostgreSQL server is running and connection details in this script are correct." w in
       Ok (print masked_connection_line w)).

(** ** The script: [__main__] *)

(** [df.to_csv(name, index=False)], in the current directory. *)
Definition to_csv (df : DataFrame) (name : string) (w : World) : World :=
  set_files (<[path_join w (cwd w) name := Csv df]> (files w)) w.

Definition backup_name : string := "cleaned_bird_observations.csv".

Definition newline : string := String (Ascii.ascii_of_N 10) "".

(** [stdout] gets one entry per [print] call (and one for what [info()]
    writes itself). *)
Definition main (rt : Runtime) (w : World) : result World :=
  let current_directory := cwd w in
  let w := print "Starting data ingestion and cleaning process..." w in
  '(combined_df, w) ← load_and_combine_data current_directory w;
  if negb (DataFrame_empty combined_df) then
    let w := print "Performing initial data cleaning..." w in
    cleaned_df ← initial_data_cleaning rt combined_df;
    let w := print (newline +:+ "--- Data Cleaning Summary ---") w in
    let w := print (frame_info rt cleaned_df) w in
    let w := print "None" w in
    let w := print (newline +:+ "Missing values after cleaning (should be few or none for key columns):") w in
    let w := print (null_counts rt cleaned_df) w in
    let w := to_csv cleaned_df backup_name w in
    let w := print (newline +:+ "Cleaned data saved to 'cleaned_bird_observations.csv'") w in
    upload_to_sql cleaned_df w
  else
    Ok (print "No data was loaded. Please check if Excel files are in the correct directory and named correctly." w).

(** Whether [needle] occurs in [s]. *)
Fixpoint occurs_in (needle s : string) : bool :=
  String.prefix needle s ||
  match s with
  | EmptyString => false
  | String _ s' => occurs_in needle s'
  end.

(** ** The loops over column lists, seen column by column

    Each loop body reads a column only behind its [if col in df.columns]
    guard, so it is the update of that one column by a function [F], and
    does nothing on a frame without the column. *)
Definition step_spec (step : DataFrame -> string -> result DataFrame)
    (F : string -> list value -> result (list value)) : Prop :=
  forall df c,
    step df c =
    match lookup_col c (columns df) with
    | None => Ok df
    | Some vs => s ← F c vs; Ok (setitem c s df)
    end.

Definition F_flag (rt : Runtime) (_ : string) (vs : list value) : result (list value) :=
  Ok (normalize_flags rt vs).
Definition F_numeric (rt : Runtime) (c : string) (vs : list value) : result (list value) :=
  fill_numeric rt c (to_numeric rt vs).
Definition F_categorical (_ : string) (vs : list value) : result (list value) :=
  Ok (fillna (Str "Unknown") vs).

(** What the engine does to the column named [c], all stages taken together. *)
Definition clean_column (rt : Runtime) (c : string) (vs : list value) : result (list value) :=
  if decide (c = "Date") then Ok (to_datetime rt date_format vs)
  else if decide (c ∈ flag_cols) then F_flag rt c vs
  else if decide (c ∈ numeric_cols) then F_numeric rt c vs
  else if decide (c ∈ categorical_cols) then F_categorical c vs
  else Ok vs.

(** The [Year] column the engine derives from the parsed dates. *)
Definition year_cell (v : value) : value :=
  match v with
  | Dt t => Int (ts_year t)
  | _ => Int 0
  end.

(** What [drop_duplicates] keeps of a column of [df]. *)
Definition dedup_col (df : DataFrame) (vs : list value) : list value :=
  if DataFrame_empty df then vs else select (negb <$> duplicated df) vs.

(** A cell of a numeric column: a number or NaN. *)
Definition numeric_cell (v : value) : bool :=
  match v with NA | Int _ | Flt _ | Bool _ => true | _ => false end.

Definition is_inf (v : value) : bool :=
  match v with Flt (Inf _) => true | _ => false end.

(** ** Sample tables *)
Module Sample.

(** Four raw observations; the last repeats the first. *)
Definition survey : DataFrame :=
  mkDataFrame 4
    [("Date", [Str "25-01-2023"; Str "unknown"; Dt (mkTimestamp 2023 2 3); Str "25-01-2023"]);
     ("Start_Time", [Str "06:00:00"; NA; Str "07:30:00"; Str "06:00:00"]);
     ("Common_Name", [Str "Wood Thrush"; Str "Eastern Towhee"; NA; Str "Wood Thrush"]);
     ("Sex", [NA; Str "Male"; Str "Female"; NA]);
     ("Temperature", [Int 10; Str "N/A"; Int 20; Int 10]);
     ("Humidity", [NA; Str "-"; NA; NA]);
     ("Visit", [Int 1; Str "x"; Flt (Finite (5 # 2)); Int 1]);
     ("AOU_Code", [Str "WOTH"; NA; Int 7; Str "WOTH"]);
     ("Flyover_Observed", [Str "true"; NA; Str "Yes"; Str "true"])].

Definition survey_cleaned : DataFrame :=
  mkDataFrame 3
    [("Date", [Dt (mkTimestamp 2023 1 25); NA; Dt (mkTimestamp 2023 2 3)]);
     ("Start_Time", [Str "06:00:00"; NA; Str "07:30:00"]);
     ("Common_Name", [Str "Wood Thrush"; Str "Eastern Towhee"; Str "Unknown"]);
     ("Sex", [Str "Unknown"; Str "Male"; Str "Female"]);
     ("Temperature", [Flt (Finite 10%Q); Flt (Finite 15%Q); Flt (Finite 20%Q)]);
     ("Humidity", [Flt (Finite 0%Q); Flt (Finite 0%Q); Flt (Finite 0%Q)]);
     ("Visit", [Int 1; Int 0; Int 2]);
     ("AOU_Code", [Int (-1); Int (-1); Int 7]);
     ("Flyover_Observed", [Bool true; Bool false; Bool false]);
     ("Year", [Int 2023; Int 0; Int 2023])].


(** Three observations whose [Visit] cells are a number and two texts, one
    of them the text [inf]. *)
Definition infinite_visit : DataFrame :=
  mkDataFrame 3
    [("Date", [Str "01-01-2020"; Str "02-01-2020"; Str "03-01-2020"]);
     ("Visit", [Int 1; Str "inf"; Str "unknown"])].

(** The same cells in [Temperature]. *)
Definition infinite_temperature : DataFrame :=
  mkDataFrame 3
    [("Date", [Str "01-01-2020"; Str "02-01-2020"; Str "03-01-2020"]);
     ("Temperature", [Int 1; Str "inf"; Str "unknown"])].

(** Two observations that differ in the spelling of a flag only, and
    temperatures whose [float64] sum overflows to infinity and then meets
    the opposite infinity: their mean is NaN. *)
Definition overflowing_mean : DataFrame :=
  mkDataFrame 4
    [("Date", [Str "01-01-2020"; Str "01-01-2020"; Str "02-01-2020"; Str "03-01-2020"]);
     ("Flyover_Observed", [Str "TRUE"; Str "true"; Str "TRUE"; Str "TRUE"]);
     ("Temperature", [Str "1e308"; Str "1e308"; Str "-inf"; Str "unknown"])].

(** The one sheet of the FOREST workbook: the third row repeats the first. *)
Definition unit1 : DataFrame :=
  mkDataFrame 3
    [("Date", [Str "25-01-2023"; Str "26-01-2023"; Str "25-01-2023"]);
     ("Common_Name", [Str "Wood Thrush"; Str "Eastern Towhee"; Str "Wood Thrush"]);
     ("Visit", [Int 1; Int 2; Int 1])].

(** A project folder that holds the FOREST workbook and nothing else; the
    server accepts connections and has no table yet. *)
Definition forest_only : World :=
  mkWorld "/" "/project"
    {[ "/project/Bird_Monitoring_Data_FOREST.XLSX" := Workbook [("UNIT1", unit1)] ]}
    (mkDatabase None ∅) [].

(** A project folder without any workbook. *)
Definition empty_folder : World :=
  mkWorld "/" "/project" ∅ (mkDatabase None ∅) [].

(** The folder with the FOREST workbook, and a server that refuses the
    connection while an older table is still stored on it. *)
Definition server_down : World :=
  mkWorld "/" "/project"
    {[ "/project/Bird_Monitoring_Data_FOREST.XLSX" := Workbook [("UNIT1", unit1)] ]}
    (mkDatabase (Some (OtherError "connection refused"))
                {[ "bird_observations" := survey_cleaned ]}) [].

(** Two observations that differ in the spelling of one flag only. *)
Definition flag_spelling : DataFrame :=
  mkDataFrame 2
    [("Date", [Str "01-01-2020"; Str "01-01-2020"]);
     ("Flyover_Observed", [Str "TRUE"; Str "true"])].

Definition flag_spelling_cleaned : DataFrame :=
  mkDataFrame 2
    [("Date", [Dt (mkTimestamp 2020 1 1); Dt (mkTimestamp 2020 1 1)]);
     ("Flyover_Observed", [Bool true; Bool true]);
     ("Year", [Int 2020; Int 2020])].

(** A folder whose FOREST workbook is damaged and whose GRASSLAND workbook
    holds the sheet [unit1]. *)
Definition damaged_forest : World :=
  mkWorld "/" "/project"
    {[ "/project/Bird_Monitoring_Data_FOREST.XLSX" := Unreadable (OtherError "File is not a zip file");
       "/project/Bird_Monitoring_Data_GRASSLAND.XLSX" := Workbook [("UNIT1", unit1)] ]}
    (mkDatabase None ∅) [].

(** A folder whose FOREST workbook has one sheet without a [Date] column. *)
Definition undated : World :=
  mkWorld "/" "/project"
    {[ "/project/Bird_Monitoring_Data_FOREST.XLSX" :=
         Workbook [("UNIT1", mkDataFrame 1 [("Common_Name", [Str "Wood Thrush"])])] ]}
    (mkDatabase None ∅) [].

(** A table as the dashboard holds it after its own preparation: three
    observations, the last with a date that did not parse. *)
Definition observations : DataFrame :=
  mkDataFrame 3
    [("Location_Type", [Str "Forest"; Str "Grassland"; Str "Forest"]);
     ("Observer", [Str "A. Smith"; Str "B. Jones"; Str "A. Smith"]);
     ("Common_Name", [Str "Wood Thrush"; Str "Eastern Towhee"; Str "Unknown"]);
     ("ObservationYear", [Int 2018; Int 2018; Int 0])].

End Sample.

(** The flag a token stands for, in the words of the specification: true
    for a token that is [TRUE] when case is ignored, false for every other. *)
Definition flag_of_token (s : string) : bool := bool_decide (upper s = "TRUE").

(** The number a parsed cell stands for. *)
Definition number_float (n : number) : float64 :=
  match n with NInt z => Finite (inject_Z z) | NFlt x => x end.

(** The values of a column that parse, as [to_numeric] reads them. *)
Definition parseable (rt : Runtime) (vs : list value) : list float64 :=
  omap cell_number (to_numeric rt vs).

(** The cell a continuous column gets where the input does not parse: the
    mean of the values that parse (NaN when that mean is NaN), and 0 when
    none does. *)
Definition imputed (rt : Runtime) (vs : list value) : value :=
  match parseable rt vs with
  | [] => Flt (Finite 0%Q)
  | xs => match fmean rt xs with Some m => Flt m | None => NA end
  end.

Definition continuous_cols : list string := ["Temperature"; "Humidity"].

(** The frame the loader makes of one sheet. *)
Definition tag_sheet (location_type sheet_name : string) (df_sheet : DataFrame) : DataFrame :=
  setitem_scalar "Admin_Unit_Code" (Str sheet_name)
    (setitem_scalar "Location_Type" (Str (capitalize location_type)) df_sheet).

Definition FOREST_FILE : string := "Bird_Monitoring_Data_FOREST.XLSX".
Definition GRASSLAND_FILE : string := "Bird_Monitoring_Data_GRASSLAND.XLSX".

(** The scenario of the specification: three rows, of which one repeats
    another and the third is a different observation. *)
Definition one_duplicate (sheet : DataFrame) : Prop :=
  exists r1 r2, row_key r1 ≠ row_key r2 /\
    (rows sheet = [r1; r1; r2] \/ rows sheet = [r1; r2; r1] \/ rows sheet = [r2; r1; r1]).

(** The notice for a declared source that is not in the folder. *)
Definition not_found_notice (w : World) (folder_path : string) (entry : string * string)
  : string :=
  "Error: Excel file '" +:+ entry.2 +:+ "' not found at '"
    +:+ path_join w folder_path entry.2 +:+ "'. Please ensure it's in the project folder.".

Definition source_exists (w : World) (folder_path : string) (entry : string * string) : bool :=
  path_exists w (path_join w folder_path entry.2).

(** Two worlds with the same files, seen through the same path separator. *)
Definition same_fs (w1 w2 : World) : Prop :=
  files w1 = files w2 /\ sep w1 = sep w2 /\ cwd w1 = cwd w2 /\ database w1 = database w2.

Definition backup_path (w : World) : string := path_join w (cwd w) backup_name.

Definition starting_line : string := "Starting data ingestion and cleaning process...".
Definition nothing_loaded_line : string :=
  "No data was loaded. Please check if Excel files are in the correct directory and named correctly.".
Definition loader_empty_line : string :=
  "No data was loaded from Excel files. Please check file names and paths.".
Definition uploading_line : string :=
  "Uploading data to PostgreSQL database: " +:+ PG_DB_NAME +:+ "...".
Definition server_hint_line : string :=
  "Please ensure your PostgreSQL server is running and connection details in this script are correct.".

(** A column that [to_numeric] and either fill leave as it is: an [int64]
    column, a [bool] column, or a [float64] column without NaN. *)
Definition float_cell_only (v : value) : bool :=
  match v with Flt _ => true | _ => false end.

Definition settled_continuous (vs : list value) : Prop :=
  Forall (fun v => int64_cell v = true) vs \/
  Forall (fun v => bool_cell v = true) vs \/
  Forall (fun v => float_cell_only v = true) vs.

(** The world after the summary and the backup, in which [__main__] calls
    the sink. *)
Definition before_upload (rt : Runtime) (cleaned_df : DataFrame) (w1 : World) : World :=
  let w := print "Performing initial data cleaning..." w1 in
  let w := print (newline +:+ "--- Data Cleaning Summary ---") w in
  let w := print (frame_info rt cleaned_df) w in
  let w := print "None" w in
  let w := print (newline +:+ "Missing values after cleaning (should be few or none for key columns):") w in
  let w := print (null_counts rt cleaned_df) w in
  let w := to_csv cleaned_df backup_name w in
  print (newline +:+ "Cleaned data saved to 'cleaned_bird_observations.csv'") w.

(** ** The loader, as a function of the folder *)

(** The sheets a declared source contributes: those of its workbook when
    the file is there and reads, none otherwise. *)
Definition sheets_of (w : World) (folder_path : string) (entry : string * string)
  : list (string * DataFrame) :=
  if source_exists w folder_path entry then
    match read_excel w (path_join w folder_path entry.2) with
    | Ok sheets => sheets
    | Raise _ => []
    end
  else [].

Definition frames_of (w : World) (folder_path : string) (entry : string * string)
  : list DataFrame :=
  (fun s => tag_sheet entry.1 s.1 s.2) <$> sheets_of w folder_path entry.

(** The notice for a workbook that is there and does not read. *)
Definition read_error_notice (entry : string * string) (e : exn) : string :=
  "Error reading Excel file " +:+ entry.2 +:+ ": " +:+ str_exn e.

(** The frame the loader returns on a folder. *)
Definition combined (sources : list (string * string)) (w : World) (folder_path : string)
  : DataFrame :=
  let all_data := sources ≫= frames_of w folder_path in
  if bool_decide (all_data = []) then DataFrame_new else concat all_data.

(** The database after the sink has been called with [cleaned]: the table
    is replaced on a server that accepts the connection. *)
Definition stored (cleaned : DataFrame) (db : Database) : Database :=
  match connect_error db with
  | Some _ => db
  | None => mkDatabase None (<["bird_observations" := cleaned]> (tables db))
  end.

(** ** The dashboard: [app.py]

    Of the dashboard, the conversion of the [Distance] labels in
    [get_data_from_sql] and the global filters of the sidebar. *)

Fixpoint ascii_text (s : string) : bool :=
  match s with
  | EmptyString => true
  | String c s' => (Ascii.N_of_ascii c <? 128)%N && ascii_text s'
  end.

Definition distance_order : list string :=
  ["<=50 Meters"; "50-100 Meters"; ">100 Meters"; "Unknown"].

(** [pd.Categorical(values, categories=...)], cell by cell: a value that is
    none of the categories becomes NaN. *)
Definition Categorical (categories : list string) (v : value) : value :=
  match v with
  | Str s => if bool_decide (s ∈ categories) then Str s else NA
  | _ => NA
  end.

Section Dashboard.

(** [str.strip] and [str.lower] of Python, which act on Unicode text. *)
Variables py_strip py_lower : string -> string.

(** The function nested in [get_data_from_sql]; [None] is a missing cell. *)
Definition convert_distance_numeric (rt : Runtime) (dist_str : value) : option Z :=
  if isnull dist_str
     || bool_decide (py_lower (py_strip (astype_str rt dist_str)) = "unknown")
  then None
  else
    let dist_str := py_lower (py_strip (astype_str rt dist_str)) in
    if occurs_in "<=50 meters" dist_str then Some 25
    else if occurs_in "50-100 meters" dist_str then Some 75
    else if occurs_in ">100 meters" dist_str then Some 125
    else None.

(** One cell of [Distance_Numeric]: the conversion to categories, then
    [apply(convert_distance_numeric)]. *)
Definition Distance_Numeric (rt : Runtime) (v : value) : option Z :=
  convert_distance_numeric rt (Categorical distance_order v).

End Dashboard.

(** [s.isin(values)], for one cell. *)
Definition isin (values : list value) (v : value) : bool :=
  bool_decide (value_key v ∈ value_key <$> values).

(** [df[mask]] for a boolean mask. *)
Definition boolean_index (mask : list bool) (df : DataFrame) : DataFrame :=
  mkDataFrame (length (select mask mask))
              ((fun cv => (cv.1, select mask cv.2)) <$> columns df).

(** [s.unique()]: the values in order of first appearance. *)
Definition unique (vs : list value) : list value :=
  select (negb <$> duplicated_from [] ((fun v => [value_key v]) <$> vs)) vs.

(** The mask of the three global filters. *)
Definition filter_mask (selected_location_type selected_years selected_observers : list value)
    (location_type year observer : list value) : list bool :=
  zip_with andb
    (zip_with andb (isin selected_location_type <$> location_type)
                   (isin selected_years <$> year))
    (isin selected_observers <$> observer).

(** "Apply global filters": with no year selected the frame is
    [pd.DataFrame()]. *)
Definition apply_global_filters (df : DataFrame)
    (selected_location_type selected_years selected_observers : list value)
  : result DataFrame :=
  if bool_decide (selected_years = []) then Ok DataFrame_new
  else
    location_type ← getitem "Location_Type" df;
    year ← getitem "ObservationYear" df;
    observer ← getitem "Observer" df;
    Ok (boolean_index
          (filter_mask selected_location_type selected_years selected_observers
             location_type year observer) df).

(** [all_common_names = filtered_df['Common_Name'].unique()], the next
    statement of the sidebar. *)
Definition all_common_names (df : DataFrame)
    (selected_location_type selected_years selected_observers : list value)
  : result (list value) :=
  filtered_df ← apply_global_filters df selected_location_type selected_years
                  selected_observers;
  names ← getitem "Common_Name" filtered_df;
  Ok (unique names).

Definition float_le (x y : float64) : bool :=
  match x, y with
  | Inf true, _ | _, Inf false => true
  | Finite a, Finite b => Qle_bool a b
  | _, _ => false
  end.

(** The order [sorted] puts numbers in. *)
Definition value_le (a b : value) : Prop :=
  match cell_number a, cell_number b with
  | Some x, Some y => float_le x y = true
  | _, _ => True
  end.

#[global] Instance value_le_dec a b : Decision (value_le a b).
Proof. unfold value_le. destruct (cell_number a), (cell_number b); apply _. Defined.

(** One cell of [s > 0]: NaN compares false, text and dates raise
    [TypeError]. *)
Definition gt_zero_cell (v : value) : result bool :=
  match v with
  | NA => Ok false
  | Str _ | Dt _ => Raise (OtherError "'>' not supported between instances")
  | _ => Ok (match cell_number v with
             | Some x => negb (float_le x (Finite 0%Q))
             | None => false
             end)
  end.

Fixpoint gt_zero (vs : list value) : result (list bool) :=
  match vs with
  | [] => Ok []
  | v :: vs' =>
      b ← gt_zero_cell v;
      bs ← gt_zero vs';
      Ok (b :: bs)
  end.

(** [sorted(df[df['ObservationYear'] > 0]['ObservationYear'].unique().tolist())] *)
Definition all_years (df : DataFrame) : result (list value) :=
  year ← getitem "ObservationYear" df;
  mask ← gt_zero year;
  valid_year ← getitem "ObservationYear" (boolean_index mask df);
  Ok (merge_sort value_le (unique valid_year)).

(** What the user picks in the three [multiselect] widgets, given the
    options each one offers. *)
Record Widgets := mkWidgets {
  choose_location_types : list value -> list value;
  choose_years : list value -> list value;
  choose_observers : list value -> list value
}.

(** The sidebar from "Global Filters" to the names of the species on
    offer. *)
Definition sidebar (ui : Widgets) (df : DataFrame) : result (list value) :=
  location_type ← getitem "Location_Type" df;
  let selected_location_type := choose_location_types ui (unique location_type) in
  all_years ← all_years df;
  let selected_years :=
    if bool_decide (all_years = []) then [] else choose_years ui all_years in
  observer ← getitem "Observer" df;
  let selected_observers := choose_observers ui (unique observer) in
  all_common_names df selected_location_type selected_years selected_observers.

(** * Properties *)

(** ** Frames: reading and assigning columns *)

Lemma lookup_assign_eq c vs cols :
  lookup_col c (assign_col c vs cols) = Some vs.
Proof.
  induction cols as [|[c' vs'] cols IH]; simpl.
  - by rewrite decide_True.
  - destruct (decide (c = c')) as [->|Hne]; simpl.
    + by rewrite decide_True.
    + by rewrite decide_False.
Qed.

Lemma lookup_assign_ne c c' vs cols :
  c ≠ c' -> lookup_col c' (assign_col c vs cols) = lookup_col c' cols.
Proof.
  intros Hne. induction cols as [|[c0 vs0] cols IH]; simpl.
  - by rewrite decide_False.
  - destruct (decide (c = c0)) as [->|Hne0]; simpl.
    + by rewrite !decide_False.
    + by rewrite IH.
Qed.

Lemma assign_same c vs cols :
  lookup_col c cols = Some vs -> assign_col c vs cols = cols.
Proof.
  induction cols as [|[c0 vs0] cols IH]; simpl; [done|].
  destruct (decide (c = c0)) as [->|Hne]; [congruence|].
  intros H. by rewrite IH.
Qed.

Lemma lookup_col_names c cols :
  is_Some (lookup_col c cols) <-> c ∈ cols.*1.
Proof.
  induction cols as [|[c0 vs0] cols IH]; simpl.
  - split; [by intros [? ?]|by intros ?%elem_of_nil].
  - destruct (decide (c = c0)) as [->|Hne].
    + split; [intros _; left|eauto].
    + rewrite IH. split; [by right|]. by intros [?|?]%elem_of_cons.
Qed.

Lemma has_col_lookup c df :
  has_col c df = true <-> is_Some (lookup_col c (columns df)).
Proof.
  unfold has_col, column_names. rewrite bool_decide_eq_true. symmetry. apply lookup_col_names.
Qed.

Lemma has_col_false c df :
  has_col c df = false <-> lookup_col c (columns df) = None.
Proof.
  rewrite <- not_true_iff_false, has_col_lookup, eq_None_not_Some. done.
Qed.

Lemma assign_present_names c vs cols :
  c ∈ cols.*1 -> (assign_col c vs cols).*1 = cols.*1.
Proof.
  induction cols as [|[c0 vs0] cols IH]; simpl.
  - by intros ?%elem_of_nil.
  - destruct (decide (c = c0)) as [->|Hne]; simpl; [done|].
    intros [?|?]%elem_of_cons; [done|]. f_equal. by apply IH.
Qed.

Lemma assign_absent c vs cols :
  lookup_col c cols = None -> assign_col c vs cols = cols ++ [(c, vs)].
Proof.
  induction cols as [|[c0 vs0] cols IH]; simpl; [done|].
  destruct (decide (c = c0)); [done|]. intros H. by rewrite IH.
Qed.

Lemma getitem_Ok c df vs :
  getitem c df = Ok vs <-> lookup_col c (columns df) = Some vs.
Proof. unfold getitem. destruct (lookup_col c (columns df)); split; congruence. Qed.

Lemma getitem_Raise c df e :
  getitem c df = Raise e <-> lookup_col c (columns df) = None /\ e = KeyError c.
Proof.
  unfold getitem. destruct (lookup_col c (columns df)); split; try congruence.
  - by intros [? _].
  - intros [= <-]. done.
  - by intros [_ ->].
Qed.

(** ** The loops over column lists *)

Lemma flag_step_spec rt : step_spec (flag_step rt) (F_flag rt).
Proof.
  intros df c. unfold flag_step, getitem.
  destruct (has_col c df) eqn:Hc.
  - apply has_col_lookup in Hc as [vs ->]. done.
  - apply has_col_false in Hc as ->. done.
Qed.

Lemma categorical_step_spec : step_spec categorical_step F_categorical.
Proof.
  intros df c. unfold categorical_step, getitem.
  destruct (has_col c df) eqn:Hc.
  - apply has_col_lookup in Hc as [vs ->]. done.
  - apply has_col_false in Hc as ->. done.
Qed.

Lemma setitem_setitem c vs vs' df :
  setitem c vs' (setitem c vs df) = setitem c vs' df.
Proof.
  unfold setitem; simpl. f_equal.
  induction (columns df) as [|[c0 vs0] cols IH]; simpl.
  - by rewrite decide_True.
  - destruct (decide (c = c0)) as [->|Hne]; simpl.
    + by rewrite decide_True.
    + by rewrite decide_False, IH.
Qed.

Lemma numeric_step_spec rt : step_spec (numeric_step rt) (F_numeric rt).
Proof.
  intros df c. unfold numeric_step, getitem, F_numeric.
  destruct (has_col c df) eqn:Hc.
  - apply has_col_lookup in Hc as [vs ->]. simpl.
    rewrite lookup_assign_eq. simpl.
    destruct (fill_numeric rt c (to_numeric rt vs)); simpl; [|done].
    by rewrite setitem_setitem.
  - apply has_col_false in Hc as ->. done.
Qed.

Lemma foldM_steps step F cols : step_spec step F -> NoDup cols ->
  forall df df', foldM step cols df = Ok df' ->
    index_len df' = index_len df /\
    column_names df' = column_names df /\
    (forall c, c ∉ cols -> lookup_col c (columns df') = lookup_col c (columns df)) /\
    (forall c vs, c ∈ cols -> lookup_col c (columns df) = Some vs ->
       exists s, F c vs = Ok s /\ lookup_col c (columns df') = Some s).
Proof.
  intros Hstep. induction cols as [|c0 cols IH]; intros Hnd df df'; simpl.
  - intros [= <-]. split; [done|]. split; [done|]. split; [done|].
    by intros c vs ?%elem_of_nil.
  - apply NoDup_cons in Hnd as [Hc0 Hnd]. rewrite Hstep.
    destruct (lookup_col c0 (columns df)) as [vs0|] eqn:H0; simpl.
    + destruct (F c0 vs0) as [s0|e] eqn:HF; simpl; [|done].
      intros (Hlen & Hnames & Hout & Hin)%IH; [|done].
      split; [done|]. split.
      { rewrite Hnames. unfold column_names, setitem; simpl.
        apply assign_present_names, lookup_col_names. by rewrite H0. }
      split.
      * intros c [Hne Hc]%not_elem_of_cons. rewrite Hout by done.
        simpl. by apply lookup_assign_ne.
      * intros c vs [->|Hc]%elem_of_cons Hvs.
        -- exists s0. split; [congruence|]. rewrite Hout by done.
           simpl. apply lookup_assign_eq.
        -- apply Hin; [done|]. simpl. rewrite lookup_assign_ne; [done|].
           intros ->. done.
    + intros (Hlen & Hnames & Hout & Hin)%IH; [|done].
      split; [done|]. split; [done|]. split.
      * intros c [Hne Hc]%not_elem_of_cons. by apply Hout.
      * intros c vs [->|Hc]%elem_of_cons Hvs; [congruence|]. by apply Hin.
Qed.

Lemma foldM_raise step F cols : step_spec step F -> NoDup cols ->
  forall df e, foldM step cols df = Raise e ->
    exists c vs, c ∈ cols /\ lookup_col c (columns df) = Some vs /\ F c vs = Raise e.
Proof.
  intros Hstep. induction cols as [|c0 cols IH]; intros Hnd df e; simpl; [done|].
  apply NoDup_cons in Hnd as [Hc0 Hnd]. rewrite Hstep.
  destruct (lookup_col c0 (columns df)) as [vs0|] eqn:H0; simpl.
  - destruct (F c0 vs0) as [s0|e0] eqn:HF; simpl.
    + intros (c & vs & Hc & Hvs & HFc)%IH; [|done].
      exists c, vs. split; [by right|]. split; [|done].
      simpl in Hvs. rewrite lookup_assign_ne in Hvs; [done|]. by intros ->.
    + intros [= ->]. exists c0, vs0. split; [left|done].
  - intros (c & vs & Hc & Hvs & HFc)%IH; [|done].
    exists c, vs. split; [by right|done].
Qed.

Lemma NoDup_flag_cols : NoDup flag_cols.
Proof. compute_done. Qed.
Lemma NoDup_numeric_cols : NoDup numeric_cols.
Proof. compute_done. Qed.
Lemma NoDup_categorical_cols : NoDup categorical_cols.
Proof. compute_done. Qed.

(** ** The engine, column by column *)

Arguments foldM : simpl never.

Lemma Qtrunc_inject_Z z : Qtrunc (inject_Z z) = z.
Proof. unfold Qtrunc; simpl. apply Z.quot_1_r. Qed.

Lemma astype_int_year vs :
  astype_int (fillna (Flt (Finite 0%Q)) (dt_year vs)) = Ok (year_cell <$> vs).
Proof.
  induction vs as [|v vs IH]; [done|].
  unfold fillna, dt_year in *. rewrite !fmap_cons. cbn [astype_int].
  rewrite IH. destruct v; simpl; try done.
  by rewrite Qtrunc_inject_Z.
Qed.

Lemma cols_disjoint c :
  (c ∈ flag_cols ->
     c ≠ "Date" /\ c ≠ "Year" /\ (c ∉ numeric_cols) /\ (c ∉ categorical_cols)) /\
  (c ∈ numeric_cols ->
     c ≠ "Date" /\ c ≠ "Year" /\ (c ∉ flag_cols) /\ (c ∉ categorical_cols)) /\
  (c ∈ categorical_cols ->
     c ≠ "Date" /\ c ≠ "Year" /\ (c ∉ flag_cols) /\ (c ∉ numeric_cols)).
Proof.
  split; [|split]; intros Hc;
    repeat (apply elem_of_cons in Hc as [->|Hc]); try (by apply elem_of_nil in Hc);
    compute_done.
Qed.

Lemma date_not_listed :
  ("Date" ∉ flag_cols) /\ ("Date" ∉ numeric_cols) /\ ("Date" ∉ categorical_cols) /\
  ("Year" ∉ flag_cols) /\ ("Year" ∉ numeric_cols) /\ ("Year" ∉ categorical_cols).
Proof. compute_done. Qed.

(** The engine returns a frame exactly as [clean_column] describes it. *)
Lemma cleaning_inv rt df out :
  initial_data_cleaning rt df = Ok out ->
  let d := drop_duplicates df in
  index_len out = index_len d /\
  (exists date, lookup_col "Date" (columns d) = Some date /\
     forall year, lookup_col "Year" (columns d) = None ->
       lookup_col "Year" (columns out) = Some year ->
       year = year_cell <$> to_datetime rt date_format date) /\
  (forall c vs, lookup_col c (columns d) = Some vs ->
     exists vs', clean_column rt c vs = Ok vs' /\ lookup_col c (columns out) = Some vs') /\
  (forall c, c ≠ "Year" -> lookup_col c (columns d) = None ->
     lookup_col c (columns out) = None) /\
  (lookup_col "Year" (columns d) = None -> is_Some (lookup_col "Year" (columns out))).
Proof.
  intros H d. unfold initial_data_cleaning in H. fold d in H.
  destruct (getitem "Date" d) as [date|] eqn:Hdate; simpl in H; [|done].
  apply getitem_Ok in Hdate.
  set (d1 := setitem "Date" (to_datetime rt date_format date) d) in H.
  destruct (foldM (flag_step rt) flag_cols d1) as [d2|] eqn:H2; simpl in H; [|done].
  destruct (foldM (numeric_step rt) numeric_cols d2) as [d3|] eqn:H3; simpl in H; [|done].
  destruct (foldM categorical_step categorical_cols d3) as [d4|] eqn:H4; simpl in H; [|done].
  apply (foldM_steps _ _ _ (flag_step_spec rt) NoDup_flag_cols) in H2
    as (L2 & N2 & O2 & I2).
  apply (foldM_steps _ _ _ (numeric_step_spec rt) NoDup_numeric_cols) in H3
    as (L3 & N3 & O3 & I3).
  apply (foldM_steps _ _ _ categorical_step_spec NoDup_categorical_cols) in H4
    as (L4 & N4 & O4 & I4).
  destruct date_not_listed as (Df & Dn & Dc & Yf & Yn & Yc).
  (* the columns of [d4], described from [d] *)
  assert (Hd1 : forall c, lookup_col c (columns d1) =
      if decide (c = "Date") then Some (to_datetime rt date_format date)
      else lookup_col c (columns d)).
  { intros c. unfold d1; simpl. destruct (decide (c = "Date")) as [->|Hne].
    - apply lookup_assign_eq.
    - by apply lookup_assign_ne. }
  assert (Hd4 : forall c vs, lookup_col c (columns d) = Some vs ->
      exists vs', clean_column rt c vs = Ok vs' /\ lookup_col c (columns d4) = Some vs').
  { intros c vs Hc. unfold clean_column.
    destruct (decide (c = "Date")) as [->|HneD].
    { assert (vs = date) as -> by congruence.
      eexists; split; [done|]. rewrite O4, O3, O2, Hd1 by done. done. }
    assert (lookup_col c (columns d1) = Some vs) as Hc1.
    { by rewrite Hd1, decide_False. }
    destruct (decide (c ∈ flag_cols)) as [Hf|Hf].
    { destruct (cols_disjoint c) as [Hdis _]. destruct (Hdis Hf) as (_ & _ & Hn & Hcat).
      destruct (I2 c vs Hf Hc1) as (s & Hs & Hs2).
      exists s. split; [done|]. by rewrite O4, O3. }
    destruct (decide (c ∈ numeric_cols)) as [Hn|Hn].
    { destruct (cols_disjoint c) as (_ & Hdis & _). destruct (Hdis Hn) as (_ & _ & _ & Hcat).
      destruct (I3 c vs Hn) as (s & Hs & Hs3); [by rewrite O2|].
      exists s. split; [done|]. by rewrite O4. }
    destruct (decide (c ∈ categorical_cols)) as [Hcat|Hcat].
    { destruct (I4 c vs Hcat) as (s & Hs & Hs4); [by rewrite O3, O2|].
      exists s. split; done. }
    exists vs. split; [done|]. by rewrite O4, O3, O2. }
  assert (Hnone : forall c, lookup_col c (columns d) = None ->
      lookup_col c (columns d4) = None).
  { intros c Hc. apply eq_None_not_Some. intros Hs.
    apply lookup_col_names in Hs. fold (column_names d4) in Hs.
    rewrite N4, N3, N2 in Hs. unfold d1, column_names, setitem in Hs; simpl in Hs.
    rewrite assign_present_names in Hs.
    - apply lookup_col_names in Hs. rewrite Hc in Hs. by destruct Hs.
    - apply lookup_col_names. by rewrite Hdate. }
  assert (Hdate4 : lookup_col "Date" (columns d4) = Some (to_datetime rt date_format date)).
  { rewrite O4, O3, O2, Hd1 by done. done. }
  assert (Hlen : index_len d4 = index_len d) by (by rewrite L4, L3, L2).
  unfold derive_year in H.
  destruct (has_col "Year" d4) eqn:HY; simpl in H.
  - injection H as <-. apply has_col_lookup in HY as [yv HY].
    split; [done|]. split.
    { exists date. split; [done|]. intros year Hn. apply Hnone in Hn. congruence. }
    split; [done|]. split; [by intros c _; apply Hnone|].
    intros Hn. apply Hnone in Hn. congruence.
  - assert (has_col "Date" d4 = true) as HD.
    { apply has_col_lookup. by rewrite Hdate4. }
    rewrite HD in H. simpl in H. unfold getitem in H. rewrite Hdate4 in H. simpl in H.
    rewrite astype_int_year in H. simpl in H. injection H as <-.
    apply has_col_false in HY.
    split; [done|]. split.
    { exists date. split; [done|]. intros year _. simpl.
      rewrite lookup_assign_eq. congruence. }
    split.
    { intros c vs Hc. destruct (Hd4 c vs Hc) as (vs' & Hcl & Hl).
      exists vs'. split; [done|]. simpl. rewrite lookup_assign_ne; [done|].
      intros <-. congruence. }
    split.
    { intros c Hne Hc. simpl. rewrite lookup_assign_ne by done. by apply Hnone. }
    intros _. simpl. rewrite lookup_assign_eq. eauto.
Qed.

(** ** [drop_duplicates], column by column *)

Lemma lookup_col_fmap (f : list value -> list value) c cols :
  lookup_col c ((fun cv => (cv.1, f cv.2)) <$> cols) = f <$> lookup_col c cols.
Proof.
  induction cols as [|[c0 vs0] cols IH]; simpl; [done|].
  destruct (decide (c = c0)); [done|]. apply IH.
Qed.

Lemma lookup_drop_duplicates c df :
  lookup_col c (columns (drop_duplicates df)) = dedup_col df <$> lookup_col c (columns df).
Proof.
  unfold drop_duplicates, dedup_col. destruct (DataFrame_empty df); simpl.
  - by destruct (lookup_col c (columns df)).
  - apply lookup_col_fmap.
Qed.

Lemma lookup_drop_duplicates_None c df :
  lookup_col c (columns (drop_duplicates df)) = None <-> lookup_col c (columns df) = None.
Proof. rewrite lookup_drop_duplicates. apply fmap_None. Qed.

(** ** When the engine raises *)

Lemma forallb_spec {A} (f : A -> bool) (l : list A) :
  forallb f l = true <-> Forall (fun x => f x = true) l.
Proof.
  induction l as [|x l IH]; simpl; [by split; [constructor|]|].
  rewrite andb_true_iff, IH, Forall_cons. done.
Qed.

(** The three ways [to_numeric] reads a column. *)
Lemma to_numeric_cases rt vs :
  (Forall (fun v => bool_cell v = true) vs /\ to_numeric rt vs = vs) \/
  (datetime_column vs = true /\ to_numeric rt vs = datetime_as_int <$> vs) \/
  (bool_column vs = false /\ datetime_column vs = false /\
   to_numeric rt vs =
     let ns := coerce_cell rt <$> vs in
     if forallb is_int ns then int_cell <$> ns else float_cell <$> ns).
Proof.
  unfold to_numeric. destruct (bool_column vs) eqn:Hb.
  - left. split; [by apply forallb_spec|done].
  - destruct (datetime_column vs) eqn:Hd; [right; left; done|right; right; done].
Qed.

Lemma to_numeric_cells rt vs : Forall (fun v => numeric_cell v = true) (to_numeric rt vs).
Proof.
  destruct (to_numeric_cases rt vs) as [[Hb ->]|[[_ ->]|(_ & _ & ->)]].
  - eapply Forall_impl; [exact Hb|]. by intros [].
  - apply Forall_fmap, Forall_true. by intros [].
  - simpl. destruct (forallb is_int (coerce_cell rt <$> vs));
      apply Forall_fmap, Forall_true; intros [[]|]; done.
Qed.

Lemma astype_int_Ok_length vs zs : astype_int vs = Ok zs -> length zs = length vs.
Proof.
  revert zs. induction vs as [|v vs IH]; intros zs; simpl.
  - by intros [= <-].
  - destruct (astype_int_cell v); simpl; [|done].
    destruct (astype_int vs); simpl; [|done].
    intros [= <-]. simpl. f_equal. by apply IH.
Qed.

Lemma astype_int_raise q s e :
  Forall (fun v => numeric_cell v = true) s ->
  astype_int (fillna (Flt (Finite q)) s) = Raise e ->
  e = IntCastingNaNError /\ exists v, v ∈ s /\ is_inf v = true.
Proof.
  induction 1 as [|v s Hv Hs IH]; [done|].
  unfold fillna in *. rewrite fmap_cons. cbn [astype_int].
  destruct (astype_int_cell (if isnull v then Flt (Finite q) else v)) as [z|e0] eqn:Hz; simpl.
  - destruct (astype_int _) as [zs|e1]; simpl; [done|].
    intros [= ->]. destruct IH as (-> & v' & Hin & Hinf); [done|].
    split; [done|]. exists v'. split; [by right|done].
  - intros [= ->]. destruct v as [| | |[|]| |]; simpl in *; try done.
    injection Hz as <-. split; [done|]. eexists. split; [left|done].
Qed.

Lemma astype_int_finite q s :
  Forall (fun v => numeric_cell v = true) s ->
  (forall v, v ∈ s -> is_inf v = false) ->
  exists zs, astype_int (fillna (Flt (Finite q)) s) = Ok zs.
Proof.
  intros Hs Hfin.
  destruct (astype_int (fillna (Flt (Finite q)) s)) as [zs|e] eqn:H; [eauto|].
  apply astype_int_raise in H as (_ & v & Hv & Hinf); [|done].
  rewrite Hfin in Hinf; done.
Qed.

Lemma F_numeric_raise rt c vs e :
  F_numeric rt c vs = Raise e ->
  e = IntCastingNaNError /\ c ∈ count_cols ++ code_cols /\
  exists v, v ∈ to_numeric rt vs /\ is_inf v = true.
Proof.
  unfold F_numeric, fill_numeric.
  destruct (bool_decide (c ∈ count_cols)) eqn:Hcnt.
  { intros (-> & Hv)%astype_int_raise; [|apply to_numeric_cells].
    apply bool_decide_eq_true in Hcnt. split; [done|]. split; [|done].
    apply elem_of_app. by left. }
  destruct (bool_decide (c ∈ code_cols)) eqn:Hcode.
  { intros (-> & Hv)%astype_int_raise; [|apply to_numeric_cells].
    apply bool_decide_eq_true in Hcode. split; [done|]. split; [|done].
    apply elem_of_app. by right. }
  by destruct (negb _).
Qed.

Lemma derive_year_Ok df : exists out, derive_year df = Ok out.
Proof.
  unfold derive_year. destruct (negb (has_col "Year" df) && has_col "Date" df) eqn:H; [|eauto].
  apply andb_true_iff in H as [_ [date Hd]%has_col_lookup].
  unfold getitem. rewrite Hd. simpl. rewrite astype_int_year. simpl. eauto.
Qed.

(** Every way the engine can raise. *)
Lemma cleaning_raise rt df e :
  initial_data_cleaning rt df = Raise e ->
  (e = KeyError "Date" /\ lookup_col "Date" (columns df) = None) \/
  (e = IntCastingNaNError /\ is_Some (lookup_col "Date" (columns df)) /\
   exists c vs v, c ∈ count_cols ++ code_cols /\
     lookup_col c (columns (drop_duplicates df)) = Some vs /\
     v ∈ to_numeric rt vs /\ is_inf v = true).
Proof.
  unfold initial_data_cleaning. set (d := drop_duplicates df).
  destruct (getitem "Date" d) as [date|e0] eqn:Hdate; simpl.
  2: { intros [= ->]. apply getitem_Raise in Hdate as [Hn ->].
       left. split; [done|]. by apply lookup_drop_duplicates_None. }
  apply getitem_Ok in Hdate.
  assert (is_Some (lookup_col "Date" (columns df))) as HD.
  { apply not_eq_None_Some. intros Hn%lookup_drop_duplicates_None. fold d in Hn. congruence. }
  set (d1 := setitem "Date" (to_datetime rt date_format date) d).
  destruct (foldM (flag_step rt) flag_cols d1) as [d2|e2] eqn:H2; simpl.
  2: { apply (foldM_raise _ _ _ (flag_step_spec rt) NoDup_flag_cols) in H2
         as (c & vs & _ & _ & HF). done. }
  apply (foldM_steps _ _ _ (flag_step_spec rt) NoDup_flag_cols) in H2
    as (L2 & N2 & O2 & I2).
  destruct (foldM (numeric_step rt) numeric_cols d2) as [d3|e3] eqn:H3; simpl.
  2: { intros [= ->].
       apply (foldM_raise _ _ _ (numeric_step_spec rt) NoDup_numeric_cols) in H3
         as (c & vs & Hc & Hvs & HF).
       apply F_numeric_raise in HF as (-> & Hcc & v & Hv & Hinf).
       right. split; [done|]. split; [done|]. exists c, vs, v.
       split; [done|]. split; [|done].
       destruct (cols_disjoint c) as (_ & Hdis & _).
       destruct (Hdis Hc) as (HneD & _ & Hf & _).
       rewrite O2 in Hvs by done. unfold d1 in Hvs; simpl in Hvs.
       by rewrite lookup_assign_ne in Hvs. }
  destruct (foldM categorical_step categorical_cols d3) as [d4|e4] eqn:H4; simpl.
  2: { apply (foldM_raise _ _ _ categorical_step_spec NoDup_categorical_cols) in H4
         as (c & vs & _ & _ & HF). done. }
  destruct (derive_year_Ok d4) as [out ->]. done.
Qed.

Lemma cleaning_without_date rt df :
  lookup_col "Date" (columns df) = None ->
  initial_data_cleaning rt df = Raise (KeyError "Date").
Proof.
  intros Hn. unfold initial_data_cleaning, getitem.
  apply lookup_drop_duplicates_None in Hn. by rewrite Hn.
Qed.

Lemma cleaning_returns rt df :
  is_Some (lookup_col "Date" (columns df)) ->
  (forall c vs v, c ∈ count_cols ++ code_cols ->
     lookup_col c (columns (drop_duplicates df)) = Some vs ->
     v ∈ to_numeric rt vs -> is_inf v = false) ->
  exists out, initial_data_cleaning rt df = Ok out.
Proof.
  intros [date Hd] Hfin.
  destruct (initial_data_cleaning rt df) as [out|e] eqn:H; [eauto|].
  apply cleaning_raise in H as [[_ Hn]|(_ & _ & c & vs & v & Hc & Hvs & Hv & Hinf)].
  - congruence.
  - rewrite (Hfin c vs v) in Hinf; done.
Qed.

(** C10: the code breaks the claim.  This table has its [Date] column, and
    the engine still fails on it: the text [inf] in [Visit] is read as
    infinity by [to_numeric], the fill with 0 leaves it, and [astype(int)]
    raises on it.  The same cells in [Temperature], the sibling branch of
    the loop, go through. *)
Theorem infinite_count_crashes :
  is_Some (lookup_col "Date" (columns Sample.infinite_visit)) /\
  initial_data_cleaning Ref.runtime Sample.infinite_visit = Raise IntCastingNaNError /\
  initial_data_cleaning Ref.runtime Sample.infinite_temperature =
    Ok (mkDataFrame 3
          [("Date", [Dt (mkTimestamp 2020 1 1); Dt (mkTimestamp 2020 1 2);
                     Dt (mkTimestamp 2020 1 3)]);
           ("Temperature", [Flt (Finite 1%Q); Flt (Inf false); Flt (Inf false)]);
           ("Year", [Int 2020; Int 2020; Int 2020])]).
Proof.
  split; [by eexists|]. split; vm_compute; reflexivity.
Qed.

(** ** Flags *)

Lemma map_dict_flag s :
  map_dict flag_dict s =
  if decide (s = "TRUE") then Bool true
  else if decide (s = "FALSE") then Bool false else NA.
Proof.
  unfold map_dict, flag_dict. simpl.
  destruct (decide (s = "TRUE")) as [->|H1]; [done|].
  destruct (decide (s = "FALSE")) as [->|H2]; [done|].
  rewrite decide_False by (simpl; congruence). simpl.
  rewrite decide_False by (simpl; congruence). done.
Qed.

Lemma normalize_flags_spec rt vs :
  normalize_flags rt vs = (fun v => Bool (flag_of_token (astype_str rt v))) <$> vs.
Proof.
  unfold normalize_flags, fillna. rewrite <- list_fmap_compose.
  apply list_fmap_ext. intros _ v _. simpl. rewrite map_dict_flag. unfold flag_of_token.
  destruct (decide (upper (astype_str rt v) = "TRUE")) as [->|H1]; [done|].
  rewrite bool_decide_eq_false_2 by done.
  by destruct (decide (upper (astype_str rt v) = "FALSE")).
Qed.

Lemma flags_never_raise rt df : exists df', foldM (flag_step rt) flag_cols df = Ok df'.
Proof.
  destruct (foldM (flag_step rt) flag_cols df) as [df'|e] eqn:H; [eauto|].
  apply (foldM_raise _ _ _ (flag_step_spec rt) NoDup_flag_cols) in H
    as (c & vs & _ & _ & HF). done.
Qed.

(** C3: in each of the three flag columns a token that is [TRUE] when case
    is ignored becomes true, a token that is [FALSE] becomes false, and
    every other token, a missing value included, becomes false; the
    normalization raises on no frame. *)
Theorem flag_normalization rt df out :
  initial_data_cleaning rt df = Ok out ->
  (forall df0, exists df', foldM (flag_step rt) flag_cols df0 = Ok df') /\
  forall c vs, c ∈ flag_cols ->
    lookup_col c (columns (drop_duplicates df)) = Some vs ->
    exists vs', lookup_col c (columns out) = Some vs' /\ length vs' = length vs /\
      forall i v, vs !! i = Some v ->
        (upper (astype_str rt v) = "TRUE" -> vs' !! i = Some (Bool true)) /\
        (upper (astype_str rt v) = "FALSE" -> vs' !! i = Some (Bool false)) /\
        (upper (astype_str rt v) ≠ "TRUE" -> vs' !! i = Some (Bool false)) /\
        (isnull v = true -> vs' !! i = Some (Bool false)).
Proof.
  intros H. split; [apply flags_never_raise|].
  intros c vs Hc Hvs.
  destruct (cleaning_inv _ _ _ H) as (_ & _ & Hcols & _).
  destruct (Hcols c vs Hvs) as (vs' & Hcl & Hout).
  unfold clean_column in Hcl.
  destruct (cols_disjoint c) as (Hdis & _). destruct (Hdis Hc) as (HneD & _).
  rewrite decide_False, decide_True in Hcl by done.
  unfold F_flag in Hcl. rewrite normalize_flags_spec in Hcl. injection Hcl as <-.
  eexists. split; [done|]. split; [by rewrite length_fmap|].
  intros i v Hi. rewrite list_lookup_fmap, Hi. simpl. unfold flag_of_token.
  split; [|split; [|split]].
  - intros ->. done.
  - intros ->. done.
  - intros Hne. by rewrite bool_decide_eq_false_2.
  - destruct v; done.
Qed.

(** ** Dates *)

(** C4: every value of the [Date] column is parsed with the one format
    [%d-%m-%Y]; a value that does not parse becomes the missing-date marker,
    and a date appears in the cleaned column only where the input cell was
    that date or its text parsed to it, so no default date is substituted;
    no failure of the engine comes from a date that does not parse. *)
Theorem date_parsing rt df out :
  initial_data_cleaning rt df = Ok out ->
  (forall df0 e, initial_data_cleaning rt df0 = Raise e ->
     e = KeyError "Date" \/ e = IntCastingNaNError) /\
  exists date date',
    lookup_col "Date" (columns (drop_duplicates df)) = Some date /\
    lookup_col "Date" (columns out) = Some date' /\
    date' = to_datetime rt "%d-%m-%Y" date /\
    length date' = length date /\
    forall i v, date !! i = Some v ->
      exists v', date' !! i = Some v' /\
        (isnull v = true -> v' = NA) /\
        (forall s, v = Str s -> strptime rt "%d-%m-%Y" s = None -> v' = NA) /\
        (forall s t, v = Str s -> strptime rt "%d-%m-%Y" s = Some t -> v' = Dt t) /\
        (v' = NA \/ exists t, v' = Dt t /\
           (v = Dt t \/ strptime rt "%d-%m-%Y" (astype_str rt v) = Some t)).
Proof.
  intros H. split.
  { intros df0 e [[-> _]|[-> _]]%cleaning_raise; eauto. }
  destruct (cleaning_inv _ _ _ H) as (_ & (date & Hdate & _) & Hcols & _).
  destruct (Hcols "Date" date Hdate) as (date' & Hcl & Hout).
  unfold clean_column in Hcl. rewrite decide_True in Hcl by done.
  injection Hcl as <-.
  exists date, (to_datetime rt date_format date).
  split; [done|]. split; [done|]. split; [done|].
  split; [by unfold to_datetime; rewrite length_fmap|].
  intros i v Hi. unfold to_datetime, date_format. rewrite list_lookup_fmap, Hi. simpl.
  eexists. split; [done|].
  split; [by destruct v|].
  split; [by intros s -> Hs; simpl; rewrite Hs|].
  split; [by intros s t -> Hs; simpl; rewrite Hs|].
  unfold to_datetime_cell.
  destruct v; simpl; eauto;
    match goal with |- context [strptime rt ?f ?s] =>
      destruct (strptime rt f s) eqn:Hs; eauto end.
Qed.

(** ** The sample survey *)

Lemma survey_cleaning :
  initial_data_cleaning Ref.runtime Sample.survey = Ok Sample.survey_cleaned.
Proof. vm_compute. reflexivity. Qed.

Lemma flag_normalization_witness :
  initial_data_cleaning Ref.runtime Sample.survey = Ok Sample.survey_cleaned /\
  exists vs', lookup_col "Flyover_Observed" (columns Sample.survey_cleaned) = Some vs' /\
    vs' !! 0%nat = Some (Bool true) /\ vs' !! 1%nat = Some (Bool false).
Proof.
  assert (initial_data_cleaning Ref.runtime Sample.survey = Ok Sample.survey_cleaned) as H
    by (vm_compute; reflexivity).
  split; [exact H|].
  destruct (flag_normalization Ref.runtime Sample.survey Sample.survey_cleaned H) as [_ Hc].
  destruct (Hc "Flyover_Observed" [Str "true"; NA; Str "Yes"]) as (vs' & Hl & _ & Hcells).
  - compute_done.
  - vm_compute. reflexivity.
  - exists vs'. split; [exact Hl|]. split.
    + apply (Hcells 0%nat (Str "true")); reflexivity.
    + apply (Hcells 1%nat NA); reflexivity.
Defined.

Lemma date_parsing_witness :
  initial_data_cleaning Ref.runtime Sample.survey = Ok Sample.survey_cleaned /\
  exists date', lookup_col "Date" (columns Sample.survey_cleaned) = Some date' /\
    date' = to_datetime Ref.runtime "%d-%m-%Y"
              [Str "25-01-2023"; Str "unknown"; Dt (mkTimestamp 2023 2 3)].
Proof.
  assert (initial_data_cleaning Ref.runtime Sample.survey = Ok Sample.survey_cleaned) as H
    by (vm_compute; reflexivity).
  split; [exact H|].
  destruct (date_parsing Ref.runtime Sample.survey Sample.survey_cleaned H)
    as (_ & date & date' & Hd & Hd' & Heq & _).
  exists date'. split; [exact Hd'|].
  vm_compute in Hd. injection Hd as <-. exact Heq.
Defined.

(** ** [clean_column] on each family of columns *)

Ltac split_elem H :=
  repeat (apply elem_of_cons in H as [->|H]); [..|by apply elem_of_nil in H].

Ltac decide_cols :=
  unfold clean_column, F_flag, F_numeric, F_categorical, fill_numeric;
  repeat first
    [ rewrite decide_True by compute_done
    | rewrite decide_False by compute_done
    | rewrite bool_decide_eq_true_2 by compute_done
    | rewrite bool_decide_eq_false_2 by compute_done ].

Lemma clean_column_flag rt c vs :
  c ∈ flag_cols -> clean_column rt c vs = Ok (normalize_flags rt vs).
Proof. intros Hc. split_elem Hc; by decide_cols. Qed.

Lemma clean_column_count rt c vs :
  c ∈ count_cols ->
  clean_column rt c vs = astype_int (fillna (Flt (Finite 0%Q)) (to_numeric rt vs)).
Proof. intros Hc. split_elem Hc; by decide_cols. Qed.

Lemma clean_column_code rt c vs :
  c ∈ code_cols ->
  clean_column rt c vs = astype_int (fillna (Flt (Finite (-1)%Q)) (to_numeric rt vs)).
Proof. intros Hc. split_elem Hc; by decide_cols. Qed.

Lemma clean_column_continuous rt c vs :
  c ∈ continuous_cols ->
  clean_column rt c vs =
  Ok (if negb (forallb isnull (to_numeric rt vs)) then fillna_mean rt (to_numeric rt vs)
      else fillna (Flt (Finite 0%Q)) (to_numeric rt vs)).
Proof.
  intros Hc. split_elem Hc; decide_cols; by destruct (negb _).
Qed.

Lemma clean_column_categorical rt c vs :
  c ∈ categorical_cols -> clean_column rt c vs = Ok (fillna (Str "Unknown") vs).
Proof. intros Hc. split_elem Hc; by decide_cols. Qed.

Lemma clean_column_other rt c vs :
  c ≠ "Date" -> c ∉ flag_cols -> c ∉ numeric_cols -> c ∉ categorical_cols ->
  clean_column rt c vs = Ok vs.
Proof. intros. unfold clean_column. by rewrite !decide_False. Qed.

(** ** Missing values after the fills *)

Lemma fillna_notnull fill vs v :
  isnull fill = false -> v ∈ fillna fill vs -> isnull v = false.
Proof.
  intros Hf (v0 & -> & _)%list_elem_of_fmap.
  by destruct (isnull v0) eqn:H0.
Qed.

Lemma astype_int_cells vs zs v :
  astype_int vs = Ok zs -> v ∈ zs -> exists z, v = Int z.
Proof.
  revert zs. induction vs as [|v0 vs IH]; intros zs; simpl.
  - intros [= <-] ?%elem_of_nil. done.
  - destruct (astype_int_cell v0) as [z0|] eqn:H0; simpl; [|done].
    destruct (astype_int vs) as [zs0|]; simpl; [|done].
    intros [= <-] [->|Hin]%elem_of_cons; [|by eapply IH].
    destruct v0 as [| | |[|]| |]; simpl in H0; try done; injection H0 as <-; eauto.
Qed.

(** ** What [to_numeric] makes of a column *)

Lemma to_numeric_length rt vs : length (to_numeric rt vs) = length vs.
Proof.
  destruct (to_numeric_cases rt vs) as [[_ ->]|[[_ ->]|(_ & _ & ->)]];
    [done|by rewrite length_fmap|].
  simpl. destruct (forallb _ _); by rewrite !length_fmap.
Qed.

Lemma datetime_column_cells vs v :
  datetime_column vs = true -> v ∈ vs -> date_cell v = true.
Proof.
  intros [H _]%andb_true_iff Hv. apply forallb_spec in H.
  rewrite Forall_forall in H. by apply H.
Qed.


(** A column of dates is read as nanosecond counts. *)
Lemma to_numeric_datetime rt vs i v :
  datetime_column vs = true -> vs !! i = Some v ->
  to_numeric rt vs !! i = Some (datetime_as_int v).
Proof.
  intros Hd Hi.
  destruct (to_numeric_cases rt vs) as [[Hb Heq]|[[_ ->]|(_ & Hd' & _)]]; [|by rewrite list_lookup_fmap, Hi|congruence].
  exfalso. apply andb_true_iff in Hd as [Hdate Hex].
  apply existsb_exists in Hex as (x & Hx%list_elem_of_In & Hnn).
  apply forallb_spec in Hdate. rewrite Forall_forall in Hb, Hdate.
  specialize (Hb x Hx). specialize (Hdate x Hx). by destruct x.
Qed.

Lemma all_null_no_number vs :
  Forall (fun v => numeric_cell v = true) vs ->
  forallb isnull vs = true <-> omap cell_number vs = [].
Proof.
  induction 1 as [|v vs Hv Hvs IH]; [done|]. simpl.
  destruct v; try done; simpl.
Qed.

Lemma to_numeric_all_null rt vs :
  forallb isnull (to_numeric rt vs) = true <-> parseable rt vs = [].
Proof. apply all_null_no_number, to_numeric_cells. Qed.

Lemma mean_parseable rt vs :
  parseable rt vs ≠ [] -> mean rt (to_numeric rt vs) = fmean rt (parseable rt vs).
Proof.
  intros Hne. unfold mean. fold (parseable rt vs). by destruct (parseable rt vs).
Qed.

Lemma astype_int_lookup vs zs i v :
  astype_int vs = Ok zs -> vs !! i = Some v ->
  exists z, astype_int_cell v = Ok z /\ zs !! i = Some z.
Proof.
  revert zs i. induction vs as [|v0 vs IH]; intros zs i; simpl; [done|].
  destruct (astype_int_cell v0) as [z0|] eqn:H0; simpl; [|done].
  destruct (astype_int vs) as [zs0|]; simpl; [|done].
  intros [= <-]. destruct i as [|i]; simpl.
  - intros [= <-]. eauto.
  - by apply IH.
Qed.

Lemma fillna_lookup_null fill vs i :
  vs !! i = Some NA -> fillna fill vs !! i = Some fill.
Proof. intros Hi. unfold fillna. by rewrite list_lookup_fmap, Hi. Qed.

Lemma fillna_lookup_notnull fill vs i v :
  vs !! i = Some v -> isnull v = false -> fillna fill vs !! i = Some v.
Proof. intros Hi Hv. unfold fillna. by rewrite list_lookup_fmap, Hi; simpl; rewrite Hv. Qed.

Lemma fillna_mean_lookup_notnull rt vs i v :
  vs !! i = Some v -> isnull v = false -> fillna_mean rt vs !! i = Some v.
Proof.
  intros Hi Hv. unfold fillna_mean. destruct (mean rt vs); [|done].
  by apply fillna_lookup_notnull.
Qed.

Lemma fillna_length fill vs : length (fillna fill vs) = length vs.
Proof. unfold fillna. by rewrite length_fmap. Qed.

(** What the fill of a continuous column puts where [to_numeric] left NaN,
    and that it touches no other cell. *)
Lemma continuous_imputed rt vs i :
  to_numeric rt vs !! i = Some NA ->
  (if negb (forallb isnull (to_numeric rt vs)) then fillna_mean rt (to_numeric rt vs)
   else fillna (Flt (Finite 0%Q)) (to_numeric rt vs)) !! i = Some (imputed rt vs).
Proof.
  intros Hi. unfold imputed.
  destruct (forallb isnull (to_numeric rt vs)) eqn:Hall; simpl.
  - apply to_numeric_all_null in Hall. rewrite Hall. by apply fillna_lookup_null.
  - assert (parseable rt vs ≠ []) as Hne.
    { intros Hp%to_numeric_all_null. congruence. }
    unfold fillna_mean. rewrite mean_parseable by done.
    destruct (parseable rt vs) as [|x xs]; [done|].
    destruct (fmean rt (x :: xs)); [by apply fillna_lookup_null|done].
Qed.

Lemma continuous_kept rt vs i v :
  to_numeric rt vs !! i = Some v -> isnull v = false ->
  (if negb (forallb isnull (to_numeric rt vs)) then fillna_mean rt (to_numeric rt vs)
   else fillna (Flt (Finite 0%Q)) (to_numeric rt vs)) !! i = Some v.
Proof.
  intros Hi Hv. destruct (negb _).
  - by apply fillna_mean_lookup_notnull.
  - by apply fillna_lookup_notnull.
Qed.

Lemma continuous_length rt vs :
  length (if negb (forallb isnull (to_numeric rt vs)) then fillna_mean rt (to_numeric rt vs)
          else fillna (Flt (Finite 0%Q)) (to_numeric rt vs)) = length vs.
Proof.
  unfold fillna_mean.
  destruct (negb _); [destruct (mean _ _)|];
    by rewrite ?fillna_length, to_numeric_length.
Qed.

Lemma count_cols_numeric c : c ∈ count_cols -> c ∈ numeric_cols.
Proof. intros Hc. split_elem Hc; compute_done. Qed.
Lemma code_cols_numeric c : c ∈ code_cols -> c ∈ numeric_cols.
Proof. intros Hc. split_elem Hc; compute_done. Qed.
Lemma continuous_cols_numeric c : c ∈ continuous_cols -> c ∈ numeric_cols.
Proof. intros Hc. split_elem Hc; compute_done. Qed.

Lemma numeric_cols_roles c :
  c ∈ numeric_cols -> c ∈ count_cols \/ c ∈ code_cols \/ c ∈ continuous_cols.
Proof.
  intros Hc. split_elem Hc;
    first [ left; compute_done | right; left; compute_done | right; right; compute_done ].
Qed.

Lemma roles_disjoint c :
  (c ∈ count_cols -> (c ∉ code_cols) /\ (c ∉ continuous_cols)) /\
  (c ∈ code_cols -> (c ∉ count_cols) /\ (c ∉ continuous_cols)) /\
  (c ∈ continuous_cols -> (c ∉ count_cols) /\ (c ∉ code_cols)).
Proof.
  split; [|split]; intros Hc; split_elem Hc; compute_done.
Qed.

(** ** Missing values in the cleaned table *)

(** C1, as the claim words it, does not hold: the cleaned sample survey
    keeps NaT in [Date] (a text that is no date) and NaN in [Start_Time]
    (a column no stage of the engine touches). *)
Lemma cleaned_table_keeps_nulls :
  ~ (forall df out, initial_data_cleaning Ref.runtime df = Ok out ->
       forall c vs v, lookup_col c (columns out) = Some vs -> v ∈ vs -> isnull v = false).
Proof.
  intros H.
  assert (isnull NA = false) as Hnull; [|done].
  apply (H Sample.survey Sample.survey_cleaned survey_cleaning "Date"
           [Dt (mkTimestamp 2023 1 25); NA; Dt (mkTimestamp 2023 2 3)]).
  - reflexivity.
  - right; left.
Qed.

(** C1 (amended): after the engine returns, no missing value remains in the
    three flag columns, the count, visit and code columns, the sixteen
    categorical columns, and [Year] where the engine derived it.  In
    [Temperature] and [Humidity] none remains either, unless the mean of
    the column is itself NaN: the cells that did not parse are then left
    missing.  [Date] has NaT wherever a value is missing or does not parse,
    and a column outside the engine's lists (a [Year] column of the input
    among them) is returned as it came once the duplicate rows are
    dropped, missing values included. *)
Theorem listed_columns_not_null rt df out :
  initial_data_cleaning rt df = Ok out ->
  (forall c vs, lookup_col c (columns out) = Some vs ->
     (c ∈ flag_cols ++ count_cols ++ code_cols ++ categorical_cols ->
        forall v, v ∈ vs -> isnull v = false) /\
     (c = "Year" -> lookup_col "Year" (columns df) = None ->
        forall v, v ∈ vs -> isnull v = false)) /\
  (forall c vs0, c ∈ continuous_cols ->
     lookup_col c (columns (drop_duplicates df)) = Some vs0 ->
     exists vs, lookup_col c (columns out) = Some vs /\
       (imputed rt vs0 ≠ NA -> forall v, v ∈ vs -> isnull v = false) /\
       (imputed rt vs0 = NA ->
          forall i, to_numeric rt vs0 !! i = Some NA -> vs !! i = Some NA)) /\
  (exists date date',
     lookup_col "Date" (columns (drop_duplicates df)) = Some date /\
     lookup_col "Date" (columns out) = Some date' /\
     forall i v, date !! i = Some v ->
       (isnull v = true \/ exists s, v = Str s /\ strptime rt "%d-%m-%Y" s = None) ->
       date' !! i = Some NA) /\
  (forall c vs0, c ≠ "Date" -> c ∉ flag_cols -> c ∉ numeric_cols -> c ∉ categorical_cols ->
     lookup_col c (columns (drop_duplicates df)) = Some vs0 ->
     lookup_col c (columns out) = Some vs0).
Proof.
  intros H.
  destruct (cleaning_inv _ _ _ H) as (_ & (date & Hdate & Hyear) & Hcols & Hnone & _).
  split; [|split; [|split]].
  - intros c vs Hvs.
    destruct (lookup_col c (columns (drop_duplicates df))) as [vs0|] eqn:H0.
    + destruct (Hcols c vs0 H0) as (vs' & Hcl & Hout).
      assert (vs' = vs) as -> by congruence. clear Hout. split.
      * rewrite !elem_of_app. intros [Hc|[Hc|[Hc|Hc]]] v Hv.
        -- rewrite clean_column_flag in Hcl by done. injection Hcl as <-.
           rewrite normalize_flags_spec in Hv.
           by apply list_elem_of_fmap in Hv as (v0 & -> & _).
        -- rewrite clean_column_count in Hcl by done.
           by destruct (astype_int_cells _ _ _ Hcl Hv) as [z ->].
        -- rewrite clean_column_code in Hcl by done.
           by destruct (astype_int_cells _ _ _ Hcl Hv) as [z ->].
        -- rewrite clean_column_categorical in Hcl by done. injection Hcl as <-.
           by eapply fillna_notnull; [|exact Hv].
      * intros -> Hn. apply lookup_drop_duplicates_None in Hn. congruence.
    + destruct (decide (c = "Year")) as [->|Hne].
      2: { rewrite Hnone in Hvs by done. done. }
      specialize (Hyear vs H0 Hvs). subst vs. split.
      * intros Hc. exfalso. revert Hc. compute_done.
      * intros _ _ v (v0 & -> & _)%list_elem_of_fmap. by destruct v0.
  - intros c vs0 Hc H0. destruct (Hcols c vs0 H0) as (vs & Hcl & Hout).
    exists vs. split; [done|].
    rewrite clean_column_continuous in Hcl by done. injection Hcl as <-.
    split.
    + intros Himp v Hv. apply list_elem_of_lookup_1 in Hv as [i Hi].
      destruct (to_numeric rt vs0 !! i) as [v0|] eqn:Hi0.
      2: { apply lookup_ge_None in Hi0. apply lookup_lt_Some in Hi.
           rewrite continuous_length in Hi. rewrite to_numeric_length in Hi0. lia. }
      destruct (isnull v0) eqn:Hn0.
      * destruct v0; try done. rewrite (continuous_imputed _ _ _ Hi0) in Hi.
        injection Hi as <-. by destruct (imputed rt vs0).
      * rewrite (continuous_kept _ _ _ _ Hi0 Hn0) in Hi. congruence.
    + intros Himp i Hi0. by rewrite (continuous_imputed _ _ _ Hi0), Himp.
  - destruct (Hcols "Date" date Hdate) as (date' & Hcl & Hout).
    unfold clean_column in Hcl. rewrite decide_True in Hcl by done. injection Hcl as <-.
    exists date. eexists. split; [done|]. split; [exact Hout|].
    intros i v Hi Hv. unfold to_datetime, date_format.
    rewrite list_lookup_fmap, Hi. simpl. f_equal.
    destruct Hv as [Hv|(s & -> & Hs)]; [by destruct v|]. simpl. by rewrite Hs.
  - intros c vs0 H1 H2 H3 H4 H0. destruct (Hcols c vs0 H0) as (vs & Hcl & Hout).
    rewrite clean_column_other in Hcl by done. congruence.
Qed.

Lemma listed_columns_not_null_witness :
  initial_data_cleaning Ref.runtime Sample.survey = Ok Sample.survey_cleaned /\
  forall v, v ∈ [Str "Unknown"; Str "Male"; Str "Female"] -> isnull v = false.
Proof.
  assert (initial_data_cleaning Ref.runtime Sample.survey = Ok Sample.survey_cleaned) as H
    by (vm_compute; reflexivity).
  split; [exact H|].
  destruct (listed_columns_not_null Ref.runtime Sample.survey Sample.survey_cleaned H)
    as [Hlisted _].
  destruct (Hlisted "Sex" [Str "Unknown"; Str "Male"; Str "Female"]) as [Hsex _].
  - vm_compute. reflexivity.
  - apply Hsex. compute_done.
Defined.

(** ** Numeric coercion *)



(** ** Deduplication *)

Lemma well_formed_spec df :
  well_formed df = true <->
  NoDup (column_names df) /\ Forall (fun cv => length cv.2 = index_len df) (columns df).
Proof.
  unfold well_formed. rewrite andb_true_iff, bool_decide_eq_true, forallb_forall, Forall_forall.
  split; intros [Hnd Hlen]; (split; [done|]); intros cv Hcv.
  - apply list_elem_of_In in Hcv. specialize (Hlen cv Hcv). by apply bool_decide_eq_true in Hlen.
  - apply list_elem_of_In in Hcv. by apply bool_decide_eq_true, Hlen.
Qed.

Lemma select_fmap {A B} (f : A -> B) mask (l : list A) :
  select mask (f <$> l) = f <$> select mask l.
Proof.
  revert l. induction mask as [|b mask IH]; intros [|x l]; simpl; try done.
  destruct b; simpl; by rewrite IH.
Qed.

Lemma select_elem {A} mask (l : list A) x : x ∈ select mask l -> x ∈ l.
Proof.
  revert l. induction mask as [|b mask IH]; intros [|y l]; simpl;
    try (by intros ?%elem_of_nil).
  destruct b.
  - intros [->|Hin]%elem_of_cons; [left|right; by apply IH].
  - intros Hin. right. by apply IH.
Qed.

Lemma select_length {A B} mask (l : list A) (l' : list B) :
  length l = length l' -> length (select mask l) = length (select mask l').
Proof.
  revert l l'. induction mask as [|b mask IH]; intros [|x l] [|y l']; simpl; try done.
  intros [= Hlen]. destruct b; simpl; by rewrite (IH l l').
Qed.

Lemma list_as_seq (l : list value) :
  l = (fun i => default NA (l !! i)) <$> seq 0 (length l).
Proof.
  apply list_eq. intros i. rewrite list_lookup_fmap.
  destruct (decide (i < length l)%nat) as [Hlt|Hge].
  - rewrite lookup_seq_lt by done. simpl.
    destruct (lookup_lt_is_Some_2 l i Hlt) as [x Hx]. by rewrite Hx.
  - rewrite lookup_seq_ge by lia. rewrite lookup_ge_None_2 by lia. done.
Qed.

Lemma duplicated_from_length seen ks : length (duplicated_from seen ks) = length ks.
Proof.
  revert seen. induction ks as [|k ks IH]; intros seen; simpl; [done|]. by rewrite IH.
Qed.

(** The rows that are kept are the first occurrences of the keys not seen before. *)
Lemma duplicated_from_spec seen ks :
  let ks' := select (negb <$> duplicated_from seen ks) ks in
  NoDup ks' /\
  (forall k, k ∈ ks' -> (k ∉ seen) /\ k ∈ ks) /\
  (forall k, k ∈ ks -> k ∈ seen \/ k ∈ ks').
Proof.
  revert seen. induction ks as [|k ks IH]; intros seen; simpl.
  - split; [constructor|]. split; [by intros k ?%elem_of_nil|by intros k ?%elem_of_nil].
  - destruct (IH (k :: seen)) as (Hnd & Hin & Hall).
    destruct (bool_decide (k ∈ seen)) eqn:Hk; simpl.
    + apply bool_decide_eq_true in Hk. split; [done|]. split.
      * intros k' Hk'. destruct (Hin k' Hk') as [Hns Hks].
        apply not_elem_of_cons in Hns as [_ Hns]. split; [done|by right].
      * intros k' [->|Hk']%elem_of_cons; [by left|].
        destruct (Hall k' Hk') as [[->|Hs]%elem_of_cons|Hs]; eauto.
    + apply bool_decide_eq_false in Hk. split; [|split].
      * constructor; [|done]. intros Hk'. destruct (Hin k Hk') as [Hns _].
        apply Hns. left.
      * intros k' [->|Hk']%elem_of_cons; [split; [done|left]|].
        destruct (Hin k' Hk') as [Hns Hks].
        apply not_elem_of_cons in Hns as [_ Hns]. split; [done|by right].
      * intros k' [->|Hk']%elem_of_cons; [right; left|].
        destruct (Hall k' Hk') as [[->|Hs]%elem_of_cons|Hs]; eauto.
        -- right; left.
        -- right; by right.
Qed.

Lemma rows_length df : length (rows df) = index_len df.
Proof. unfold rows. by rewrite length_fmap, length_seq. Qed.

Lemma duplicated_length df : length (duplicated df) = index_len df.
Proof.
  unfold duplicated. by rewrite duplicated_from_length, length_fmap, rows_length.
Qed.

(** Dropping duplicates column by column is dropping them row by row. *)
Lemma rows_drop_duplicates df :
  well_formed df = true ->
  rows (drop_duplicates df) =
  if DataFrame_empty df then rows df else select (negb <$> duplicated df) (rows df).
Proof.
  intros [_ Hlen]%well_formed_spec. unfold drop_duplicates.
  destruct (DataFrame_empty df); [done|].
  set (keep := negb <$> duplicated df).
  assert (length keep = index_len df) as Hkeep.
  { unfold keep. by rewrite length_fmap, duplicated_length. }
  set (sel := select keep (seq 0 (index_len df))).
  assert (length (select keep keep) = length sel) as Hsel.
  { apply select_length. by rewrite length_seq. }
  unfold rows at 1. cbn [index_len]. rewrite Hsel.
  transitivity (row df <$> sel).
  2: { unfold sel, rows. by rewrite select_fmap. }
  apply list_eq. intros j. rewrite !list_lookup_fmap.
  destruct (decide (j < length sel)%nat) as [Hlt|Hge].
  2: { rewrite lookup_seq_ge by lia. by rewrite (lookup_ge_None_2 sel) by lia. }
  rewrite lookup_seq_lt by done.
  destruct (lookup_lt_is_Some_2 sel j Hlt) as [i Hi]. rewrite Hi. simpl. f_equal.
  unfold row. cbn [columns]. rewrite <- list_fmap_compose.
  apply list_fmap_ext. intros p [c vs] Hcv; simpl.
  apply list_elem_of_lookup_2 in Hcv.
  rewrite Forall_forall in Hlen. specialize (Hlen _ Hcv). simpl in Hlen.
  rewrite (list_as_seq vs) at 1. rewrite Hlen, select_fmap. fold sel.
  by rewrite list_lookup_fmap, Hi.
Qed.

Lemma unique_key_count {A} (f : A -> list hkey) (l : list A) k :
  NoDup (f <$> l) -> k ∈ f <$> l -> length (filter (fun x => f x = k) l) = 1%nat.
Proof.
  induction l as [|x l IH].
  - by intros _ ?%elem_of_nil.
  - rewrite fmap_cons. intros [Hx Hnd]%NoDup_cons Hk. rewrite filter_cons.
    destruct (decide (f x = k)) as [<-|Hne].
    + simpl. f_equal.
      destruct (filter (fun y => f y = f x) l) as [|y l'] eqn:Hf; [done|]. exfalso.
      assert (y ∈ filter (fun y => f y = f x) l) as [Heq Hy]%list_elem_of_filter
        by (rewrite Hf; left).
      apply Hx. rewrite <- Heq. apply list_elem_of_fmap. eauto.
    + apply IH; [done|]. apply elem_of_cons in Hk as [->|Hk]; done.
Qed.

Lemma drop_duplicates_rows df :
  well_formed df = true -> columns df ≠ [] ->
  let d := drop_duplicates df in
  NoDup (row_key <$> rows d) /\
  (forall r, r ∈ rows d -> r ∈ rows df) /\
  (forall r, r ∈ rows df -> row_key r ∈ row_key <$> rows d).
Proof.
  intros Hwf Hcols d. unfold d. rewrite rows_drop_duplicates by done.
  destruct (DataFrame_empty df) eqn:He.
  - unfold DataFrame_empty in He. apply orb_true_iff in He as [He|He].
    2: { by apply bool_decide_eq_true in He. }
    apply bool_decide_eq_true in He. unfold rows. rewrite He. simpl.
    split; [constructor|]. split; [done|]. by intros r ?%elem_of_nil.
  - unfold duplicated.
    destruct (duplicated_from_spec [] (row_key <$> rows df)) as (Hnd & Hin & Hall).
    rewrite select_fmap in Hnd, Hall.
    split; [done|]. split.
    + intros r. apply select_elem.
    + intros r Hr. destruct (Hall (row_key r)) as [?%elem_of_nil|?]; [|done..].
      apply list_elem_of_fmap. eauto.
Qed.

(** ** The loader on one sheet *)

Lemma row_setitem_absent c vs df i :
  lookup_col c (columns df) = None ->
  row (setitem c vs df) i = row df i ++ [default NA (vs !! i)].
Proof.
  intros Hn. unfold row, setitem; simpl. rewrite assign_absent by done.
  by rewrite fmap_app.
Qed.

Lemma rows_setitem_scalar c v df :
  lookup_col c (columns df) = None ->
  rows (setitem_scalar c v df) = (fun r => r ++ [v]) <$> rows df.
Proof.
  intros Hn. unfold rows, setitem_scalar. cbn [index_len setitem].
  rewrite <- list_fmap_compose. apply list_fmap_ext. intros j i Hi; simpl.
  rewrite row_setitem_absent by done. f_equal. f_equal.
  apply lookup_seq in Hi as [-> Hlt]. simpl.
  by rewrite lookup_replicate_2.
Qed.

Lemma well_formed_setitem_scalar c v df :
  lookup_col c (columns df) = None -> well_formed df = true ->
  well_formed (setitem_scalar c v df) = true.
Proof.
  intros Hn [Hnd Hlen]%well_formed_spec. apply well_formed_spec.
  unfold setitem_scalar, setitem, column_names in *; simpl.
  rewrite assign_absent by done. split.
  - rewrite fmap_app. apply NoDup_app. split; [done|]. split.
    + intros c' Hc' [->|?%elem_of_nil]%elem_of_cons; [|done].
      simpl in Hc'. apply lookup_col_names in Hc'. rewrite Hn in Hc'. by destruct Hc'.
    + apply NoDup_singleton.
  - apply Forall_app. split; [done|]. constructor; [|done]. simpl.
    by rewrite length_replicate.
Qed.

Lemma tag_sheet_rows lt name sheet :
  lookup_col "Location_Type" (columns sheet) = None ->
  lookup_col "Admin_Unit_Code" (columns sheet) = None ->
  rows (tag_sheet lt name sheet) =
  (fun r => r ++ [Str (capitalize lt); Str name]) <$> rows sheet.
Proof.
  intros HL HA. unfold tag_sheet. rewrite rows_setitem_scalar.
  2: { unfold setitem_scalar, setitem; simpl. by rewrite lookup_assign_ne. }
  rewrite rows_setitem_scalar by done. rewrite <- list_fmap_compose.
  apply list_fmap_ext. intros _ r _; simpl. by rewrite <- app_assoc.
Qed.

Lemma tag_sheet_well_formed lt name sheet :
  lookup_col "Location_Type" (columns sheet) = None ->
  lookup_col "Admin_Unit_Code" (columns sheet) = None ->
  well_formed sheet = true -> well_formed (tag_sheet lt name sheet) = true.
Proof.
  intros HL HA Hwf. unfold tag_sheet. apply well_formed_setitem_scalar.
  - unfold setitem_scalar, setitem; simpl. by rewrite lookup_assign_ne.
  - by apply well_formed_setitem_scalar.
Qed.

Lemma tag_sheet_columns lt name sheet :
  index_len (tag_sheet lt name sheet) = index_len sheet /\
  lookup_col "Location_Type" (columns (tag_sheet lt name sheet)) =
    Some (replicate (index_len sheet) (Str (capitalize lt))) /\
  lookup_col "Admin_Unit_Code" (columns (tag_sheet lt name sheet)) =
    Some (replicate (index_len sheet) (Str name)).
Proof.
  unfold tag_sheet, setitem_scalar, setitem; simpl.
  split; [done|]. split.
  - rewrite lookup_assign_ne by done. apply lookup_assign_eq.
  - apply lookup_assign_eq.
Qed.

Lemma unique_from_NoDup seen l :
  NoDup l -> (forall x, x ∈ l -> x ∉ seen) -> unique_from seen l = l.
Proof.
  revert seen. induction l as [|x l IH]; intros seen; simpl; [done|].
  intros [Hx Hnd]%NoDup_cons Hseen.
  rewrite bool_decide_eq_false_2 by (apply Hseen; left). f_equal.
  apply IH; [done|]. intros y Hy [->|Hin]%elem_of_cons; [done|].
  by apply (Hseen y); [right|].
Qed.

Lemma lookup_col_NoDup cols c vs :
  NoDup cols.*1 -> (c, vs) ∈ cols -> lookup_col c cols = Some vs.
Proof.
  induction cols as [|[c0 vs0] cols IH]; simpl.
  - by intros _ ?%elem_of_nil.
  - intros [Hc0 Hnd]%NoDup_cons [[= -> ->]|Hin]%elem_of_cons.
    + by rewrite decide_True.
    + rewrite decide_False; [by apply IH|].
      intros ->. apply Hc0. apply list_elem_of_fmap. by exists (c0, vs).
Qed.

(** Concatenating a single frame returns it. *)
Lemma concat_singleton df : well_formed df = true -> concat [df] = df.
Proof.
  intros [Hnd Hlen]%well_formed_spec. unfold concat. simpl.
  rewrite app_nil_r, Nat.add_0_r.
  rewrite unique_from_NoDup; [|done|by intros x _ ?%elem_of_nil].
  destruct df as [n cols]; simpl in *. f_equal.
  unfold column_names. simpl. rewrite <- list_fmap_compose.
  rewrite <- (list_fmap_id cols) at 2.
  apply list_fmap_ext. intros i [c vs] Hi; simpl.
  unfold column_or_nan; simpl.
  rewrite (lookup_col_NoDup cols c vs); [|done|by eapply list_elem_of_lookup_2].
  by rewrite app_nil_r.
Qed.

Lemma path_join_print line w a b : path_join (print line w) a b = path_join w a b.
Proof. done. Qed.

(** With the FOREST workbook alone in the folder, holding one sheet, the
    loader returns that sheet with its two tags. *)
Lemma load_forest_sheet folder w name sheet :
  files w !! path_join w folder FOREST_FILE = Some (Workbook [(name, sheet)]) ->
  files w !! path_join w folder GRASSLAND_FILE = None ->
  lookup_col "Location_Type" (columns sheet) = None ->
  lookup_col "Admin_Unit_Code" (columns sheet) = None ->
  well_formed sheet = true ->
  exists w', load_and_combine_data folder w = Ok (tag_sheet "FOREST" name sheet, w') /\
    files w' = files w /\ database w' = database w.
Proof.
  intros HF HG HL HA Hwf.
  unfold load_and_combine_data, load_sources, excel_files.
  unfold foldM, load_file. fold FOREST_FILE GRASSLAND_FILE.
  unfold path_exists. rewrite HF.
  rewrite bool_decide_eq_true_2 by eauto. cbn [negb].
  unfold read_excel. cbn [files print]. rewrite HF.
  cbn [mbind result_bind try_except fold_left load_sheet app].
  rewrite !path_join_print. cbn [files print]. rewrite HG.
  rewrite bool_decide_eq_false_2 by (by intros [? ?]). cbn [negb mbind result_bind].
  rewrite bool_decide_eq_false_2 by done.
  fold (tag_sheet "FOREST" name sheet).
  rewrite concat_singleton by (by apply tag_sheet_well_formed).
  eexists. split; [reflexivity|]. done.
Qed.

Lemma duplicated_from_inj (f : list hkey -> list hkey) seen ks :
  (forall x y, f x = f y -> x = y) ->
  duplicated_from (f <$> seen) (f <$> ks) = duplicated_from seen ks.
Proof.
  intros Hinj. revert seen. induction ks as [|k ks IH]; intros seen; [done|].
  rewrite fmap_cons. cbn [duplicated_from]. rewrite <- fmap_cons, IH. f_equal.
  apply bool_decide_ext. rewrite list_elem_of_fmap. split.
  - intros (k' & Heq & Hk'). by rewrite (Hinj _ _ Heq).
  - intros Hk. eauto.
Qed.

Lemma tag_sheet_duplicated lt name sheet :
  lookup_col "Location_Type" (columns sheet) = None ->
  lookup_col "Admin_Unit_Code" (columns sheet) = None ->
  duplicated (tag_sheet lt name sheet) = duplicated sheet.
Proof.
  intros HL HA. unfold duplicated. rewrite tag_sheet_rows by done.
  assert (row_key <$> ((fun r => r ++ [Str (capitalize lt); Str name]) <$> rows sheet) =
          (fun k => k ++ [KStr (capitalize lt); KStr name]) <$> (row_key <$> rows sheet))
    as ->.
  { rewrite <- !list_fmap_compose. apply list_fmap_ext. intros i r _; simpl.
    unfold row_key. by rewrite fmap_app. }
  apply (duplicated_from_inj (fun k => k ++ _) []).
  intros x y. apply app_inv_tail.
Qed.

Lemma one_duplicate_kept sheet :
  one_duplicate sheet ->
  length (select (negb <$> duplicated sheet) (negb <$> duplicated sheet)) = 2%nat.
Proof.
  intros (r1 & r2 & Hne & Hrows). unfold duplicated.
  assert (row_key r2 ≠ row_key r1) as Hne' by congruence.
  destruct Hrows as [-> |[-> | ->]]; simpl;
    repeat first
      [ rewrite (bool_decide_eq_false_2 (_ ∈ [])) by apply not_elem_of_nil
      | rewrite (bool_decide_eq_true_2 (_ ∈ _ :: _))
          by (rewrite ?elem_of_cons, ?elem_of_nil; tauto)
      | rewrite (bool_decide_eq_false_2 (_ ∈ _ :: _))
          by (rewrite ?elem_of_cons, ?elem_of_nil; tauto) ];
    done.
Qed.

(** C5: duplicates are exact full-row matches.  Of the rows of the input
    that agree in every column exactly one survives, no other row comes in,
    and the later stages keep the number of rows.  In the scenario of a
    FOREST workbook alone in the folder, with one sheet [UNIT1] of three
    rows of which one repeats another, the loader returns the three rows
    tagged [Forest] and [UNIT1], and the engine returns two rows. *)
Theorem deduplication rt :
  (forall df out, well_formed df = true -> initial_data_cleaning rt df = Ok out ->
     (forall r, r ∈ rows df ->
        length (filter (fun r' => row_key r' = row_key r) (rows (drop_duplicates df)))
        = 1%nat) /\
     (forall r, r ∈ rows (drop_duplicates df) -> r ∈ rows df) /\
     index_len out = length (rows (drop_duplicates df))) /\
  (forall w folder sheet,
     files w !! path_join w folder FOREST_FILE = Some (Workbook [("UNIT1", sheet)]) ->
     files w !! path_join w folder GRASSLAND_FILE = None ->
     well_formed sheet = true ->
     lookup_col "Location_Type" (columns sheet) = None ->
     lookup_col "Admin_Unit_Code" (columns sheet) = None ->
     one_duplicate sheet ->
     exists df w', load_and_combine_data folder w = Ok (df, w') /\
       index_len df = 3%nat /\
       lookup_col "Location_Type" (columns df) = Some (replicate 3 (Str "Forest")) /\
       lookup_col "Admin_Unit_Code" (columns df) = Some (replicate 3 (Str "UNIT1")) /\
       index_len (drop_duplicates df) = 2%nat /\
       (forall out, initial_data_cleaning rt df = Ok out -> index_len out = 2%nat) /\
       (is_Some (lookup_col "Date" (columns sheet)) ->
        (forall c vs v, c ∈ count_cols ++ code_cols ->
           lookup_col c (columns (drop_duplicates df)) = Some vs ->
           v ∈ to_numeric rt vs -> is_inf v = false) ->
        exists out, initial_data_cleaning rt df = Ok out /\ index_len out = 2%nat)).
Proof.
  split.
  - intros df out Hwf H.
    destruct (cleaning_inv _ _ _ H) as (Hlen & (date & Hdate & _) & _).
    assert (columns df ≠ []) as Hcols.
    { intros Hnil. rewrite lookup_drop_duplicates, Hnil in Hdate. done. }
    destruct (drop_duplicates_rows df Hwf Hcols) as (Hnd & Hsub & Hall).
    split; [|split; [done|by rewrite rows_length]].
    intros r Hr. apply unique_key_count; [done|by apply Hall].
  - intros w folder sheet HF HG Hwf HL HA Hdup.
    destruct (load_forest_sheet folder w "UNIT1" sheet HF HG HL HA Hwf)
      as (w' & Hload & _).
    set (df := tag_sheet "FOREST" "UNIT1" sheet) in *.
    assert (index_len sheet = 3%nat) as H3.
    { rewrite <- rows_length. by destruct Hdup as (r1 & r2 & _ & [-> |[-> | ->]]). }
    destruct (tag_sheet_columns "FOREST" "UNIT1" sheet) as (Hn & HcL & HcA). fold df in Hn, HcL, HcA.
    assert (index_len (drop_duplicates df) = 2%nat) as H2.
    { unfold drop_duplicates, DataFrame_empty. rewrite Hn, H3.
      rewrite bool_decide_eq_false_2 by done.
      rewrite bool_decide_eq_false_2; [|intros Hnil; by rewrite Hnil in HcL].
      cbn [orb index_len]. unfold df. rewrite tag_sheet_duplicated by done.
      by apply one_duplicate_kept. }
    assert (forall out, initial_data_cleaning rt df = Ok out -> index_len out = 2%nat) as Hout.
    { intros out H. destruct (cleaning_inv _ _ _ H) as (Hlen & _). congruence. }
    exists df, w'. split; [done|]. split; [congruence|].
    split; [by rewrite HcL, H3|]. split; [by rewrite HcA, H3|].
    split; [done|]. split; [done|].
    intros [date Hdate] Hfin.
    destruct (cleaning_returns rt df) as [out H]; [|done|eauto].
    unfold df, tag_sheet, setitem_scalar, setitem; simpl.
    rewrite !lookup_assign_ne by done. eauto.
Qed.

Lemma deduplication_witness :
  exists df w' out,
    load_and_combine_data "/project" Sample.forest_only = Ok (df, w') /\
    index_len df = 3%nat /\
    initial_data_cleaning Ref.runtime df = Ok out /\ index_len out = 2%nat.
Proof.
  destruct (deduplication Ref.runtime) as [_ Hscenario].
  destruct (Hscenario Sample.forest_only "/project" Sample.unit1)
    as (df & w' & Hload & H3 & _ & _ & _ & _ & Hclean).
  - vm_compute. reflexivity.
  - vm_compute. reflexivity.
  - vm_compute. reflexivity.
  - vm_compute. reflexivity.
  - vm_compute. reflexivity.
  - exists [Str "25-01-2023"; Str "Wood Thrush"; Int 1],
      [Str "26-01-2023"; Str "Eastern Towhee"; Int 2].
    split; [vm_compute; discriminate|]. right; left. vm_compute. reflexivity.
  - destruct Hclean as (out & Hout & H2).
    + vm_compute. eauto.
    + vm_compute in Hload. injection Hload as <- _.
      intros c vs v Hc Hvs. revert v. apply Forall_forall.
      split_elem Hc; vm_compute in Hvs; try discriminate Hvs;
        injection Hvs as <-; compute_done.
    + exists df, w', out. auto.
Defined.

(** ** The loader and missing sources *)

Lemma same_fs_refl w : same_fs w w.
Proof. done. Qed.

Lemma same_fs_print line w : same_fs w (print line w).
Proof. done. Qed.

Lemma same_fs_trans w1 w2 w3 : same_fs w1 w2 -> same_fs w2 w3 -> same_fs w1 w3.
Proof. unfold same_fs. intros (-> & -> & -> & ->) (-> & -> & -> & ->). done. Qed.

Lemma same_fs_sym w1 w2 : same_fs w1 w2 -> same_fs w2 w1.
Proof. unfold same_fs. intros (-> & -> & -> & ->). done. Qed.

Lemma same_fs_path_join w1 w2 a b : same_fs w1 w2 -> path_join w1 a b = path_join w2 a b.
Proof. intros (_ & Hsep & _). unfold path_join. by rewrite Hsep. Qed.

Lemma same_fs_source_exists w1 w2 folder e :
  same_fs w1 w2 -> source_exists w1 folder e = source_exists w2 folder e.
Proof.
  intros Hfs. unfold source_exists, path_exists.
  rewrite (same_fs_path_join w1 w2) by done. destruct Hfs as (-> & _). done.
Qed.

(** The sheets of a workbook are appended in order; the world only gains lines. *)
Lemma fold_load_sheet lt sheets all_data w :
  exists w', fold_left (load_sheet lt) sheets (all_data, w) =
               (all_data ++ ((fun s => tag_sheet lt s.1 s.2) <$> sheets), w') /\
    same_fs w w' /\ stdout w `prefix_of` stdout w'.
Proof.
  revert all_data w. induction sheets as [|[name sheet] sheets IH]; intros all_data w; simpl.
  - exists w. by rewrite app_nil_r.
  - edestruct IH as (w' & -> & Hfs & Hpre).
    exists w'. split; [by rewrite <- app_assoc|]. split.
    + eapply same_fs_trans; [apply same_fs_print|done].
    + etrans; [|done]. simpl. by apply prefix_app_r.
Qed.

(** A source that is not there is skipped: the data read so far is kept
    and one notice is printed. *)
Lemma load_file_skip folder all_data w e :
  source_exists w folder e = false ->
  load_file folder (all_data, w) e = Ok (all_data, print (not_found_notice w folder e) w).
Proof.
  destruct e as [lt fn]. unfold source_exists, load_file, not_found_notice; simpl.
  by intros ->.
Qed.

(** One round of the loop returns, whatever the file holds, and what it
    appends depends on the files only. *)
Lemma load_file_returns folder all_data w e :
  exists new w', load_file folder (all_data, w) e = Ok (all_data ++ new, w') /\
    same_fs w w' /\ stdout w `prefix_of` stdout w' /\
    (source_exists w folder e = false -> new = []) /\
    forall all_data2 w2, same_fs w w2 ->
      exists w2', load_file folder (all_data2, w2) e = Ok (all_data2 ++ new, w2') .
Proof.
  destruct e as [lt fn].
  destruct (source_exists w folder (lt, fn)) eqn:Hex.
  - unfold load_file. unfold source_exists in Hex; simpl in Hex. rewrite Hex. cbn [negb].
    destruct (read_excel w (path_join w folder fn)) as [sheets|e] eqn:Hread.
    + set (w1 := print _ w).
      assert (read_excel w1 (path_join w folder fn) = Ok sheets) as -> by done.
      cbn [mbind result_bind try_except].
      destruct (fold_load_sheet lt sheets all_data w1) as (w' & -> & Hfs & Hpre).
      eexists _, w'. split; [done|]. split; [by eapply same_fs_trans; [apply same_fs_print|]|].
      split; [etrans; [|done]; by apply prefix_app_r|]. split; [done|].
      intros all_data2 w2 Hfs2.
      assert (path_exists w2 (path_join w2 folder fn) = true) as ->.
      { pose proof (same_fs_source_exists w w2 folder (lt, fn) Hfs2) as Heq.
        unfold source_exists in Heq; simpl in Heq. congruence. }
      cbn [negb]. set (w3 := print _ w2).
      assert (read_excel w3 (path_join w2 folder fn) = Ok sheets) as ->.
      { rewrite <- (same_fs_path_join w w2) by done. rewrite <- Hread.
        unfold read_excel, w3. simpl. by destruct Hfs2 as (-> & _). }
      cbn [mbind result_bind try_except].
      destruct (fold_load_sheet lt sheets all_data2 w3) as (w2' & -> & _).
      eauto.
    + set (w1 := print _ w).
      assert (read_excel w1 (path_join w folder fn) = Raise e) as -> by done.
      cbn [mbind result_bind try_except].
      exists [], (print ("Error reading Excel file " +:+ fn +:+ ": " +:+ str_exn e) w1).
      rewrite app_nil_r. split; [done|]. split; [done|].
      split; [unfold w1; simpl; rewrite <- app_assoc; by apply prefix_app_r|].
      split; [done|].
      intros all_data2 w2 Hfs2.
      assert (path_exists w2 (path_join w2 folder fn) = true) as ->.
      { pose proof (same_fs_source_exists w w2 folder (lt, fn) Hfs2) as Heq.
        unfold source_exists in Heq; simpl in Heq. congruence. }
      cbn [negb]. set (w3 := print _ w2).
      assert (read_excel w3 (path_join w2 folder fn) = Raise e) as ->.
      { rewrite <- (same_fs_path_join w w2) by done. rewrite <- Hread.
        unfold read_excel, w3. simpl. by destruct Hfs2 as (-> & _). }
      cbn [mbind result_bind try_except]. rewrite app_nil_r. eauto.
  - rewrite load_file_skip by done. exists [], (print (not_found_notice w folder (lt, fn)) w).
    rewrite app_nil_r. split; [done|]. split; [done|].
    split; [by apply prefix_app_r|]. split; [done|].
    intros all_data2 w2 Hfs2. rewrite load_file_skip.
    + rewrite app_nil_r. eauto.
    + by rewrite <- (same_fs_source_exists w w2).
Qed.

Lemma foldM_cons {A B} (f : B -> A -> result B) a l b :
  foldM f (a :: l) b = (b' ← f b a; foldM f l b').
Proof. done. Qed.

Lemma same_fs_notice w1 w2 folder e :
  same_fs w1 w2 -> not_found_notice w1 folder e = not_found_notice w2 folder e.
Proof. intros Hfs. unfold not_found_notice. by rewrite (same_fs_path_join w1 w2). Qed.

(** The whole loop: it returns; every missing source has its notice on the
    output; the data is what the loop over the sources that exist yields. *)
Lemma load_loop folder sources all_data w :
  exists new w',
    foldM (load_file folder) sources (all_data, w) = Ok (all_data ++ new, w') /\
    same_fs w w' /\ stdout w `prefix_of` stdout w' /\
    (forall e, e ∈ sources -> source_exists w folder e = false ->
       not_found_notice w folder e ∈ stdout w') /\
    (forall all_data2 w2, same_fs w w2 ->
       exists w2',
         foldM (load_file folder) (filter (fun e => source_exists w folder e = true) sources)
               (all_data2, w2) = Ok (all_data2 ++ new, w2')).
Proof.
  revert all_data w. induction sources as [|e sources IH]; intros all_data w.
  - exists [], w. rewrite app_nil_r. split; [done|]. split; [done|]. split; [done|].
    split; [by intros e ?%elem_of_nil|]. intros all_data2 w2 _.
    exists w2. by rewrite app_nil_r.
  - destruct (load_file_returns folder all_data w e) as (new1 & w1 & H1 & Hfs1 & Hpre1 & Hskip & Hdata1).
    destruct (IH (all_data ++ new1) w1) as (new2 & w' & H2 & Hfs2 & Hpre2 & Hnot & Hdata2).
    exists (new1 ++ new2), w'. rewrite foldM_cons, H1. cbn [mbind result_bind].
    rewrite H2, app_assoc. split; [done|].
    split; [by eapply same_fs_trans|]. split; [by etrans|].
    assert (Hfilter : filter (fun e => source_exists w1 folder e = true) sources =
                      filter (fun e => source_exists w folder e = true) sources).
    { apply list_filter_iff. intros e'. by rewrite (same_fs_source_exists w w1). }
    split.
    + intros e' [->|He']%elem_of_cons Hmiss.
      * rewrite load_file_skip in H1 by done. injection H1 as _ <-.
        eapply elem_of_prefix; [|done]. simpl. apply elem_of_app. right. left.
      * rewrite (same_fs_notice w w1) by done. apply Hnot; [done|].
        by rewrite <- (same_fs_source_exists w w1).
    + intros all_data2 w2 Hw2. rewrite filter_cons.
      destruct (decide (source_exists w folder e = true)) as [Hex|Hex].
      * destruct (Hdata1 all_data2 w2 Hw2) as (w2' & Hl2).
        destruct (load_file_returns folder all_data2 w2 e) as (new' & w2'' & Hl2' & Hfs2' & _).
        assert (w2'' = w2') as -> by congruence.
        destruct (Hdata2 (all_data2 ++ new1) w2') as (w3 & Hl3).
        { eapply same_fs_trans; [apply same_fs_sym, Hfs1|]. by eapply same_fs_trans. }
        exists w3. rewrite foldM_cons, Hl2. cbn [mbind result_bind].
        rewrite <- Hfilter, Hl3. by rewrite app_assoc.
      * apply not_true_is_false in Hex. rewrite (Hskip Hex). simpl.
        destruct (Hdata2 all_data2 w2) as (w3 & Hl3).
        { eapply same_fs_trans; [apply same_fs_sym, Hfs1|done]. }
        exists w3. by rewrite <- Hfilter.
Qed.

Lemma load_sources_spec sources folder w :
  exists new w',
    load_sources sources folder w =
      Ok (if bool_decide (new = []) then DataFrame_new else concat new,
          if bool_decide (new = [])
          then print "No data was loaded from Excel files. Please check file names and paths." w'
          else w') /\
    same_fs w w' /\
    (forall e, e ∈ sources -> source_exists w folder e = false ->
       not_found_notice w folder e ∈ stdout w') /\
    foldM (load_file folder) sources ([], w) = Ok (new, w') /\
    exists w2', foldM (load_file folder)
                  (filter (fun e => source_exists w folder e = true) sources) ([], w)
                = Ok (new, w2').
Proof.
  destruct (load_loop folder sources [] w) as (new & w' & H & Hfs & _ & Hnot & Hdata).
  exists new, w'. unfold load_sources. rewrite H. simpl.
  split; [by destruct (bool_decide (new = []))|]. split; [done|]. split; [done|].
  split; [done|]. by apply (Hdata [] w).
Qed.

Lemma load_sources_present sources folder w df w' :
  load_sources sources folder w = Ok (df, w') ->
  (forall e, e ∈ sources -> source_exists w folder e = false ->
     not_found_notice w folder e ∈ stdout w') /\
  exists w'', load_sources (filter (fun e => source_exists w folder e = true) sources)
                folder w = Ok (df, w'').
Proof.
  destruct (load_sources_spec sources folder w) as (new & w1 & -> & _ & Hnot & _ & w2 & Hf).
  intros [= <- <-]. split.
  - intros e He Hmiss. specialize (Hnot e He Hmiss).
    destruct (bool_decide (new = [])); [|done]. simpl. apply elem_of_app. by left.
  - unfold load_sources. rewrite Hf. simpl.
    destruct (bool_decide (new = [])); eauto.
Qed.

(** C7: a declared source that is not at its path is skipped with a notice
    and the loop goes on with the sources that remain; the loader returns
    on every folder, and what it returns is what it returns on the sources
    that exist.  With the GRASSLAND workbook missing, the result is the one
    of the FOREST workbook alone. *)
Theorem missing_sources_skipped folder w :
  (exists df w', load_and_combine_data folder w = Ok (df, w')) /\
  (forall all_data e rest, source_exists w folder e = false ->
     foldM (load_file folder) (e :: rest) (all_data, w) =
     foldM (load_file folder) rest (all_data, print (not_found_notice w folder e) w)) /\
  (forall sources df w', load_sources sources folder w = Ok (df, w') ->
     (forall e, e ∈ sources -> source_exists w folder e = false ->
        not_found_notice w folder e ∈ stdout w') /\
     exists w'', load_sources (filter (fun e => source_exists w folder e = true) sources)
                   folder w = Ok (df, w'')) /\
  (files w !! path_join w folder GRASSLAND_FILE = None ->
   forall df w', load_and_combine_data folder w = Ok (df, w') ->
     not_found_notice w folder ("GRASSLAND", GRASSLAND_FILE) ∈ stdout w' /\
     exists w'', load_sources [("FOREST", FOREST_FILE)] folder w = Ok (df, w'')).
Proof.
  split; [|split; [|split]].
  - unfold load_and_combine_data.
    destruct (load_sources_spec excel_files folder w) as (new & w1 & -> & _). eauto.
  - intros all_data e rest Hmiss. by rewrite foldM_cons, load_file_skip.
  - intros sources df w'. apply load_sources_present.
  - intros HG df w' Hload.
    assert (source_exists w folder ("GRASSLAND", GRASSLAND_FILE) = false) as Hmiss.
    { unfold source_exists, path_exists; simpl. rewrite HG.
      apply bool_decide_eq_false_2. by intros [? ?]. }
    destruct (load_sources_present _ _ _ _ _ Hload) as (Hnot & w'' & Hf).
    split; [apply Hnot; [compute_done|done]|].
    unfold excel_files in Hf. fold FOREST_FILE GRASSLAND_FILE in Hf.
    rewrite filter_cons, filter_cons, filter_nil in Hf.
    rewrite (decide_False (P := source_exists w folder ("GRASSLAND", GRASSLAND_FILE) = true))
      in Hf by congruence.
    destruct (decide (source_exists w folder ("FOREST", FOREST_FILE) = true)) as [Hex|Hex];
      [eauto|].
    apply not_true_is_false in Hex.
    unfold load_sources in *. rewrite foldM_cons, load_file_skip by done.
    simpl in Hf. injection Hf as <- _. simpl. eauto.
Qed.

(** ** The script on an empty folder *)

(** The world in which the script calls the sink. *)
Lemma main_unfold rt w :
  main rt w =
  ('(combined_df, w1) ← load_and_combine_data (cwd w) (print starting_line w);
   if negb (DataFrame_empty combined_df) then
     cleaned_df ← initial_data_cleaning rt combined_df;
     upload_to_sql cleaned_df (before_upload rt cleaned_df w1)
   else Ok (print nothing_loaded_line w1)).
Proof. done. Qed.

(** C8: with none of the declared workbooks in the folder the loader
    returns the empty frame, and the script ends there without raising: it
    prints its notices, calls no later stage, and leaves the files and the
    database as they were.  The same holds whenever the loader returns an
    empty frame. *)
Theorem no_sources_is_a_no_op rt w :
  files w !! path_join w (cwd w) FOREST_FILE = None ->
  files w !! path_join w (cwd w) GRASSLAND_FILE = None ->
  (exists w1, load_and_combine_data (cwd w) w = Ok (DataFrame_new, w1)) /\
  DataFrame_empty DataFrame_new = true /\
  (exists w', main rt w = Ok w' /\
     stdout w' = stdout w ++
       [starting_line;
        not_found_notice w (cwd w) ("FOREST", FOREST_FILE);
        not_found_notice w (cwd w) ("GRASSLAND", GRASSLAND_FILE);
        loader_empty_line; nothing_loaded_line] /\
     files w' = files w /\ database w' = database w) /\
  (forall w0 df w1, load_and_combine_data (cwd w0) (print starting_line w0) = Ok (df, w1) ->
     DataFrame_empty df = true -> main rt w0 = Ok (print nothing_loaded_line w1)).
Proof.
  intros HF HG.
  assert (Hload : forall w0, same_fs w w0 ->
    load_and_combine_data (cwd w) w0 =
    Ok (DataFrame_new,
        print loader_empty_line
          (print (not_found_notice w (cwd w) ("GRASSLAND", GRASSLAND_FILE))
             (print (not_found_notice w (cwd w) ("FOREST", FOREST_FILE)) w0)))).
  { intros w0 Hfs.
    assert (forall e, e ∈ excel_files -> source_exists w (cwd w) e = false) as Hmiss.
    { intros e He. unfold excel_files in He. split_elem He;
        unfold source_exists, path_exists; simpl;
        fold FOREST_FILE GRASSLAND_FILE; rewrite ?HF, ?HG;
        apply bool_decide_eq_false_2; by intros [? ?]. }
    unfold load_and_combine_data, load_sources, excel_files.
    rewrite foldM_cons, load_file_skip.
    2: { rewrite <- (same_fs_source_exists w w0) by done. apply Hmiss. compute_done. }
    cbn [mbind result_bind]. rewrite foldM_cons, load_file_skip.
    2: { rewrite <- (same_fs_source_exists w) by (by eapply same_fs_trans).
         apply Hmiss. compute_done. }
    unfold foldM. cbn [mbind result_bind]. rewrite bool_decide_eq_true_2 by done.
    change (not_found_notice (print ?l w0)) with (not_found_notice w0).
    by rewrite <- !(same_fs_notice w w0) by done. }
  split; [rewrite Hload by done; eauto|]. split; [done|]. split.
  - rewrite main_unfold, (Hload (print starting_line w)) by done.
    eexists. split; [done|]. split; [|done].
    simpl. by rewrite <- !app_assoc.
  - intros w0 df w1 Hl He. rewrite main_unfold, Hl. simpl. by rewrite He.
Qed.

Lemma no_sources_is_a_no_op_witness :
  exists w', main Ref.runtime Sample.empty_folder = Ok w' /\
    last (stdout w') = Some nothing_loaded_line /\
    files w' = files Sample.empty_folder.
Proof.
  destruct (no_sources_is_a_no_op Ref.runtime Sample.empty_folder)
    as (_ & _ & (w' & Hmain & Hout & Hfiles & _) & _).
  - vm_compute. reflexivity.
  - vm_compute. reflexivity.
  - exists w'. split; [exact Hmain|]. split; [|exact Hfiles].
    rewrite Hout. reflexivity.
Defined.

(** ** The sink *)

Lemma upload_files df w w' : upload_to_sql df w = Ok w' -> files w' = files w.
Proof.
  unfold upload_to_sql, to_sql. cbn [database print].
  destruct (connect_error (database w)); simpl.
  - by intros [= <-].
  - destruct (tables (database w) !! "bird_observations"); simpl; by intros [= <-].
Qed.

(** C9: the sink writes the cleaned table as the whole content of
    [bird_observations], whatever was stored under that name; when the
    server cannot be reached nothing is raised past the sink, the failure
    is printed once, with the target named and the password replaced by
    asterisks, and the files (the CSV backup among them) are left as they
    are; the script writes the backup before it calls the sink, so the
    backup holds the cleaned table whether or not the upload succeeds. *)
Theorem sink_replaces_or_reports df w :
  (connect_error (database w) = None ->
   exists w', upload_to_sql df w = Ok w' /\
     tables (database w') = <["bird_observations" := df]> (tables (database w)) /\
     tables (database w') !! "bird_observations" = Some df /\
     files w' = files w /\
     stdout w' = stdout w ++ [uploading_line; "Data uploaded successfully to PostgreSQL."]) /\
  (forall e, connect_error (database w) = Some e ->
   exists w', upload_to_sql df w = Ok w' /\
     files w' = files w /\
     stdout w' = stdout w ++
       [uploading_line; "Error uploading data to PostgreSQL: " +:+ str_exn e;
        server_hint_line; masked_connection_line]) /\
  (occurs_in (PG_HOST +:+ ":" +:+ PG_PORT +:+ "/" +:+ PG_DB_NAME) masked_connection_line = true /\
   occurs_in PG_PASSWORD masked_connection_line = false /\
   occurs_in (quote_plus PG_PASSWORD) masked_connection_line = false /\
   occurs_in PG_PASSWORD uploading_line = false /\
   occurs_in PG_PASSWORD server_hint_line = false) /\
  (forall rt w0 combined w1 cleaned,
     load_and_combine_data (cwd w0) (print starting_line w0) = Ok (combined, w1) ->
     DataFrame_empty combined = false ->
     initial_data_cleaning rt combined = Ok cleaned ->
     exists w', main rt w0 = Ok w' /\
       files w' = <[backup_path w0 := Csv cleaned]> (files w0) /\
       files w' !! backup_path w0 = Some (Csv cleaned)).
Proof.
  split; [|split; [|split]].
  - intros Hc. unfold upload_to_sql, to_sql. cbn [database print]. rewrite Hc.
    destruct (tables (database w) !! "bird_observations") eqn:Hold; simpl;
      (eexists; split; [done|]); simpl;
      (split; [done|]); (split; [by rewrite lookup_insert_eq|]);
      (split; [done|]); by rewrite <- app_assoc.
  - intros e Hc. unfold upload_to_sql, to_sql. cbn [database print]. rewrite Hc. simpl.
    eexists. split; [done|]. split; [done|]. simpl. by rewrite <- !app_assoc.
  - vm_compute. done.
  - intros rt w0 combined w1 cleaned Hload Hne Hclean.
    rewrite main_unfold, Hload. simpl. rewrite Hne, Hclean. simpl.
    destruct (load_sources_spec excel_files (cwd w0) (print starting_line w0))
      as (new & w2 & Hspec & Hfs & _).
    unfold load_and_combine_data in Hload. rewrite Hspec in Hload.
    assert (same_fs w0 w1) as (Hf & Hs & Hcwd & Hdb).
    { injection Hload as _ <-. eapply same_fs_trans; [apply same_fs_print|].
      eapply same_fs_trans; [done|]. destruct (bool_decide (new = [])); done. }
    set (w3 := before_upload rt cleaned w1).
    assert (files w3 = <[backup_path w0 := Csv cleaned]> (files w0)) as Hfiles.
    { unfold w3, before_upload, to_csv, backup_path, path_join; simpl.
      by rewrite <- Hf, <- Hs, <- Hcwd. }
    destruct (connect_error (database w3)) as [e|] eqn:Hc.
    + pose proof (upload_files cleaned w3) as Hup.
      unfold upload_to_sql, to_sql in *. cbn [database print] in *. rewrite Hc in *.
      simpl in *. eexists. split; [done|]. rewrite (Hup _ eq_refl), Hfiles.
      split; [done|]. by rewrite lookup_insert_eq.
    + pose proof (upload_files cleaned w3) as Hup.
      unfold upload_to_sql, to_sql in *. cbn [database print] in *. rewrite Hc in *.
      destruct (tables (database w3) !! "bird_observations"); simpl in *;
        (eexists; split; [done|]); rewrite (Hup _ eq_refl), Hfiles;
        (split; [done|]); by rewrite lookup_insert_eq.
Qed.

Lemma sink_replaces_or_reports_witness :
  exists w', main Ref.runtime Sample.server_down = Ok w' /\
    files w' !! "/project/cleaned_bird_observations.csv" =
      Some (Csv (mkDataFrame 2
        [("Date", [Dt (mkTimestamp 2023 1 25); Dt (mkTimestamp 2023 1 26)]);
         ("Common_Name", [Str "Wood Thrush"; Str "Eastern Towhee"]);
         ("Visit", [Int 1; Int 2]);
         ("Location_Type", [Str "Forest"; Str "Forest"]);
         ("Admin_Unit_Code", [Str "UNIT1"; Str "UNIT1"]);
         ("Year", [Int 2023; Int 2023])])).
Proof.
  destruct (sink_replaces_or_reports DataFrame_new Sample.server_down) as (_ & _ & _ & Hmain).
  edestruct (Hmain Ref.runtime Sample.server_down) as (w' & Hm & _ & Hfile).
  - vm_compute. reflexivity.
  - vm_compute. reflexivity.
  - vm_compute. reflexivity.
  - exists w'. split; [exact Hm|]. exact Hfile.
Defined.

(** ** Well-formed frames stay well-formed *)

Lemma length_select_keep {A} (mask : list bool) (l : list A) :
  length l = length mask -> length (select mask l) = length (select mask mask).
Proof. intros H. by apply select_length. Qed.

Lemma well_formed_drop_duplicates df :
  well_formed df = true -> well_formed (drop_duplicates df) = true.
Proof.
  intros Hwf. unfold drop_duplicates. destruct (DataFrame_empty df); [done|].
  apply well_formed_spec in Hwf as [Hnd Hlen]. apply well_formed_spec.
  unfold column_names in *. cbn [columns index_len]. split.
  - assert (((fun cv : string * list value =>
               (cv.1, select (negb <$> duplicated df) cv.2)) <$> columns df).*1
            = (columns df).*1) as ->; [|done].
    rewrite <- list_fmap_compose. by apply list_fmap_ext.
  - apply Forall_fmap. eapply Forall_impl; [exact Hlen|].
    intros [c vs] Hvs; simpl in *. apply length_select_keep.
    by rewrite length_fmap, duplicated_length.
Qed.

Lemma well_formed_setitem c vs df :
  length vs = index_len df -> well_formed df = true ->
  well_formed (setitem c vs df) = true.
Proof.
  intros Hvs [Hnd Hlen]%well_formed_spec. apply well_formed_spec.
  unfold setitem, column_names in *; cbn [columns index_len].
  destruct (lookup_col c (columns df)) as [old|] eqn:Hc.
  - split.
    + rewrite assign_present_names; [done|]. apply lookup_col_names. by rewrite Hc.
    + clear Hnd Hc. induction Hlen as [|[c0 vs0] cols H0 Hcols IH]; simpl.
      * by repeat constructor.
      * destruct (decide (c = c0)); constructor; done.
  - rewrite assign_absent by done. split.
    + rewrite fmap_app. apply NoDup_app. split; [done|]. split; [|apply NoDup_singleton].
      intros c' Hc' [->|?%elem_of_nil]%elem_of_cons; [|done].
      simpl in Hc'. apply lookup_col_names in Hc'. rewrite Hc in Hc'. by destruct Hc'.
    + apply Forall_app. split; [done|]. by constructor.
Qed.

Lemma lookup_col_length df c vs :
  well_formed df = true -> lookup_col c (columns df) = Some vs -> length vs = index_len df.
Proof.
  intros [_ Hlen]%well_formed_spec Hc. rewrite Forall_forall in Hlen.
  apply (Hlen (c, vs)). clear Hlen.
  induction (columns df) as [|[c0 vs0] cols IH]; simpl in *; [done|].
  destruct (decide (c = c0)) as [->|Hne].
  - injection Hc as ->. left.
  - right. by apply IH.
Qed.

Lemma foldM_well_formed step F cols :
  step_spec step F ->
  (forall c vs s, F c vs = Ok s -> length s = length vs) ->
  forall df df', well_formed df = true -> foldM step cols df = Ok df' ->
    well_formed df' = true.
Proof.
  intros Hstep HF. induction cols as [|c cols IH]; intros df df' Hwf.
  - by intros [= <-].
  - rewrite foldM_cons, Hstep.
    destruct (lookup_col c (columns df)) as [vs|] eqn:Hc; simpl.
    + destruct (F c vs) as [s|] eqn:Hs; simpl; [|done].
      apply IH. apply well_formed_setitem; [|done].
      rewrite (HF _ _ _ Hs). by eapply lookup_col_length.
    + by apply IH.
Qed.

Lemma F_flag_length rt c vs s : F_flag rt c vs = Ok s -> length s = length vs.
Proof.
  intros [= <-]. unfold normalize_flags. by rewrite fillna_length, length_fmap.
Qed.

Lemma F_numeric_length rt c vs s : F_numeric rt c vs = Ok s -> length s = length vs.
Proof.
  unfold F_numeric, fill_numeric.
  destruct (bool_decide (c ∈ count_cols)).
  { intros H. by rewrite (astype_int_Ok_length _ _ H), fillna_length, to_numeric_length. }
  destruct (bool_decide (c ∈ code_cols)).
  { intros H. by rewrite (astype_int_Ok_length _ _ H), fillna_length, to_numeric_length. }
  intros H. rewrite <- (continuous_length rt vs).
  destruct (negb _); by injection H as <-.
Qed.

Lemma F_categorical_length c vs s : F_categorical c vs = Ok s -> length s = length vs.
Proof. intros [= <-]. apply fillna_length. Qed.

Lemma cleaning_well_formed rt df out :
  well_formed df = true -> initial_data_cleaning rt df = Ok out ->
  well_formed out = true.
Proof.
  intros Hwf%well_formed_drop_duplicates H. unfold initial_data_cleaning in H.
  set (d := drop_duplicates df) in *.
  destruct (getitem "Date" d) as [date|] eqn:Hdate; [|done]. cbn [mbind result_bind] in H.
  apply getitem_Ok in Hdate.
  set (d1 := setitem "Date" (to_datetime rt date_format date) d) in H.
  assert (well_formed d1 = true) as Hwf1.
  { apply well_formed_setitem; [|done]. unfold to_datetime. rewrite length_fmap.
    by eapply lookup_col_length. }
  destruct (foldM (flag_step rt) flag_cols d1) as [d2|] eqn:H2; [|done].
  cbn [mbind result_bind] in H.
  destruct (foldM (numeric_step rt) numeric_cols d2) as [d3|] eqn:H3; [|done].
  cbn [mbind result_bind] in H.
  destruct (foldM categorical_step categorical_cols d3) as [d4|] eqn:H4; [|done].
  cbn [mbind result_bind] in H.
  apply (foldM_well_formed _ _ _ (flag_step_spec rt) (F_flag_length rt)) in H2; [|done].
  apply (foldM_well_formed _ _ _ (numeric_step_spec rt) (F_numeric_length rt)) in H3; [|done].
  apply (foldM_well_formed _ _ _ categorical_step_spec F_categorical_length) in H4; [|done].
  unfold derive_year in H.
  destruct (negb (has_col "Year" d4) && has_col "Date" d4); [|by injection H as <-].
  unfold getitem in H. destruct (lookup_col "Date" (columns d4)) as [dt|] eqn:Hdt; [|done].
  cbn [mbind result_bind] in H. rewrite astype_int_year in H.
  cbn [mbind result_bind] in H. injection H as <-.
  apply well_formed_setitem; [|done]. rewrite length_fmap. by eapply lookup_col_length.
Qed.

(** ** Columns the stages leave as they are *)

Lemma to_datetime_fixed rt fmt vs :
  Forall (fun v => date_cell v = true) vs -> to_datetime rt fmt vs = vs.
Proof.
  intros H. unfold to_datetime. rewrite <- (list_fmap_id vs) at 2.
  apply list_fmap_ext. intros i v Hv. rewrite Forall_forall in H.
  specialize (H v (list_elem_of_lookup_2 _ _ _ Hv)). by destruct v.
Qed.

Lemma normalize_flags_fixed rt vs :
  Forall (fun v => bool_cell v = true) vs -> normalize_flags rt vs = vs.
Proof.
  intros H. rewrite normalize_flags_spec. rewrite <- (list_fmap_id vs) at 2.
  apply list_fmap_ext. intros i v Hv. rewrite Forall_forall in H.
  specialize (H v (list_elem_of_lookup_2 _ _ _ Hv)).
  destruct v as [| | | |[|]|]; done.
Qed.

Lemma fillna_fixed fill vs :
  Forall (fun v => isnull v = false) vs -> fillna fill vs = vs.
Proof.
  intros H. unfold fillna. rewrite <- (list_fmap_id vs) at 2.
  apply list_fmap_ext. intros i v Hv. rewrite Forall_forall in H.
  by rewrite (H v (list_elem_of_lookup_2 _ _ _ Hv)).
Qed.

Lemma to_numeric_int_fixed rt vs :
  Forall (fun v => int64_cell v = true) vs -> to_numeric rt vs = vs.
Proof.
  intros H.
  destruct (to_numeric_cases rt vs) as [[_ ->]|[[Hd _]|(_ & _ & ->)]]; [done| |].
  - exfalso. apply andb_true_iff in Hd as [Hdate Hex].
    apply existsb_exists in Hex as (x & Hx%list_elem_of_In & _).
    apply forallb_spec in Hdate. rewrite Forall_forall in H, Hdate.
    specialize (H x Hx). specialize (Hdate x Hx). by destruct x.
  - simpl.
    assert (forallb is_int (coerce_cell rt <$> vs) = true) as ->.
    { apply forallb_spec, Forall_fmap. eapply Forall_impl; [exact H|]. by intros []. }
    rewrite <- list_fmap_compose. rewrite <- (list_fmap_id vs) at 2.
    apply list_fmap_ext. intros i v Hv. rewrite Forall_forall in H.
    specialize (H v (list_elem_of_lookup_2 _ _ _ Hv)). by destruct v.
Qed.

Lemma to_numeric_bool_fixed rt vs :
  Forall (fun v => bool_cell v = true) vs -> to_numeric rt vs = vs.
Proof.
  intros H. unfold to_numeric, bool_column.
  by rewrite (proj2 (forallb_spec bool_cell vs) H).
Qed.

Lemma to_numeric_float_fixed rt vs :
  Forall (fun v => float_or_nan_cell v = true) vs -> to_numeric rt vs = vs.
Proof.
  intros H. destruct vs as [|v0 vs]; [done|].
  destruct (to_numeric_cases rt (v0 :: vs)) as [[_ ->]|[[Hd _]|(_ & _ & ->)]]; [done| |].
  - exfalso. apply andb_true_iff in Hd as [Hdate Hex].
    apply existsb_exists in Hex as (x & Hx%list_elem_of_In & Hnn).
    apply forallb_spec in Hdate. rewrite Forall_forall in H, Hdate.
    specialize (H x Hx). specialize (Hdate x Hx). by destruct x.
  - cbv zeta.
    assert (forallb is_int (coerce_cell rt <$> v0 :: vs) = false) as ->.
    { apply Forall_cons in H as [H0 _]. rewrite fmap_cons. simpl. by destruct v0. }
    rewrite <- list_fmap_compose. rewrite <- (list_fmap_id (v0 :: vs)) at 2.
    apply list_fmap_ext. intros i v Hv. rewrite Forall_forall in H.
    specialize (H v (list_elem_of_lookup_2 _ _ _ Hv)). by destruct v.
Qed.

Lemma astype_int_fixed vs :
  Forall (fun v => int64_cell v = true) vs -> astype_int vs = Ok vs.
Proof.
  induction 1 as [|v vs Hv Hvs IH]; [done|]. cbn [astype_int]. rewrite IH.
  by destruct v.
Qed.

Lemma int64_notnull vs :
  Forall (fun v => int64_cell v = true) vs -> Forall (fun v => isnull v = false) vs.
Proof. intros H. eapply Forall_impl; [exact H|]. by intros []. Qed.

Lemma F_numeric_int_fixed rt c vs :
  c ∈ count_cols ++ code_cols -> Forall (fun v => int64_cell v = true) vs ->
  F_numeric rt c vs = Ok vs.
Proof.
  intros Hc Hvs. unfold F_numeric. rewrite to_numeric_int_fixed by done.
  unfold fill_numeric.
  apply elem_of_app in Hc as [Hc|Hc].
  - rewrite bool_decide_eq_true_2 by done.
    rewrite fillna_fixed by (by apply int64_notnull). by apply astype_int_fixed.
  - destruct (roles_disjoint c) as (_ & Hdis & _). destruct (Hdis Hc) as [Hn _].
    rewrite bool_decide_eq_false_2, bool_decide_eq_true_2 by done.
    rewrite fillna_fixed by (by apply int64_notnull). by apply astype_int_fixed.
Qed.

(** Neither fill of a continuous column changes a column without NaN. *)
Lemma continuous_fill_fixed rt vs :
  Forall (fun v => isnull v = false) vs ->
  (if negb (forallb isnull vs) then fillna_mean rt vs
   else fillna (Flt (Finite 0%Q)) vs) = vs.
Proof.
  intros H. unfold fillna_mean.
  destruct (negb _); [destruct (mean rt vs)|]; by rewrite ?fillna_fixed.
Qed.

Lemma settled_notnull vs :
  settled_continuous vs -> Forall (fun v => isnull v = false) vs.
Proof.
  intros [H|[H|H]]; (eapply Forall_impl; [exact H|]); by intros [].
Qed.

Lemma settled_to_numeric rt vs : settled_continuous vs -> to_numeric rt vs = vs.
Proof.
  intros [H|[H|H]].
  - by apply to_numeric_int_fixed.
  - by apply to_numeric_bool_fixed.
  - apply to_numeric_float_fixed. eapply Forall_impl; [exact H|]. by intros [].
Qed.

Lemma F_numeric_continuous rt c vs :
  c ∈ continuous_cols ->
  F_numeric rt c vs =
  Ok (if negb (forallb isnull (to_numeric rt vs)) then fillna_mean rt (to_numeric rt vs)
      else fillna (Flt (Finite 0%Q)) (to_numeric rt vs)).
Proof.
  intros Hc. destruct (roles_disjoint c) as (_ & _ & Hdis). destruct (Hdis Hc) as [Hn1 Hn2].
  unfold F_numeric, fill_numeric. rewrite !bool_decide_eq_false_2 by done.
  by destruct (negb _).
Qed.

Lemma F_numeric_continuous_fixed rt c vs :
  c ∈ continuous_cols -> settled_continuous vs -> F_numeric rt c vs = Ok vs.
Proof.
  intros Hc Hs. rewrite F_numeric_continuous by done.
  rewrite settled_to_numeric by done. f_equal.
  by apply continuous_fill_fixed, settled_notnull.
Qed.

Lemma foldM_fixed step F cols df :
  step_spec step F ->
  (forall c vs, c ∈ cols -> lookup_col c (columns df) = Some vs -> F c vs = Ok vs) ->
  foldM step cols df = Ok df.
Proof.
  intros Hstep. induction cols as [|c cols IH]; intros HF; [done|].
  rewrite foldM_cons, Hstep.
  destruct (lookup_col c (columns df)) as [vs|] eqn:Hc.
  - rewrite (HF c vs) by (done || left). cbn [mbind result_bind].
    assert (setitem c vs df = df) as ->.
    { unfold setitem. rewrite assign_same by done. by destruct df. }
    apply IH. intros c' vs' Hc'. apply HF. by right.
  - cbn [mbind result_bind]. apply IH. intros c' vs' Hc'. apply HF. by right.
Qed.

(** ** The shape of the cleaned columns *)

Lemma to_numeric_dtype rt vs :
  Forall (fun v => int64_cell v = true) (to_numeric rt vs) \/
  Forall (fun v => bool_cell v = true) (to_numeric rt vs) \/
  Forall (fun v => float_or_nan_cell v = true) (to_numeric rt vs).
Proof.
  destruct (to_numeric_cases rt vs) as [[Hb ->]|[[_ ->]|(_ & _ & ->)]].
  - right; left. done.
  - left. apply Forall_fmap, Forall_true. by intros [].
  - simpl. destruct (forallb is_int (coerce_cell rt <$> vs)) eqn:Hall.
    + left. apply Forall_fmap. apply forallb_spec in Hall.
      eapply Forall_impl; [exact Hall|]. by intros [[]|].
    + right; right. apply Forall_fmap, Forall_true. by intros [[]|].
Qed.

Lemma fillna_Forall (P : value -> Prop) fill vs :
  P fill -> Forall P vs -> Forall P (fillna fill vs).
Proof.
  intros Hf Hvs. apply Forall_fmap. eapply Forall_impl; [exact Hvs|].
  intros v Hv. simpl. by destruct (isnull v).
Qed.

(** A cleaned continuous column keeps the dtype [to_numeric] gave it. *)
Lemma continuous_dtype rt vs :
  let s := if negb (forallb isnull (to_numeric rt vs)) then fillna_mean rt (to_numeric rt vs)
           else fillna (Flt (Finite 0%Q)) (to_numeric rt vs) in
  Forall (fun v => int64_cell v = true) s \/
  Forall (fun v => bool_cell v = true) s \/
  Forall (fun v => float_or_nan_cell v = true) s.
Proof.
  intros s.
  destruct (to_numeric_dtype rt vs) as [H|[H|H]].
  - left. unfold s. rewrite continuous_fill_fixed; [done|].
    eapply Forall_impl; [exact H|]. by intros [].
  - right; left. unfold s. rewrite continuous_fill_fixed; [done|].
    eapply Forall_impl; [exact H|]. by intros [].
  - right; right. unfold s, fillna_mean.
    destruct (negb _); [destruct (mean rt _)|]; try done; by apply fillna_Forall.
Qed.

Lemma cleaned_shapes rt df out c vs :
  initial_data_cleaning rt df = Ok out ->
  lookup_col c (columns out) = Some vs ->
  (c = "Date" -> Forall (fun v => date_cell v = true) vs) /\
  (c ∈ flag_cols -> Forall (fun v => bool_cell v = true) vs) /\
  (c ∈ count_cols ++ code_cols -> Forall (fun v => int64_cell v = true) vs) /\
  (c ∈ categorical_cols -> Forall (fun v => isnull v = false) vs) /\
  (c ∈ continuous_cols ->
     Forall (fun v => int64_cell v = true) vs \/
     Forall (fun v => bool_cell v = true) vs \/
     Forall (fun v => float_or_nan_cell v = true) vs).
Proof.
  intros H Hvs.
  destruct (cleaning_inv _ _ _ H) as (_ & _ & Hcols & Hnone & _).
  destruct (lookup_col c (columns (drop_duplicates df))) as [vs0|] eqn:H0.
  2: { destruct (decide (c = "Year")) as [->|Hne].
       - repeat split; intros Hc; exfalso; revert Hc; compute_done.
       - rewrite Hnone in Hvs by done. done. }
  destruct (Hcols c vs0 H0) as (vs' & Hcl & Hout).
  assert (vs' = vs) as -> by congruence. clear Hout.
  split; [|split; [|split; [|split]]].
  - intros ->. unfold clean_column in Hcl. rewrite decide_True in Hcl by done.
    injection Hcl as <-. apply Forall_fmap, Forall_true. intros v. simpl.
    unfold to_datetime_cell. destruct v; try done;
      by destruct (strptime rt date_format _).
  - intros Hc. rewrite clean_column_flag in Hcl by done. injection Hcl as <-.
    rewrite normalize_flags_spec. apply Forall_fmap, Forall_true. done.
  - intros Hc. apply Forall_forall. intros v Hv.
    apply elem_of_app in Hc as [Hc|Hc].
    + rewrite clean_column_count in Hcl by done.
      by destruct (astype_int_cells _ _ _ Hcl Hv) as [z ->].
    + rewrite clean_column_code in Hcl by done.
      by destruct (astype_int_cells _ _ _ Hcl Hv) as [z ->].
  - intros Hc. rewrite clean_column_categorical in Hcl by done. injection Hcl as <-.
    apply Forall_forall. intros v Hv. by eapply fillna_notnull; [|exact Hv].
  - intros Hc. rewrite clean_column_continuous in Hcl by done. injection Hcl as <-.
    apply continuous_dtype.
Qed.

(** A continuous column without NaN is settled. *)
Lemma dtype_settled vs :
  Forall (fun v => int64_cell v = true) vs \/
  Forall (fun v => bool_cell v = true) vs \/
  Forall (fun v => float_or_nan_cell v = true) vs ->
  Forall (fun v => isnull v = false) vs -> settled_continuous vs.
Proof.
  intros [H|[H|H]] Hnn; [by left|by right; left|right; right].
  rewrite Forall_forall in H, Hnn. apply Forall_forall. intros v Hv.
  specialize (H v Hv). specialize (Hnn v Hv). by destruct v.
Qed.

(** The numeric stage leaves its own result as it is. *)
Lemma F_numeric_continuous_idem rt c vs vs1 :
  c ∈ continuous_cols -> F_numeric rt c vs = Ok vs1 -> F_numeric rt c vs1 = Ok vs1.
Proof.
  intros Hc. rewrite F_numeric_continuous by done. intros [= <-].
  set (t := to_numeric rt vs).
  destruct (to_numeric_dtype rt vs) as [H|[H|H]]; fold t in H.
  - rewrite continuous_fill_fixed by (eapply Forall_impl; [exact H|]; by intros []).
    apply F_numeric_continuous_fixed; [done|by left].
  - rewrite continuous_fill_fixed by (eapply Forall_impl; [exact H|]; by intros []).
    apply F_numeric_continuous_fixed; [done|by right; left].
  - destruct (forallb isnull t) eqn:Hall; cbn [negb].
    + apply F_numeric_continuous_fixed; [done|]. apply dtype_settled.
      * right; right. by apply fillna_Forall.
      * apply Forall_forall. intros v Hv. by eapply fillna_notnull; [|exact Hv].
    + unfold fillna_mean. destruct (mean rt t) as [m|] eqn:Hm.
      * apply F_numeric_continuous_fixed; [done|]. apply dtype_settled.
        -- right; right. by apply fillna_Forall.
        -- apply Forall_forall. intros v Hv. by eapply fillna_notnull; [|exact Hv].
      * rewrite F_numeric_continuous by done.
        rewrite (to_numeric_float_fixed rt t H), Hall. cbn [negb].
        unfold fillna_mean. by rewrite Hm.
Qed.

(** ** What [drop_duplicates] keeps of a column *)

Lemma dedup_col_elem df vs v : v ∈ dedup_col df vs -> v ∈ vs.
Proof. unfold dedup_col. destruct (DataFrame_empty df); [done|]. apply select_elem. Qed.

Lemma dedup_col_Forall (P : value -> Prop) df vs :
  Forall P vs -> Forall P (dedup_col df vs).
Proof.
  rewrite !Forall_forall. intros H v Hv. by apply H, (dedup_col_elem df).
Qed.

Lemma lookup_col_position c cols vs :
  lookup_col c cols = Some vs -> exists p, cols !! p = Some (c, vs).
Proof.
  induction cols as [|[c0 vs0] cols IH]; simpl; [done|].
  destruct (decide (c = c0)) as [->|Hne].
  - intros [= ->]. by exists 0%nat.
  - intros (p & Hp)%IH. by exists (S p).
Qed.

(** Every value of a column has, among the rows that are kept, a value
    with the same key: the one of the first row equal to its row. *)
Lemma dedup_col_key df c vs v :
  well_formed df = true -> lookup_col c (columns df) = Some vs -> v ∈ vs ->
  exists v', v' ∈ dedup_col df vs /\ value_key v' = value_key v.
Proof.
  intros Hwf Hc Hv. unfold dedup_col.
  destruct (DataFrame_empty df) eqn:He; [eauto|].
  pose proof (lookup_col_length _ _ _ Hwf Hc) as Hlen.
  apply list_elem_of_lookup_1 in Hv as (i & Hi).
  pose proof (lookup_lt_Some _ _ _ Hi) as Hlt. rewrite Hlen in Hlt.
  destruct (lookup_col_position _ _ _ Hc) as (p & Hp).
  assert (columns df ≠ []) as Hcols by (intros Hnil; by rewrite Hnil in Hp).
  destruct (drop_duplicates_rows df Hwf Hcols) as (_ & _ & Hall).
  assert (row df i ∈ rows df) as Hrow.
  { unfold rows. apply list_elem_of_fmap. exists i. split; [done|].
    apply elem_of_seq. lia. }
  apply Hall in Hrow. apply list_elem_of_fmap in Hrow as (r' & Hkey & Hr').
  rewrite rows_drop_duplicates, He in Hr' by done.
  unfold rows in Hr'. rewrite select_fmap in Hr'.
  apply list_elem_of_fmap in Hr' as (j & -> & Hj).
  exists (default NA (vs !! j)). split.
  - rewrite (list_as_seq vs), Hlen, select_fmap.
    apply list_elem_of_fmap. exists j. split; [|done].
    by rewrite <- Hlen, <- list_as_seq.
  - assert (forall k, row_key (row df k) !! p = Some (value_key (default NA (vs !! k)))) as Hcell.
    { intros k. unfold row_key, row. by rewrite !list_lookup_fmap, Hp. }
    pose proof (Hcell i) as Hci. rewrite Hkey, Hcell, Hi in Hci. simpl in Hci.
    by injection Hci.
Qed.

(** ** The engine on its own output *)

Lemma lookup_dedup_inv c df vs :
  lookup_col c (columns (drop_duplicates df)) = Some vs ->
  exists vs0, lookup_col c (columns df) = Some vs0 /\ vs = dedup_col df vs0.
Proof.
  rewrite lookup_drop_duplicates.
  destruct (lookup_col c (columns df)) as [vs0|]; [|done].
  intros [= <-]. eauto.
Qed.

Lemma setitem_same c vs df :
  lookup_col c (columns df) = Some vs -> setitem c vs df = df.
Proof. intros H. unfold setitem. rewrite assign_same by done. by destruct df. Qed.

Lemma cleaning_of_cleaned rt df out :
  well_formed df = true -> initial_data_cleaning rt df = Ok out ->
  (forall c vs, c ∈ continuous_cols ->
     lookup_col c (columns (drop_duplicates out)) = Some vs -> F_numeric rt c vs = Ok vs) ->
  initial_data_cleaning rt out = Ok (drop_duplicates out).
Proof.
  intros Hwf H Hcont. pose proof (cleaning_well_formed _ _ _ Hwf H) as Hwfo.
  pose proof (fun c vs => cleaned_shapes rt df out c vs H) as Hshape.
  destruct (cleaning_inv _ _ _ H) as (_ & (date & Hdate & _) & Hcols & _ & HyearS).
  destruct (Hcols "Date" date Hdate) as (date_out & _ & Hdo).
  assert (is_Some (lookup_col "Year" (columns out))) as [year Hyear].
  { destruct (lookup_col "Year" (columns (drop_duplicates df))) as [y|] eqn:Hy.
    - destruct (Hcols "Year" y Hy) as (y' & _ & ->). eauto.
    - by apply HyearS. }
  assert (getitem "Date" (drop_duplicates out) = Ok (dedup_col out date_out)) as Hget.
  { apply getitem_Ok. by rewrite lookup_drop_duplicates, Hdo. }
  unfold initial_data_cleaning. rewrite Hget. cbn [mbind result_bind].
  set (o := drop_duplicates out) in *.
  rewrite to_datetime_fixed.
  2: { apply dedup_col_Forall. by apply (Hshape "Date"). }
  rewrite setitem_same by (by apply getitem_Ok).
  rewrite (foldM_fixed _ _ _ _ (flag_step_spec rt)).
  2: { intros c vs Hc (vs0 & Hvs0 & ->)%lookup_dedup_inv. unfold F_flag.
       rewrite normalize_flags_fixed; [done|].
       apply dedup_col_Forall. by apply (Hshape c). }
  cbn [mbind result_bind].
  rewrite (foldM_fixed _ _ _ _ (numeric_step_spec rt)).
  2: { intros c vs Hc Hvs. destruct (numeric_cols_roles c Hc) as [Hr|[Hr|Hr]].
       - apply lookup_dedup_inv in Hvs as (vs0 & Hvs0 & ->).
         apply F_numeric_int_fixed; [apply elem_of_app; by left|].
         apply dedup_col_Forall, (Hshape c); [done|]. apply elem_of_app; by left.
       - apply lookup_dedup_inv in Hvs as (vs0 & Hvs0 & ->).
         apply F_numeric_int_fixed; [apply elem_of_app; by right|].
         apply dedup_col_Forall, (Hshape c); [done|]. apply elem_of_app; by right.
       - by apply Hcont. }
  cbn [mbind result_bind].
  rewrite (foldM_fixed _ _ _ _ categorical_step_spec).
  2: { intros c vs Hc (vs0 & Hvs0 & ->)%lookup_dedup_inv. unfold F_categorical.
       rewrite fillna_fixed; [done|].
       apply dedup_col_Forall. by apply (Hshape c). }
  cbn [mbind result_bind].
  unfold derive_year.
  assert (has_col "Year" o = true) as ->; [|done].
  apply has_col_lookup. unfold o. rewrite lookup_drop_duplicates, Hyear. by eexists.
Qed.

Lemma select_all_kept {A} (mask : list bool) (l : list A) :
  Forall (fun b => b = true) mask -> length l = length mask -> select mask l = l.
Proof.
  intros Hm. revert l. induction Hm as [|b mask -> Hm IH]; intros [|x l]; simpl; try done.
  intros [= Hlen]. by rewrite IH.
Qed.

(** A frame without duplicate rows is its own deduplication. *)
Lemma drop_duplicates_none df :
  well_formed df = true -> Forall (fun b => b = false) (duplicated df) ->
  drop_duplicates df = df.
Proof.
  intros Hwf Hdup. unfold drop_duplicates. destruct (DataFrame_empty df); [done|].
  assert (Forall (fun b => b = true) (negb <$> duplicated df)) as Hkeep.
  { apply Forall_fmap. eapply Forall_impl; [exact Hdup|]. by intros b ->. }
  assert (length (negb <$> duplicated df) = index_len df) as Hlen
    by (by rewrite length_fmap, duplicated_length).
  rewrite select_all_kept by done. rewrite Hlen.
  destruct df as [n cols]; simpl in *. f_equal.
  rewrite <- (list_fmap_id cols) at 2. apply list_fmap_ext.
  intros i [c vs] Hi; simpl. f_equal. apply select_all_kept; [done|].
  rewrite Hlen. apply (lookup_col_length (mkDataFrame n cols) c vs Hwf).
  apply well_formed_spec in Hwf as [Hnd _]. apply lookup_col_NoDup; [done|].
  by eapply list_elem_of_lookup_2.
Qed.

(** C6, as the claim words it, does not hold: two rows that differ in the
    spelling of a flag are both kept by the first run, are equal once
    cleaned, and the second run drops one of them. *)
Lemma cleaning_not_idempotent :
  ~ (forall df out, initial_data_cleaning Ref.runtime df = Ok out ->
       initial_data_cleaning Ref.runtime out = Ok out).
Proof.
  intros H.
  assert (initial_data_cleaning Ref.runtime Sample.flag_spelling
          = Ok Sample.flag_spelling_cleaned) as H1 by (vm_compute; reflexivity).
  specialize (H _ _ H1). vm_compute in H. discriminate.
Qed.

Lemma duplicated_from_NoDup seen ks :
  NoDup ks -> (forall k, k ∈ ks -> k ∉ seen) ->
  Forall (fun b => b = false) (duplicated_from seen ks).
Proof.
  revert seen. induction ks as [|k ks IH]; intros seen; simpl; [constructor|].
  intros [Hk Hnd]%NoDup_cons Hseen. constructor.
  - apply bool_decide_eq_false_2, Hseen. left.
  - apply IH; [done|]. intros k' Hk' [->|Hin]%elem_of_cons; [done|].
    by apply (Hseen k'); [right|].
Qed.

Lemma drop_duplicates_no_duplicates df :
  well_formed df = true -> columns df ≠ [] ->
  Forall (fun b => b = false) (duplicated (drop_duplicates df)).
Proof.
  intros Hwf Hcols. destruct (drop_duplicates_rows df Hwf Hcols) as (Hnd & _).
  unfold duplicated. apply duplicated_from_NoDup; [done|].
  by intros k _ ?%elem_of_nil.
Qed.

(** C6 (amended): on its own output the engine changes nothing but the
    duplicates: date parsing, flag normalization, numeric coercion, the
    fills and the year derivation are fixed points on cleaned data.  When
    [Temperature] and [Humidity] came out without a missing value, the
    second run returns the first result with the rows dropped that cleaning
    made equal, and that result is a fixed point of the engine.  The engine
    is idempotent on every input whose cleaned table has no two equal
    rows. *)
Theorem cleaning_twice rt df out :
  well_formed df = true ->
  initial_data_cleaning rt df = Ok out ->
  ((forall c vs, c ∈ continuous_cols -> lookup_col c (columns out) = Some vs ->
      Forall (fun v => isnull v = false) vs) ->
   initial_data_cleaning rt out = Ok (drop_duplicates out) /\
   initial_data_cleaning rt (drop_duplicates out) = Ok (drop_duplicates out)) /\
  (Forall (fun b => b = false) (duplicated out) -> initial_data_cleaning rt out = Ok out).
Proof.
  intros Hwf H.
  pose proof (cleaning_well_formed _ _ _ Hwf H) as Hwfo.
  pose proof (fun c vs => cleaned_shapes rt df out c vs H) as Hshape.
  split.
  - intros Hnn.
    assert (Hsettled : forall c vs, c ∈ continuous_cols ->
              lookup_col c (columns (drop_duplicates out)) = Some vs ->
              settled_continuous vs).
    { intros c vs Hc (vs0 & Hvs0 & ->)%lookup_dedup_inv.
      destruct (Hshape c vs0 Hvs0) as (_ & _ & _ & _ & Hdt).
      apply dtype_settled.
      - destruct (Hdt Hc) as [?|[?|?]]; [left|right; left|right; right];
          by apply dedup_col_Forall.
      - apply dedup_col_Forall. by apply (Hnn c). }
    assert (H2 : initial_data_cleaning rt out = Ok (drop_duplicates out)).
    { apply (cleaning_of_cleaned _ _ _ Hwf H).
      intros c vs Hc Hvs. apply F_numeric_continuous_fixed; [done|]. by apply (Hsettled c). }
    split; [done|].
    assert (Hdd : drop_duplicates (drop_duplicates out) = drop_duplicates out).
    { apply drop_duplicates_none; [by apply well_formed_drop_duplicates|].
      apply drop_duplicates_no_duplicates; [done|].
      destruct (cleaning_inv _ _ _ H2) as (_ & (date & Hdate & _) & _).
      intros Hnil. rewrite lookup_drop_duplicates, Hnil in Hdate. done. }
    rewrite <- Hdd at 2. apply (cleaning_of_cleaned _ _ _ Hwfo H2).
    rewrite Hdd. intros c vs Hc Hvs.
    apply F_numeric_continuous_fixed; [done|]. by apply (Hsettled c).
  - intros Hdup.
    pose proof (drop_duplicates_none out Hwfo Hdup) as Hdd.
    rewrite <- Hdd at 2. apply (cleaning_of_cleaned _ _ _ Hwf H).
    rewrite Hdd. intros c vs Hc Hvs.
    destruct (cleaning_inv _ _ _ H) as (_ & _ & Hcols & Hnone & _).
    destruct (lookup_col c (columns (drop_duplicates df))) as [vs0|] eqn:H0.
    + destruct (Hcols c vs0 H0) as (vs' & Hcl & Hout).
      assert (vs' = vs) as -> by congruence.
      apply (F_numeric_continuous_idem rt c vs0); [done|].
      unfold clean_column in Hcl. revert Hcl. split_elem Hc; by decide_cols.
    + rewrite Hnone in Hvs; [done| |done]. intros ->. revert Hc. compute_done.
Qed.

(** The condition on [Temperature] and [Humidity] is needed: where the mean
    of a column is NaN the missing cells stay, and a second run, which
    computes the mean after the duplicate row is gone, can fill them. *)
Lemma cleaning_twice_needs_filled_means :
  exists out, initial_data_cleaning Ref.runtime Sample.overflowing_mean = Ok out /\
    (exists vs, lookup_col "Temperature" (columns out) = Some vs /\ NA ∈ vs) /\
    initial_data_cleaning Ref.runtime out <> Ok (drop_duplicates out).
Proof.
  eexists. split; [vm_compute; reflexivity|]. split.
  - eexists. split; [reflexivity|]. do 3 right. left.
  - vm_compute. discriminate.
Qed.

Lemma cleaning_twice_witness :
  initial_data_cleaning Ref.runtime Sample.survey = Ok Sample.survey_cleaned /\
  initial_data_cleaning Ref.runtime Sample.survey_cleaned = Ok Sample.survey_cleaned.
Proof.
  destruct (cleaning_twice Ref.runtime Sample.survey Sample.survey_cleaned)
    as (Hrun & _).
  - vm_compute. reflexivity.
  - exact survey_cleaning.
  - split; [exact survey_cleaning|].
    destruct Hrun as (H2 & _).
    + intros c vs Hc. unfold continuous_cols in Hc.
      split_elem Hc; intros [= <-]; repeat constructor.
    + rewrite H2. vm_compute. reflexivity.
Defined.

(** ** The claims on the samples *)

Lemma missing_sources_skipped_witness :
  exists df w', load_and_combine_data "/project" Sample.forest_only = Ok (df, w') /\
    not_found_notice Sample.forest_only "/project" ("GRASSLAND", GRASSLAND_FILE) ∈ stdout w' /\
    index_len df = 3%nat.
Proof.
  destruct (missing_sources_skipped "/project" Sample.forest_only)
    as ((df & w' & Hload) & _ & _ & Hgrass).
  exists df, w'. split; [exact Hload|].
  destruct (Hgrass eq_refl df w' Hload) as [Hnotice _].
  split; [exact Hnotice|].
  vm_compute in Hload. injection Hload as <- _. reflexivity.
Defined.

(** * Further properties of the ingestion script *)

(** ** The loader as a function of the folder *)

Lemma same_fs_read_excel w1 w2 p : same_fs w1 w2 -> read_excel w1 p = read_excel w2 p.
Proof. intros (Hf & _). unfold read_excel. by rewrite Hf. Qed.

Lemma same_fs_frames_of w1 w2 folder e :
  same_fs w1 w2 -> frames_of w1 folder e = frames_of w2 folder e.
Proof.
  intros Hfs. unfold frames_of, sheets_of.
  rewrite (same_fs_source_exists w1 w2), (same_fs_path_join w1 w2) by done.
  by rewrite (same_fs_read_excel w1 w2).
Qed.

Lemma load_file_frames folder all_data w e :
  exists w', load_file folder (all_data, w) e = Ok (all_data ++ frames_of w folder e, w') /\
    same_fs w w' /\ stdout w `prefix_of` stdout w' /\
    (forall err, source_exists w folder e = true ->
       read_excel w (path_join w folder e.2) = Raise err ->
       read_error_notice e err ∈ stdout w').
Proof.
  destruct e as [lt fn]. unfold frames_of, sheets_of.
  destruct (source_exists w folder (lt, fn)) eqn:Hex.
  - unfold load_file. unfold source_exists in Hex; simpl in Hex. rewrite Hex. cbn [negb].
    simpl. destruct (read_excel w (path_join w folder fn)) as [sheets|e] eqn:Hread.
    + set (w1 := print _ w).
      assert (read_excel w1 (path_join w folder fn) = Ok sheets) as -> by done.
      cbn [mbind result_bind try_except].
      destruct (fold_load_sheet lt sheets all_data w1) as (w' & -> & Hfs & Hpre).
      exists w'. split; [done|]. split; [by eapply same_fs_trans; [apply same_fs_print|]|].
      split; [etrans; [|done]; by apply prefix_app_r|]. done.
    + set (w1 := print _ w).
      assert (read_excel w1 (path_join w folder fn) = Raise e) as -> by done.
      cbn [mbind result_bind try_except]. rewrite app_nil_r.
      eexists. split; [done|]. split; [done|].
      split; [unfold w1; simpl; rewrite <- app_assoc; by apply prefix_app_r|].
      intros err _ [= <-]. unfold read_error_notice. simpl.
      apply elem_of_app. right. left.
  - rewrite load_file_skip by done. rewrite app_nil_r. eexists. split; [done|].
    split; [done|]. split; [by apply prefix_app_r|]. done.
Qed.

Lemma load_loop_frames folder sources all_data w :
  exists w',
    foldM (load_file folder) sources (all_data, w)
      = Ok (all_data ++ (sources ≫= frames_of w folder), w') /\
    same_fs w w' /\ stdout w `prefix_of` stdout w' /\
    (forall e err, e ∈ sources -> source_exists w folder e = true ->
       read_excel w (path_join w folder e.2) = Raise err ->
       read_error_notice e err ∈ stdout w').
Proof.
  revert all_data w. induction sources as [|e sources IH]; intros all_data w.
  - exists w. simpl. rewrite app_nil_r. split; [done|]. split; [done|]. split; [done|].
    by intros e err ?%elem_of_nil.
  - destruct (load_file_frames folder all_data w e) as (w1 & H1 & Hfs1 & Hpre1 & Herr1).
    destruct (IH (all_data ++ frames_of w folder e) w1) as (w' & H2 & Hfs2 & Hpre2 & Herr2).
    exists w'. rewrite foldM_cons, H1. cbn [mbind result_bind]. rewrite H2.
    split.
    { rewrite bind_cons, app_assoc. do 3 f_equal.
      apply list_bind_ext; [|done]. intros e'. symmetry. by apply same_fs_frames_of. }
    split; [by eapply same_fs_trans|]. split; [by etrans|].
    intros e' err [->|He']%elem_of_cons Hex Hread.
    + eapply elem_of_prefix; [|done]. by apply Herr1.
    + apply Herr2; [done| |].
      * by rewrite <- (same_fs_source_exists w w1).
      * rewrite <- (same_fs_path_join w w1), <- (same_fs_read_excel w w1); done.
Qed.

Lemma load_sources_same_fs sources folder w :
  exists w', load_sources sources folder w = Ok (combined sources w folder, w') /\
    same_fs w w'.
Proof.
  destruct (load_loop_frames folder sources [] w) as (w1 & H & Hfs & _).
  unfold load_sources, combined. rewrite H. cbn [mbind result_bind app].
  destruct (bool_decide (sources ≫= frames_of w folder = [])).
  - eexists. split; [done|]. eapply same_fs_trans; [done|apply same_fs_print].
  - eexists. by split.
Qed.

(** X1: the loader returns on every folder, and its frame is the
    concatenation, source by source and sheet by sheet, of the tagged sheets
    of every declared workbook that is there and reads (the column-less
    empty frame when there is none).  It reads only: files, database and
    working directory are as before, and the output only gains lines. *)
Theorem loader_result sources folder w :
  exists w', load_sources sources folder w = Ok (combined sources w folder, w') /\
    files w' = files w /\ database w' = database w /\ cwd w' = cwd w /\
    stdout w `prefix_of` stdout w'.
Proof.
  destruct (load_loop_frames folder sources [] w) as (w1 & H & Hfs & Hpre & _).
  unfold load_sources, combined. rewrite H. cbn [mbind result_bind app].
  destruct Hfs as (Hf & _ & Hc & Hd).
  destruct (bool_decide (sources ≫= frames_of w folder = [])).
  - eexists. split; [done|]. simpl. repeat split; try done.
    etrans; [done|]. by apply prefix_app_r.
  - eexists. split; [done|]. by repeat split.
Qed.

(** ** [concat] *)

Lemma unique_from_elem seen l x :
  x ∈ unique_from seen l <-> x ∈ l /\ x ∉ seen.
Proof.
  revert seen. induction l as [|y l IH]; intros seen; simpl.
  - split; [by intros ?%elem_of_nil|by intros [?%elem_of_nil _]].
  - destruct (bool_decide (y ∈ seen)) eqn:Hy.
    + apply bool_decide_eq_true in Hy. rewrite IH, elem_of_cons.
      split; [by intros [? ?]; split; [right|]|].
      intros [[->|?] ?]; done.
    + apply bool_decide_eq_false in Hy. rewrite !elem_of_cons, IH, not_elem_of_cons.
      split.
      * intros [->|[? [? ?]]]; split; auto.
      * intros [[->|?] ?]; [by left|].
        destruct (decide (x = y)) as [->|]; [by left|right; done].
Qed.

Lemma unique_from_nodup seen l : NoDup (unique_from seen l).
Proof.
  revert seen. induction l as [|y l IH]; intros seen; simpl; [constructor|].
  destruct (bool_decide (y ∈ seen)); [done|]. constructor; [|done].
  rewrite unique_from_elem, not_elem_of_cons. intros [_ [? _]]. done.
Qed.

Lemma lookup_col_tabulate (g : string -> list value) names c :
  lookup_col c ((fun c => (c, g c)) <$> names) =
  if decide (c ∈ names) then Some (g c) else None.
Proof.
  induction names as [|c0 names IH]; [done|].
  rewrite fmap_cons. cbn [lookup_col].
  - destruct (decide (c = c0)) as [->|Hne].
    + rewrite decide_True; [done|left].
    + rewrite IH. destruct (decide (c ∈ names)) as [Hc|Hc].
      * rewrite decide_True; [done|by right].
      * rewrite decide_False; [done|]. by intros [?|?]%elem_of_cons.
Qed.

Lemma names_tabulate (g : string -> list value) (names : list string) :
  ((fun c => (c, g c)) <$> names).*1 = names.
Proof. induction names as [|c names IH]; [done|]. rewrite !fmap_cons. by rewrite IH. Qed.

Lemma concat_lookup c dfs :
  lookup_col c (columns (concat dfs)) =
  if decide (c ∈ dfs ≫= column_names) then Some (dfs ≫= column_or_nan c) else None.
Proof.
  unfold concat; simpl. rewrite lookup_col_tabulate.
  destruct (decide (c ∈ dfs ≫= column_names)) as [Hc|Hc].
  - rewrite decide_True; [done|]. apply unique_from_elem. split; [done|].
    by intros ?%elem_of_nil.
  - rewrite decide_False; [done|]. by intros [? _]%unique_from_elem.
Qed.

Lemma column_or_nan_length c df :
  well_formed df = true -> length (column_or_nan c df) = index_len df.
Proof.
  intros Hwf. unfold column_or_nan.
  destruct (lookup_col c (columns df)) as [vs|] eqn:Hc.
  - by eapply lookup_col_length.
  - by rewrite length_replicate.
Qed.

Lemma concat_column_length c dfs :
  Forall (fun df => well_formed df = true) dfs ->
  length (dfs ≫= column_or_nan c) = sum_list (index_len <$> dfs).
Proof.
  induction 1 as [|df dfs Hdf Hdfs IH]; [done|].
  rewrite bind_cons, length_app, fmap_cons. simpl.
  by rewrite IH, column_or_nan_length.
Qed.

Lemma concat_well_formed dfs :
  Forall (fun df => well_formed df = true) dfs -> well_formed (concat dfs) = true.
Proof.
  intros Hwf. apply well_formed_spec. split.
  - unfold column_names, concat; simpl. rewrite names_tabulate.
    apply unique_from_nodup.
  - unfold concat; simpl. apply Forall_fmap, Forall_true. intros c. simpl.
    by apply concat_column_length.
Qed.

(** ** What the loader's frame holds *)

Lemma tagged_columns lt name sheet :
  index_len (tag_sheet lt name sheet) = index_len sheet /\
  column_or_nan "Location_Type" (tag_sheet lt name sheet)
    = replicate (index_len sheet) (Str (capitalize lt)) /\
  column_or_nan "Admin_Unit_Code" (tag_sheet lt name sheet)
    = replicate (index_len sheet) (Str name).
Proof.
  destruct (tag_sheet_columns lt name sheet) as (Hn & HL & HA).
  unfold column_or_nan. by rewrite HL, HA.
Qed.

Lemma frames_of_elem w folder e f :
  f ∈ frames_of w folder e ->
  exists name sheet, (name, sheet) ∈ sheets_of w folder e /\ f = tag_sheet e.1 name sheet.
Proof.
  unfold frames_of. intros ([name sheet] & -> & Hs)%list_elem_of_fmap. eauto.
Qed.

Lemma sum_list_bind_length {A} (f : A -> list value) (n : A -> nat) (l : list A) :
  (forall x, x ∈ l -> length (f x) = n x) ->
  length (l ≫= f) = sum_list (n <$> l).
Proof.
  induction l as [|x l IH]; intros H; [done|].
  rewrite bind_cons, length_app, fmap_cons. simpl.
  rewrite H by left. f_equal. apply IH. intros y Hy. apply H. by right.
Qed.

(** X2: in the frame the loader returns, [Location_Type] holds [Forest] or
    [Grassland] in every row and [Admin_Unit_Code] the name of a sheet that
    was read; both columns are there whenever the frame has any column, and
    span all its rows. *)
Theorem loader_tags folder w df w' :
  load_and_combine_data folder w = Ok (df, w') ->
  columns df ≠ [] ->
  exists lt au,
    lookup_col "Location_Type" (columns df) = Some lt /\
    lookup_col "Admin_Unit_Code" (columns df) = Some au /\
    length lt = index_len df /\ length au = index_len df /\
    Forall (fun v => v = Str "Forest" \/ v = Str "Grassland") lt /\
    Forall (fun v => exists e name sheet, e ∈ excel_files /\
              (name, sheet) ∈ sheets_of w folder e /\ v = Str name) au.
Proof.
  unfold load_and_combine_data.
  destruct (load_sources_same_fs excel_files folder w) as (w1 & -> & _).
  intros [= <- _]. unfold combined.
  set (all := excel_files ≫= frames_of w folder).
  destruct (bool_decide (all = [])) eqn:Hall; [done|]. intros _.
  apply bool_decide_eq_false in Hall.
  assert (Hall_elem : forall f, f ∈ all -> exists e name sheet,
            e ∈ excel_files /\ (name, sheet) ∈ sheets_of w folder e /\
            f = tag_sheet e.1 name sheet).
  { intros f (e & Hf & He)%list_elem_of_bind.
    destruct (frames_of_elem _ _ _ _ Hf) as (name & sheet & Hs & ->). eauto 6. }
  assert (Hnames : forall c, c = "Location_Type" \/ c = "Admin_Unit_Code" ->
            c ∈ all ≫= column_names).
  { intros c Hc. destruct all as [|f all'] eqn:Ha; [done|].
    destruct (Hall_elem f) as (e & name & sheet & _ & _ & ->); [left|].
    rewrite bind_cons. apply elem_of_app. left. apply lookup_col_names.
    destruct (tag_sheet_columns e.1 name sheet) as (_ & HL & HA).
    destruct Hc as [-> | ->]; [rewrite HL|rewrite HA]; by eexists. }
  exists (all ≫= column_or_nan "Location_Type"), (all ≫= column_or_nan "Admin_Unit_Code").
  rewrite !concat_lookup, !decide_True by (apply Hnames; auto).
  split; [done|]. split; [done|].
  assert (index_len (concat all) = sum_list (index_len <$> all)) as -> by done.
  split; [|split; [|split]].
  - apply sum_list_bind_length. intros f (e & name & sheet & _ & _ & ->)%Hall_elem.
    destruct (tagged_columns e.1 name sheet) as (-> & -> & _). by rewrite length_replicate.
  - apply sum_list_bind_length. intros f (e & name & sheet & _ & _ & ->)%Hall_elem.
    destruct (tagged_columns e.1 name sheet) as (-> & _ & ->). by rewrite length_replicate.
  - apply Forall_bind, Forall_forall.
    intros f (e & name & sheet & He & _ & ->)%Hall_elem. unfold compose.
    destruct (tagged_columns e.1 name sheet) as (_ & -> & _).
    apply Forall_replicate. unfold excel_files in He. split_elem He; simpl; auto.
  - apply Forall_bind, Forall_forall.
    intros f (e & name & sheet & He & Hs & ->)%Hall_elem. unfold compose.
    destruct (tagged_columns e.1 name sheet) as (_ & _ & ->).
    apply Forall_replicate. eauto 6.
Qed.

Lemma loader_tags_witness :
  exists df w', load_and_combine_data "/project" Sample.forest_only = Ok (df, w') /\
    lookup_col "Location_Type" (columns df) = Some (replicate 3 (Str "Forest")).
Proof.
  destruct (load_sources_same_fs excel_files "/project" Sample.forest_only) as (w' & Hload & _).
  destruct (loader_tags "/project" Sample.forest_only _ w' Hload) as (lt & au & HL & _).
  - vm_compute. discriminate.
  - eexists _, w'. split; [exact Hload|]. vm_compute. reflexivity.
Defined.

Lemma bind_drop_nil {A B} (f : A -> list B) (P : A -> Prop) `{!forall x, Decision (P x)}
    (l : list A) :
  (forall x, x ∈ l -> ~ P x -> f x = []) -> l ≫= f = filter P l ≫= f.
Proof.
  induction l as [|x l IH]; intros Hnil; [done|].
  rewrite filter_cons, bind_cons, IH by (intros y Hy; apply Hnil; by right).
  destruct (decide (P x)) as [HP|HP].
  - by rewrite bind_cons.
  - by rewrite (Hnil x) by (done || left).
Qed.

(** X4: a workbook that is there and on which [read_excel] raises is
    reported with the text of the exception, contributes no row, and does
    not stop the loader: the frame is the one of the other sources. *)
Theorem unreadable_workbook_skipped sources folder w e err :
  e ∈ sources ->
  source_exists w folder e = true ->
  read_excel w (path_join w folder e.2) = Raise err ->
  exists w', load_sources sources folder w = Ok (combined sources w folder, w') /\
    read_error_notice e err ∈ stdout w' /\
    combined sources w folder = combined (filter (fun x => x ≠ e) sources) w folder.
Proof.
  intros He Hex Hread.
  destruct (load_loop_frames folder sources [] w) as (w1 & H & _ & _ & Herr).
  specialize (Herr e err He Hex Hread).
  assert (Hdrop : combined sources w folder
                  = combined (filter (fun x => x ≠ e) sources) w folder).
  { unfold combined.
    rewrite <- (bind_drop_nil (frames_of w folder) (fun x => x ≠ e)); [done|].
    intros x _ Hx. apply dec_stable in Hx as ->.
    unfold frames_of, sheets_of. by rewrite Hex, Hread. }
  unfold load_sources. rewrite H. cbn [mbind result_bind app]. unfold combined at 1.
  destruct (bool_decide (sources ≫= frames_of w folder = [])).
  - eexists. split; [done|]. split; [|done]. simpl. apply elem_of_app. by left.
  - eexists. split; [done|]. done.
Qed.

Lemma unreadable_workbook_skipped_witness :
  exists w', load_and_combine_data "/project" Sample.damaged_forest
               = Ok (tag_sheet "GRASSLAND" "UNIT1" Sample.unit1, w') /\
    "Error reading Excel file Bird_Monitoring_Data_FOREST.XLSX: File is not a zip file"
      ∈ stdout w'.
Proof.
  destruct (unreadable_workbook_skipped excel_files "/project" Sample.damaged_forest
              ("FOREST", FOREST_FILE) (OtherError "File is not a zip file"))
    as (w' & Hload & Hnote & _).
  - compute_done.
  - vm_compute. reflexivity.
  - vm_compute. reflexivity.
  - exists w'. split; [|exact Hnote].
    unfold load_and_combine_data. rewrite Hload. vm_compute. reflexivity.
Defined.

(** X5: on well-formed sheets the loader returns a well-formed frame whose
    number of rows is the total number of rows of the sheets that were
    read. *)
Theorem loader_well_formed folder w df w' :
  (forall e name sheet, e ∈ excel_files -> (name, sheet) ∈ sheets_of w folder e ->
     well_formed sheet = true) ->
  load_and_combine_data folder w = Ok (df, w') ->
  well_formed df = true /\
  index_len df =
    sum_list ((fun s => index_len s.2) <$> (excel_files ≫= sheets_of w folder)).
Proof.
  intros Hsheets. unfold load_and_combine_data.
  destruct (load_sources_same_fs excel_files folder w) as (w1 & -> & _).
  intros [= <- _]. unfold combined.
  set (all := excel_files ≫= frames_of w folder).
  assert (Hlen : sum_list (index_len <$> all)
                 = sum_list ((fun s => index_len s.2) <$> (excel_files ≫= sheets_of w folder))).
  { unfold all, frames_of. clear Hsheets.
    induction excel_files as [|e l IH]; [done|].
    rewrite !bind_cons, !fmap_app, !sum_list_with_app, IH. f_equal.
    rewrite <- list_fmap_compose. reflexivity. }
  destruct (bool_decide (all = [])) eqn:Hall.
  - apply bool_decide_eq_true in Hall. rewrite <- Hlen, Hall. done.
  - rewrite <- Hlen. split; [|done]. apply concat_well_formed. apply Forall_forall.
    intros f (e & Hf & He)%list_elem_of_bind.
    destruct (frames_of_elem _ _ _ _ Hf) as (name & sheet & Hs & ->).
    specialize (Hsheets e name sheet He Hs).
    unfold tag_sheet, setitem_scalar.
    apply well_formed_setitem; [by rewrite length_replicate|].
    apply well_formed_setitem; [by rewrite length_replicate|done].
Qed.

Lemma loader_well_formed_witness :
  exists df w', load_and_combine_data "/project" Sample.forest_only = Ok (df, w') /\
    well_formed df = true /\ index_len df = 3%nat.
Proof.
  destruct (load_sources_same_fs excel_files "/project" Sample.forest_only) as (w' & Hload & _).
  destruct (loader_well_formed "/project" Sample.forest_only
              (combined excel_files Sample.forest_only "/project") w') as [Hwf Hlen].
  - intros e name sheet He. unfold excel_files in He.
    split_elem He; intros Hin;
      match type of Hin with _ ∈ ?l =>
        assert (HF : Forall (fun s : string * DataFrame => well_formed s.2 = true) l)
          by (vm_compute; repeat constructor)
      end; exact (proj1 (Forall_forall _ _) HF _ Hin).
  - exact Hload.
  - eexists _, w'. split; [exact Hload|]. split; [exact Hwf|]. exact Hlen.
Defined.

(** * Further properties of the cleaning engine *)

(** ** The shape of the cleaned frame *)

Lemma names_drop_duplicates df : column_names (drop_duplicates df) = column_names df.
Proof.
  unfold drop_duplicates, column_names. destruct (DataFrame_empty df); [done|]. simpl.
  rewrite <- list_fmap_compose. by apply list_fmap_ext.
Qed.

Lemma select_length_le {A} (mask : list bool) (l : list A) :
  (length (select mask l) <= length l)%nat.
Proof.
  revert l. induction mask as [|b mask IH]; intros [|x l]; simpl; try lia.
  specialize (IH l). destruct b; simpl; lia.
Qed.

Lemma index_len_drop_duplicates df :
  (index_len (drop_duplicates df) <= index_len df)%nat.
Proof.
  unfold drop_duplicates. destruct (DataFrame_empty df); [done|]. simpl.
  etrans; [apply select_length_le|]. by rewrite length_fmap, duplicated_length.
Qed.

Lemma has_col_names c df df' :
  column_names df' = column_names df -> has_col c df' = has_col c df.
Proof. unfold has_col. by intros ->. Qed.

Lemma cleaning_names rt df out :
  initial_data_cleaning rt df = Ok out ->
  column_names out = column_names df ++ (if has_col "Year" df then [] else ["Year"]).
Proof.
  intros H. unfold initial_data_cleaning in H.
  set (d := drop_duplicates df) in *.
  destruct (getitem "Date" d) as [date|] eqn:Hdate; [|done]. cbn [mbind result_bind] in H.
  apply getitem_Ok in Hdate.
  set (d1 := setitem "Date" (to_datetime rt date_format date) d) in H.
  assert (Hn1 : column_names d1 = column_names df).
  { unfold d1, column_names, setitem; simpl. rewrite assign_present_names.
    - apply names_drop_duplicates.
    - apply lookup_col_names. by rewrite Hdate. }
  destruct (foldM (flag_step rt) flag_cols d1) as [d2|] eqn:H2; [|done].
  cbn [mbind result_bind] in H.
  destruct (foldM (numeric_step rt) numeric_cols d2) as [d3|] eqn:H3; [|done].
  cbn [mbind result_bind] in H.
  destruct (foldM categorical_step categorical_cols d3) as [d4|] eqn:H4; [|done].
  cbn [mbind result_bind] in H.
  apply (foldM_steps _ _ _ (flag_step_spec rt) NoDup_flag_cols) in H2 as (_ & N2 & _).
  apply (foldM_steps _ _ _ (numeric_step_spec rt) NoDup_numeric_cols) in H3 as (_ & N3 & _).
  apply (foldM_steps _ _ _ categorical_step_spec NoDup_categorical_cols) in H4 as (_ & N4 & _).
  assert (Hn4 : column_names d4 = column_names df) by congruence.
  unfold derive_year in H. rewrite (has_col_names "Year" df d4 Hn4) in H.
  assert (has_col "Date" d4 = true) as HD.
  { rewrite (has_col_names "Date" d1 d4) by congruence.
    unfold has_col. apply bool_decide_eq_true. rewrite Hn1, <- (names_drop_duplicates df).
    apply (lookup_col_names "Date" (columns d)). by rewrite Hdate. }
  rewrite HD, andb_true_r in H.
  destruct (has_col "Year" df) eqn:HY; simpl in H.
  - injection H as <-. by rewrite app_nil_r.
  - unfold getitem in H. destruct (lookup_col "Date" (columns d4)) as [dt|]; [|done].
    cbn [mbind result_bind] in H. rewrite astype_int_year in H.
    cbn [mbind result_bind] in H. injection H as <-.
    unfold column_names, setitem; simpl. rewrite assign_absent.
    + rewrite fmap_app. unfold column_names in Hn4. by rewrite Hn4.
    + apply has_col_false. by rewrite (has_col_names "Year" df d4 Hn4).
Qed.

(** X6: the cleaned frame has the columns of the input in the same order,
    with [Year] appended when the input has none; it has no more rows than
    the input, and it is well formed when the input is. *)
Theorem cleaned_schema rt df out :
  initial_data_cleaning rt df = Ok out ->
  column_names out = column_names df ++ (if has_col "Year" df then [] else ["Year"]) /\
  (index_len out <= index_len df)%nat /\
  (well_formed df = true -> well_formed out = true).
Proof.
  intros H. split; [by eapply cleaning_names|]. split.
  - destruct (cleaning_inv _ _ _ H) as (-> & _). apply index_len_drop_duplicates.
  - intros Hwf. by eapply cleaning_well_formed.
Qed.

Lemma cleaned_schema_witness :
  column_names Sample.survey_cleaned = column_names Sample.survey ++ ["Year"] /\
  (index_len Sample.survey_cleaned <= index_len Sample.survey)%nat /\
  well_formed Sample.survey_cleaned = true.
Proof.
  destruct (cleaned_schema Ref.runtime Sample.survey Sample.survey_cleaned survey_cleaning)
    as (Hn & Hl & Hwf).
  split; [exact Hn|]. split; [exact Hl|]. apply Hwf. vm_compute. reflexivity.
Defined.

(** ** The derived year *)

Lemma cleaning_year rt df out :
  initial_data_cleaning rt df = Ok out ->
  lookup_col "Year" (columns df) = None ->
  exists dates, lookup_col "Date" (columns out) = Some dates /\
    lookup_col "Year" (columns out) = Some (year_cell <$> dates).
Proof.
  intros H HY.
  destruct (cleaning_inv _ _ _ H) as (_ & (date & Hdate & Hyear) & Hcols & _ & HYs).
  apply lookup_drop_duplicates_None in HY.
  destruct (HYs HY) as [year Hy].
  destruct (Hcols "Date" date Hdate) as (date' & Hcl & Hout).
  unfold clean_column in Hcl. rewrite decide_True in Hcl by done. injection Hcl as <-.
  eexists. split; [exact Hout|]. by rewrite Hy, (Hyear year HY Hy).
Qed.

(** X7: when the input has no [Year] column, the engine adds one that
    holds, row by row, the year of the parsed date and 0 where the date is
    missing; a [Year] column of the input is kept as it is (only the
    duplicate rows go). *)
Theorem year_derivation rt df out :
  initial_data_cleaning rt df = Ok out ->
  (lookup_col "Year" (columns df) = None ->
     exists dates years, lookup_col "Date" (columns out) = Some dates /\
       lookup_col "Year" (columns out) = Some years /\
       length years = length dates /\
       forall i d, dates !! i = Some d ->
         years !! i = Some (match d with Dt t => Int (ts_year t) | _ => Int 0 end)) /\
  (forall ys, lookup_col "Year" (columns df) = Some ys ->
     lookup_col "Year" (columns out) = Some (dedup_col df ys)).
Proof.
  intros H. split.
  - intros HY. destruct (cleaning_year _ _ _ H HY) as (dates & HD & HYr).
    exists dates, (year_cell <$> dates). split; [done|]. split; [done|].
    split; [by rewrite length_fmap|].
    intros i d Hi. by rewrite list_lookup_fmap, Hi.
  - intros ys HY.
    destruct (cleaning_inv _ _ _ H) as (_ & _ & Hcols & _).
    destruct date_not_listed as (_ & _ & _ & Yf & Yn & Yc).
    destruct (Hcols "Year" (dedup_col df ys)) as (vs' & Hcl & Hout).
    { by rewrite lookup_drop_duplicates, HY. }
    rewrite clean_column_other in Hcl by done. by injection Hcl as <-.
Qed.

Lemma year_derivation_witness :
  exists dates years, lookup_col "Date" (columns Sample.survey_cleaned) = Some dates /\
    lookup_col "Year" (columns Sample.survey_cleaned) = Some years /\
    length years = length dates.
Proof.
  destruct (year_derivation Ref.runtime Sample.survey Sample.survey_cleaned survey_cleaning)
    as [Hadd _].
  destruct Hadd as (dates & years & HD & HY & Hlen & _); [vm_compute; reflexivity|].
  exists dates, years. split; [exact HD|]. split; [exact HY|]. exact Hlen.
Defined.

(** ** The types of the cleaned columns *)

Lemma Forall_cell (f : value -> bool) (P : value -> Prop) vs :
  (forall v, f v = true -> P v) -> Forall (fun v => f v = true) vs -> Forall P vs.
Proof. intros Hf HF. eapply Forall_impl; [exact HF|exact Hf]. Qed.

(** X8: in the cleaned frame the [Date] column holds dates and missing
    dates only, a flag column booleans only, a count or code column and the
    derived [Year] integers only, and a continuous column is an integer
    column, a boolean column (when the input column held booleans only) or
    a float column. *)
Theorem cleaned_dtypes rt df out c vs :
  initial_data_cleaning rt df = Ok out ->
  lookup_col c (columns out) = Some vs ->
  (c = "Date" -> Forall (fun v => v = NA \/ exists t, v = Dt t) vs) /\
  (c ∈ flag_cols -> Forall (fun v => exists b, v = Bool b) vs) /\
  (c ∈ count_cols ++ code_cols -> Forall (fun v => exists z, v = Int z) vs) /\
  (c = "Year" -> lookup_col "Year" (columns df) = None ->
     Forall (fun v => exists z, v = Int z) vs) /\
  (c ∈ continuous_cols ->
     Forall (fun v => exists z, v = Int z) vs \/
     Forall (fun v => exists b, v = Bool b) vs \/
     Forall (fun v => v = NA \/ exists x, v = Flt x) vs).
Proof.
  intros H Hc.
  destruct (cleaned_shapes _ _ _ _ _ H Hc) as (HD & HF & HI & _ & HC).
  split; [|split; [|split; [|split]]].
  - intros ->. eapply Forall_cell; [|by apply HD]. intros [] ?; try done; eauto.
  - intros Hin. eapply Forall_cell; [|by apply HF]. intros [] ?; try done; eauto.
  - intros Hin. eapply Forall_cell; [|by apply HI]. intros [] ?; try done; eauto.
  - intros -> HY. destruct (cleaning_year _ _ _ H HY) as (dates & _ & HYr).
    assert (vs = year_cell <$> dates) as -> by congruence.
    apply Forall_fmap, Forall_true. intros []; simpl; eauto.
  - intros Hin. destruct (HC Hin) as [Hi|[Hb|Hf]].
    + left. eapply Forall_cell; [|exact Hi]. intros [] ?; try done; eauto.
    + right; left. eapply Forall_cell; [|exact Hb]. intros [] ?; try done; eauto.
    + right; right. eapply Forall_cell; [|exact Hf]. intros [] ?; try done; eauto.
Qed.

Lemma cleaned_dtypes_witness :
  exists vs, lookup_col "Visit" (columns Sample.survey_cleaned) = Some vs /\
    Forall (fun v => exists z, v = Int z) vs.
Proof.
  eexists. split; [vm_compute; reflexivity|].
  destruct (cleaned_dtypes Ref.runtime Sample.survey Sample.survey_cleaned "Visit" _
              survey_cleaning eq_refl) as (_ & _ & HI & _).
  apply HI. compute_done.
Defined.

(** ** Values that parse *)

Lemma float_of_Z_exact z : - 2 ^ 53 <= z <= 2 ^ 53 -> float_of_Z z = Finite (inject_Z z).
Proof.
  intros Hz. unfold float_of_Z. destruct (Z.abs z <? 2 ^ 53) eqn:Ha; [done|].
  apply Z.ltb_ge in Ha.
  assert (z = 2 ^ 53 \/ z = - 2 ^ 53) as [-> | ->] by lia; vm_compute; reflexivity.
Qed.

(** What [to_numeric] makes of a cell that is a number. *)
Lemma to_numeric_parsed rt vs i v n :
  vs !! i = Some v -> coerce_cell rt v = Some n ->
  exists v', to_numeric rt vs !! i = Some v' /\
    ((v' = v /\ exists b, v = Bool b) \/ v' = int_cell (Some n) \/ v' = float_cell (Some n)) /\
    isnull v' = false.
Proof.
  intros Hi Hn.
  assert (Hin : v ∈ vs) by (by eapply list_elem_of_lookup_2).
  destruct (to_numeric_cases rt vs) as [[Hb ->]|[[Hd _]|(_ & _ & ->)]].
  - exists v. split; [done|]. rewrite Forall_forall in Hb. specialize (Hb v Hin).
    destruct v; try done. split; [left; eauto|done].
  - pose proof (datetime_column_cells vs v Hd Hin). by destruct v.
  - cbv zeta. destruct (forallb is_int (coerce_cell rt <$> vs));
      rewrite list_lookup_fmap, list_lookup_fmap, Hi; simpl; rewrite Hn;
      eexists; (split; [done|]); destruct n as [z|x]; simpl; eauto.
Qed.

Lemma Qtrunc_bounds q :
  (0 <= q -> inject_Z (Qtrunc q) <= q < inject_Z (Qtrunc q) + 1)%Q /\
  (q <= 0 -> inject_Z (Qtrunc q) - 1 < q <= inject_Z (Qtrunc q))%Q.
Proof.
  destruct q as [n d]. unfold Qtrunc, Qle, Qlt, Qminus.
  cbn [Qnum Qden inject_Z Qplus Qopp].
  pose proof (Z.quot_rem' n (Z.pos d)) as Hq.
  split; intros H.
  - pose proof (Z.rem_bound_pos n (Z.pos d) ltac:(lia) ltac:(lia)).
    rewrite ?Z.mul_1_r, ?Pos.mul_1_r in *. nia.
  - pose proof (Z.rem_bound_pos_neg n (Z.pos d) ltac:(lia) ltac:(lia)).
    rewrite ?Z.mul_1_r, ?Pos.mul_1_r in *. nia.
Qed.

(** X9: in a count or code column of the cleaned frame, a value that
    parses as a number is that number cast to an integer: an integer is
    kept, and a fraction is truncated toward zero (so text [2.5] in [Visit]
    becomes 2 and [-2.5] becomes -2), for every number within the range in
    which [float64] holds each integer exactly (2^53 either way). *)
Theorem integer_cast rt df out :
  initial_data_cleaning rt df = Ok out ->
  forall c vs, c ∈ count_cols ++ code_cols ->
    lookup_col c (columns (drop_duplicates df)) = Some vs ->
    exists vs', lookup_col c (columns out) = Some vs' /\
      forall i v n, vs !! i = Some v -> coerce_cell rt v = Some n ->
        exists q, number_float n = Finite q /\
          (- 2 ^ 53 <= Qtrunc q <= 2 ^ 53 ->
             vs' !! i = Some (Int (Qtrunc q)) /\
             (forall z, n = NInt z -> vs' !! i = Some (Int z)) /\
             (0 <= q -> inject_Z (Qtrunc q) <= q < inject_Z (Qtrunc q) + 1)%Q /\
             (q <= 0 -> inject_Z (Qtrunc q) - 1 < q <= inject_Z (Qtrunc q))%Q).
Proof.
  intros H c vs Hc Hvs.
  destruct (cleaning_inv _ _ _ H) as (_ & _ & Hcols & _).
  destruct (Hcols c vs Hvs) as (vs' & Hcl & Hout).
  exists vs'. split; [done|]. intros i v n Hi Hn.
  destruct (to_numeric_parsed rt vs i v n Hi Hn) as (v' & Hv' & Hshape & Hnn).
  assert (exists fill, isnull fill = false /\
            astype_int (fillna fill (to_numeric rt vs)) = Ok vs') as (fill & Hfill & Hcast).
  { apply elem_of_app in Hc as [Hc|Hc].
    - rewrite clean_column_count in Hcl by done. by eexists; split; [|exact Hcl].
    - rewrite clean_column_code in Hcl by done. by eexists; split; [|exact Hcl]. }
  pose proof (fillna_lookup_notnull fill _ _ _ Hv' Hnn) as Hf.
  destruct (astype_int_lookup _ _ _ _ Hcast Hf) as (z & Hz & Hout').
  assert (exists q, number_float n = Finite q /\
            (- 2 ^ 53 <= Qtrunc q <= 2 ^ 53 -> z = Int (Qtrunc q))) as (q & Hq & Hzq).
  { destruct Hshape as [[-> [b ->]]|[-> | ->]].
    - simpl in Hn. injection Hn as <-. simpl in Hz. injection Hz as <-.
      eexists. split; [done|]. intros _. by rewrite Qtrunc_inject_Z.
    - destruct n as [k|[q|s]]; simpl in *; try done; injection Hz as <-.
      + eexists. split; [done|]. intros _. by rewrite Qtrunc_inject_Z.
      + eexists. split; [done|]. done.
    - destruct n as [k|[q|s]]; simpl in *; try done.
      + exists (inject_Z k). split; [done|]. rewrite Qtrunc_inject_Z. intros Hk.
        rewrite float_of_Z_exact in Hz by done. injection Hz as <-.
        by rewrite Qtrunc_inject_Z.
      + injection Hz as <-. eexists. split; [done|]. done. }
  exists q. split; [done|]. intros Hrange. rewrite (Hzq Hrange) in Hout'.
  split; [done|]. split.
  - intros k ->. simpl in Hq. injection Hq as <-. by rewrite Qtrunc_inject_Z in Hout'.
  - apply Qtrunc_bounds.
Qed.

Lemma integer_cast_witness :
  exists vs', lookup_col "Visit" (columns Sample.survey_cleaned) = Some vs' /\
    vs' !! 2%nat = Some (Int 2).
Proof.
  destruct (integer_cast Ref.runtime Sample.survey Sample.survey_cleaned survey_cleaning
              "Visit" [Int 1; Str "x"; Flt (Finite (5 # 2))])
    as (vs' & Hout & Hrow); [compute_done|vm_compute; reflexivity|].
  exists vs'. split; [exact Hout|].
  destruct (Hrow 2%nat (Flt (Finite (5 # 2))) (NFlt (Finite (5 # 2))) eq_refl eq_refl)
    as (q & Hq & Hcell).
  injection Hq as <-.
  destruct Hcell as (Hcell & _); [vm_compute; split; discriminate|].
  exact Hcell.
Defined.

(** X10: in a continuous column of the cleaned frame, a value that is a
    number keeps its value (an integer within the range that [float64]
    holds exactly): an integer stays an integer in a column of integers and
    becomes the equal float otherwise, a float is kept, and a boolean
    stays a boolean in a column of booleans.  Only the cells without a
    number are filled.  A column of dates only comes out as the nanosecond
    counts of its dates. *)
Theorem measurements_kept rt df out :
  initial_data_cleaning rt df = Ok out ->
  forall c vs, c ∈ continuous_cols ->
    lookup_col c (columns (drop_duplicates df)) = Some vs ->
    exists vs', lookup_col c (columns out) = Some vs' /\ length vs' = length vs /\
      (forall i v n, vs !! i = Some v -> coerce_cell rt v = Some n ->
         (forall z, n = NInt z -> - 2 ^ 53 <= z <= 2 ^ 53) ->
         exists v', vs' !! i = Some v' /\ cell_number v' = Some (number_float n) /\
           ((exists b, v = Bool b /\ v' = Bool b) \/
            (exists z, v' = Int z /\ n = NInt z) \/
            v' = Flt (number_float n))) /\
      (datetime_column vs = true ->
         forall i v, vs !! i = Some v -> vs' !! i = Some (datetime_as_int v)).
Proof.
  intros H c vs Hc Hvs.
  destruct (cleaning_inv _ _ _ H) as (_ & _ & Hcols & _).
  destruct (Hcols c vs Hvs) as (vs' & Hcl & Hout).
  rewrite clean_column_continuous in Hcl by done. injection Hcl as <-.
  eexists. split; [exact Hout|]. split; [apply continuous_length|]. split.
  - intros i v n Hi Hn Hrange.
    destruct (to_numeric_parsed rt vs i v n Hi Hn) as (v' & Hv' & Hshape & Hnn).
    exists v'. split; [by apply continuous_kept|].
    destruct Hshape as [[-> [b ->]]|[-> | ->]].
    + simpl in Hn. injection Hn as <-. split; [done|]. left. eauto.
    + destruct n as [z|x]; simpl; (split; [done|]); [right; left; eauto|by right; right].
    + destruct n as [z|x]; simpl; [|by split; [|right; right]].
      rewrite float_of_Z_exact by eauto. by split; [|right; right].
  - intros Hd i v Hi. apply continuous_kept; [by apply to_numeric_datetime|].
    by destruct v.
Qed.

Lemma measurements_kept_witness :
  exists vs', lookup_col "Temperature" (columns Sample.survey_cleaned) = Some vs' /\
    exists v', vs' !! 2%nat = Some v' /\ cell_number v' = Some (Finite 20%Q).
Proof.
  destruct (measurements_kept Ref.runtime Sample.survey Sample.survey_cleaned survey_cleaning
              "Temperature" [Int 10; Str "N/A"; Int 20])
    as (vs' & Hout & _ & Hrow & _); [compute_done|vm_compute; reflexivity|].
  exists vs'. split; [exact Hout|].
  destruct (Hrow 2%nat (Int 20) (NInt 20) eq_refl eq_refl) as (v' & Hv' & Hfl & _);
    [by intros z [= <-]|].
  exists v'. split; [exact Hv'|exact Hfl].
Defined.

(** ** Text columns and columns the engine does not list *)

(** X11: in a categorical column the engine replaces each missing cell by
    the text [Unknown] and keeps every other cell; a column that is not
    [Date] and is in none of the engine's lists goes through unchanged;
    and the engine adds no column but [Year]. *)
Theorem text_columns rt df out :
  initial_data_cleaning rt df = Ok out ->
  (forall c vs, c ∈ categorical_cols ->
     lookup_col c (columns (drop_duplicates df)) = Some vs ->
     exists vs', lookup_col c (columns out) = Some vs' /\ length vs' = length vs /\
       forall i v, vs !! i = Some v ->
         vs' !! i = Some (if isnull v then Str "Unknown" else v)) /\
  (forall c vs, c ≠ "Date" -> c ∉ flag_cols -> c ∉ numeric_cols -> c ∉ categorical_cols ->
     lookup_col c (columns (drop_duplicates df)) = Some vs ->
     lookup_col c (columns out) = Some vs) /\
  (forall c, c ≠ "Year" -> lookup_col c (columns df) = None ->
     lookup_col c (columns out) = None).
Proof.
  intros H.
  destruct (cleaning_inv _ _ _ H) as (_ & _ & Hcols & Hnone & _).
  split; [|split].
  - intros c vs Hc Hvs. destruct (Hcols c vs Hvs) as (vs' & Hcl & Hout).
    rewrite clean_column_categorical in Hcl by done. injection Hcl as <-.
    eexists. split; [exact Hout|]. split; [apply fillna_length|].
    intros i v Hi. unfold fillna. by rewrite list_lookup_fmap, Hi.
  - intros c vs H1 H2 H3 H4 Hvs. destruct (Hcols c vs Hvs) as (vs' & Hcl & Hout).
    rewrite clean_column_other in Hcl by done. by injection Hcl as <-.
  - intros c Hc Hdf. apply Hnone; [done|]. by apply lookup_drop_duplicates_None.
Qed.

Lemma text_columns_witness :
  exists vs', lookup_col "Sex" (columns Sample.survey_cleaned) = Some vs' /\
    vs' !! 0%nat = Some (Str "Unknown") /\ vs' !! 1%nat = Some (Str "Male").
Proof.
  destruct (text_columns Ref.runtime Sample.survey Sample.survey_cleaned survey_cleaning)
    as (Hcat & _).
  destruct (Hcat "Sex" [NA; Str "Male"; Str "Female"])
    as (vs' & Hout & _ & Hrow); [compute_done|vm_compute; reflexivity|].
  exists vs'. split; [exact Hout|].
  split; [exact (Hrow 0%nat NA eq_refl)|exact (Hrow 1%nat (Str "Male") eq_refl)].
Defined.

(** ** Which rows survive *)

Lemma select_sublist {A} (mask : list bool) (l : list A) : select mask l `sublist_of` l.
Proof.
  revert l. induction mask as [|b mask IH]; intros [|x l]; simpl;
    try apply sublist_nil_l.
  destruct b; [by apply sublist_skip|by apply sublist_cons].
Qed.

Lemma duplicated_from_lookup seen ks i k :
  ks !! i = Some k ->
  duplicated_from seen ks !! i = Some (bool_decide (k ∈ seen ++ take i ks)).
Proof.
  revert seen i. induction ks as [|k0 ks IH]; intros seen [|i] Hi; simpl in *; try done.
  - injection Hi as ->. by rewrite app_nil_r.
  - rewrite (IH _ _ Hi). f_equal. apply bool_decide_ext.
    rewrite !elem_of_app, !elem_of_cons. tauto.
Qed.

(** X12: the engine keeps the rows of the input in their order and drops
    a row exactly when an earlier row agrees with it in every column, so of
    equal rows the first survives; the cleaned frame has one row for each
    survivor. *)
Theorem first_occurrences_kept rt df out :
  well_formed df = true -> DataFrame_empty df = false ->
  initial_data_cleaning rt df = Ok out ->
  let keep := negb <$> duplicated df in
  length keep = index_len df /\
  (forall i r, rows df !! i = Some r ->
     keep !! i = Some (bool_decide (row_key r ∉ row_key <$> take i (rows df)))) /\
  rows (drop_duplicates df) = select keep (rows df) /\
  rows (drop_duplicates df) `sublist_of` rows df /\
  index_len out = length (select keep (rows df)).
Proof.
  intros Hwf Hne H keep.
  assert (Hlen : length keep = index_len df).
  { unfold keep. by rewrite length_fmap, duplicated_length. }
  assert (Hrows : rows (drop_duplicates df) = select keep (rows df)).
  { rewrite rows_drop_duplicates by done. by rewrite Hne. }
  split; [done|]. split; [|split; [done|split]].
  - intros i r Hi. unfold keep, duplicated.
    rewrite list_lookup_fmap.
    rewrite (duplicated_from_lookup [] _ i (row_key r)) by (by rewrite list_lookup_fmap, Hi).
    simpl. by rewrite bool_decide_not, fmap_take.
  - rewrite Hrows. apply select_sublist.
  - destruct (cleaning_inv _ _ _ H) as (-> & _).
    unfold drop_duplicates. rewrite Hne. simpl. fold keep.
    apply select_length. by rewrite Hlen, rows_length.
Qed.

Lemma first_occurrences_kept_witness :
  (negb <$> duplicated Sample.survey) !! 3%nat = Some false /\
  index_len Sample.survey_cleaned = 3%nat.
Proof.
  destruct (first_occurrences_kept Ref.runtime Sample.survey Sample.survey_cleaned)
    as (_ & Hkeep & _ & _ & Hlen);
    [vm_compute; reflexivity|vm_compute; reflexivity|exact survey_cleaning|].
  split.
  - rewrite (Hkeep 3%nat [Str "25-01-2023"; Str "06:00:00"; Str "Wood Thrush"; NA; Int 10;
                          NA; Int 1; Str "WOTH"; Str "true"] eq_refl).
    vm_compute. reflexivity.
  - rewrite Hlen. vm_compute. reflexivity.
Defined.

(** * Further properties of the script *)

Lemma combined_same_fs sources w1 w2 folder :
  same_fs w1 w2 -> combined sources w1 folder = combined sources w2 folder.
Proof.
  intros Hfs. unfold combined.
  assert (sources ≫= frames_of w1 folder = sources ≫= frames_of w2 folder) as ->; [|done].
  apply list_bind_ext; [|done]. intros e. by apply same_fs_frames_of.
Qed.

(** The three ways the script ends. *)
Lemma main_outcome rt w :
  let df := combined excel_files w (cwd w) in
  if DataFrame_empty df then
    exists w', main rt w = Ok w' /\ same_fs w w' /\
      last (stdout w') = Some nothing_loaded_line
  else
    match initial_data_cleaning rt df with
    | Raise e => main rt w = Raise e
    | Ok cleaned =>
        exists w', main rt w = Ok w' /\
          files w' = <[backup_path w := Csv cleaned]> (files w) /\
          database w' = stored cleaned (database w) /\
          sep w' = sep w /\ cwd w' = cwd w
    end.
Proof.
  intros df. rewrite main_unfold. unfold load_and_combine_data.
  destruct (load_sources_same_fs excel_files (cwd w) (print starting_line w))
    as (w1 & -> & Hfs).
  rewrite <- (combined_same_fs excel_files w (print starting_line w))
    by apply same_fs_print.
  fold df. cbn [mbind result_bind].
  assert (same_fs w w1) as (Hf & Hs & Hc & Hd)
    by (eapply same_fs_trans; [apply same_fs_print|done]).
  destruct (DataFrame_empty df); simpl.
  - eexists. split; [done|]. split; [by repeat split|].
    simpl. by rewrite last_snoc.
  - destruct (initial_data_cleaning rt df) as [cleaned|e]; simpl; [|done].
    set (w3 := before_upload rt cleaned w1).
    assert (files w3 = <[backup_path w := Csv cleaned]> (files w) /\
            database w3 = database w /\ sep w3 = sep w /\ cwd w3 = cwd w)
      as (Hf3 & Hd3 & Hs3 & Hc3).
    { unfold w3, before_upload, to_csv, backup_path, path_join; simpl.
      by rewrite <- Hf, <- Hs, <- Hc, <- Hd. }
    clearbody w3.
    unfold upload_to_sql, to_sql, stored. cbn [database print]. rewrite Hd3.
    destruct (connect_error (database w)); simpl.
    + eexists. split; [done|]. simpl. by rewrite Hf3, Hd3, Hs3, Hc3.
    + destruct (tables (database w) !! "bird_observations"); simpl;
        (eexists; split; [done|]); simpl; by rewrite Hf3, Hs3, Hc3.
Qed.

Lemma lookup_tag_sheet c lt name sheet :
  c ≠ "Location_Type" -> c ≠ "Admin_Unit_Code" ->
  lookup_col c (columns (tag_sheet lt name sheet)) = lookup_col c (columns sheet).
Proof.
  intros H1 H2. unfold tag_sheet, setitem_scalar, setitem; simpl.
  rewrite !lookup_assign_ne by done. done.
Qed.

Lemma combined_without c sources w folder :
  c ≠ "Location_Type" -> c ≠ "Admin_Unit_Code" ->
  (forall e name sheet, e ∈ sources -> (name, sheet) ∈ sheets_of w folder e ->
     lookup_col c (columns sheet) = None) ->
  lookup_col c (columns (combined sources w folder)) = None.
Proof.
  intros H1 H2 Hsheets. unfold combined.
  destruct (bool_decide (sources ≫= frames_of w folder = [])); [done|].
  rewrite concat_lookup. rewrite decide_False; [done|].
  intros (f & Hc & (e & Hf & He)%list_elem_of_bind)%list_elem_of_bind.
  destruct (frames_of_elem _ _ _ _ Hf) as (name & sheet & Hs & ->).
  apply lookup_col_names in Hc. rewrite lookup_tag_sheet in Hc by done.
  rewrite (Hsheets e name sheet He Hs) in Hc. by destruct Hc.
Qed.

(** X13: the script needs the [Date] column: when rows were loaded and no
    sheet has a [Date] column, the [KeyError('Date')] of the cleaning
    engine is not caught and ends the script. *)
Theorem script_failures rt w :
  let df := combined excel_files w (cwd w) in
  DataFrame_empty df = false ->
  (forall e name sheet, e ∈ excel_files -> (name, sheet) ∈ sheets_of w (cwd w) e ->
     lookup_col "Date" (columns sheet) = None) ->
  main rt w = Raise (KeyError "Date").
Proof.
  intros df Hne Hsheets.
  pose proof (main_outcome rt w) as Hmain. fold df in Hmain. simpl in Hmain.
  assert (He : initial_data_cleaning rt df = Raise (KeyError "Date")).
  { apply cleaning_without_date. by apply combined_without. }
  by rewrite Hne, He in Hmain.
Qed.

Lemma script_failures_witness : main Ref.runtime Sample.undated = Raise (KeyError "Date").
Proof.
  apply (script_failures Ref.runtime Sample.undated); [vm_compute; reflexivity|].
  intros e name sheet He Hin. unfold excel_files in He.
  split_elem He;
    match type of Hin with _ ∈ ?l =>
      assert (HF : Forall (fun s : string * DataFrame =>
                             lookup_col "Date" (columns s.2) = None) l)
        by (vm_compute; repeat constructor)
    end; exact (proj1 (Forall_forall _ _) HF _ Hin).
Defined.

(** X14: when the script returns, either nothing was loaded and files and
    database are as before, or the engine cleaned the loaded frame and that
    one cleaned frame is both the CSV backup and, on a server that accepts
    the connection, the whole table [bird_observations]; no other file and
    no other table changes, and a server that refuses the connection keeps
    what it had. *)
Theorem script_stores_cleaned_table rt w w' :
  main rt w = Ok w' ->
  let df := combined excel_files w (cwd w) in
  (DataFrame_empty df = true /\ files w' = files w /\ database w' = database w) \/
  (exists cleaned,
     DataFrame_empty df = false /\ initial_data_cleaning rt df = Ok cleaned /\
     files w' !! backup_path w = Some (Csv cleaned) /\
     (forall p, p ≠ backup_path w -> files w' !! p = files w !! p) /\
     (connect_error (database w) = None ->
        connect_error (database w') = None /\
        tables (database w') !! "bird_observations" = Some cleaned /\
        forall name, name ≠ "bird_observations" ->
          tables (database w') !! name = tables (database w) !! name) /\
     (is_Some (connect_error (database w)) -> database w' = database w)).
Proof.
  intros H df. pose proof (main_outcome rt w) as Hmain. fold df in Hmain. simpl in Hmain.
  destruct (DataFrame_empty df).
  - left. destruct Hmain as (w1 & Hw1 & (Hf & _ & _ & Hd) & _).
    assert (w1 = w') as -> by congruence. by repeat split.
  - right. destruct (initial_data_cleaning rt df) as [cleaned|e]; [|congruence].
    destruct Hmain as (w1 & Hw1 & Hf & Hd & _).
    assert (w1 = w') as -> by congruence.
    exists cleaned. split; [done|]. split; [done|].
    split; [by rewrite Hf, lookup_insert_eq|].
    split; [by intros p Hp; rewrite Hf, lookup_insert_ne|].
    unfold stored in Hd. split.
    + intros Hc. rewrite Hc in Hd. rewrite Hd. simpl.
      split; [done|]. split; [by rewrite lookup_insert_eq|].
      intros name Hn. by rewrite lookup_insert_ne.
    + intros [e He]. by rewrite He in Hd.
Qed.

Lemma script_stores_cleaned_table_witness :
  exists w' cleaned, main Ref.runtime Sample.forest_only = Ok w' /\
    files w' !! "/project/cleaned_bird_observations.csv" = Some (Csv cleaned) /\
    tables (database w') !! "bird_observations" = Some cleaned.
Proof.
  pose proof (main_outcome Ref.runtime Sample.forest_only) as Hmain.
  destruct (DataFrame_empty (combined excel_files Sample.forest_only (cwd Sample.forest_only)))
    eqn:Hne; [by vm_compute in Hne|].
  destruct (initial_data_cleaning Ref.runtime
              (combined excel_files Sample.forest_only (cwd Sample.forest_only)))
    as [cleaned0|e] eqn:Hclean; [|by vm_compute in Hclean].
  destruct Hmain as (w' & Hw' & _).
  destruct (script_stores_cleaned_table Ref.runtime Sample.forest_only w' Hw')
    as [[Hempty _]|(cleaned & _ & _ & Hfile & _ & Hdb & _)]; [congruence|].
  destruct (Hdb eq_refl) as (_ & Htab & _).
  exists w', cleaned. split; [exact Hw'|]. split; [exact Hfile|exact Htab].
Defined.

(** ** Running the script again *)

Lemma string_app_inj (a b1 b2 : string) : a +:+ b1 = a +:+ b2 -> b1 = b2.
Proof. induction a as [|c a IH]; simpl; [done|]. intros [= H]. by apply IH. Qed.

Lemma path_join_inj w a b1 b2 : path_join w a b1 = path_join w a b2 -> b1 = b2.
Proof.
  unfold path_join. destruct (bool_decide (a = "")); [done|].
  destruct (ends_with (sep w) a).
  - apply string_app_inj.
  - intros H%string_app_inj. by apply string_app_inj in H.
Qed.

Lemma frames_of_files w w' folder e :
  sep w' = sep w ->
  files w' !! path_join w folder e.2 = files w !! path_join w folder e.2 ->
  frames_of w' folder e = frames_of w folder e.
Proof.
  intros Hs Hf.
  assert (Hp : path_join w' folder e.2 = path_join w folder e.2)
    by (unfold path_join; by rewrite Hs).
  unfold frames_of, sheets_of, source_exists, path_exists, read_excel.
  by rewrite Hp, Hf.
Qed.

Lemma combined_after_backup w w' file :
  sep w' = sep w -> cwd w' = cwd w ->
  files w' = files w \/ files w' = <[backup_path w := file]> (files w) ->
  combined excel_files w' (cwd w') = combined excel_files w (cwd w).
Proof.
  intros Hs Hc Hf. rewrite Hc. unfold combined.
  assert (Hframes : forall e, e.2 ≠ backup_name ->
            frames_of w' (cwd w) e = frames_of w (cwd w) e).
  { intros e He. apply frames_of_files; [done|]. destruct Hf as [-> | ->]; [done|].
    rewrite lookup_insert_ne; [done|]. unfold backup_path.
    by intros Hp%path_join_inj. }
  assert (excel_files ≫= frames_of w' (cwd w) = excel_files ≫= frames_of w (cwd w)) as ->;
    [|done].
  unfold excel_files. rewrite !bind_cons.
  by rewrite !Hframes by done.
Qed.

Lemma stored_stored cleaned db : stored cleaned (stored cleaned db) = stored cleaned db.
Proof.
  unfold stored. destruct (connect_error db) eqn:Hc; simpl; [by rewrite Hc|].
  by rewrite insert_insert_eq.
Qed.

(** X15: running the script again stores nothing new: after a run that
    returned, a second run returns as well and leaves every file and the
    whole database as the first run left them (the backup and the table are
    written again with the same content). *)
Theorem rerun_changes_nothing rt w w1 :
  main rt w = Ok w1 ->
  exists w2, main rt w1 = Ok w2 /\ files w2 = files w1 /\ database w2 = database w1.
Proof.
  intros H.
  pose proof (main_outcome rt w) as Hm. pose proof (main_outcome rt w1) as Hm1.
  cbv zeta in Hm, Hm1.
  destruct (DataFrame_empty (combined excel_files w (cwd w))) eqn:Hempty.
  - destruct Hm as (w' & Hw' & (Hf & Hs & Hc & Hd) & _).
    assert (w' = w1) as -> by congruence.
    rewrite (combined_after_backup w w1 (Csv DataFrame_new)), Hempty in Hm1 by auto.
    destruct Hm1 as (w2 & Hw2 & (Hf2 & _ & _ & Hd2) & _). exists w2. by repeat split.
  - destruct (initial_data_cleaning rt (combined excel_files w (cwd w)))
      as [cleaned|e] eqn:Hclean; [|congruence].
    destruct Hm as (w' & Hw' & Hf & Hd & Hs & Hc).
    assert (w' = w1) as -> by congruence.
    rewrite (combined_after_backup w w1 (Csv cleaned)), Hempty, Hclean in Hm1 by auto.
    destruct Hm1 as (w2 & Hw2 & Hf2 & Hd2 & _). exists w2. split; [done|].
    assert (backup_path w1 = backup_path w) as Hb
      by (unfold backup_path, path_join; by rewrite Hs, Hc).
    split.
    + by rewrite Hf2, Hb, Hf, insert_insert_eq.
    + by rewrite Hd2, Hd, stored_stored.
Qed.

Lemma rerun_changes_nothing_witness :
  exists w1 w2, main Ref.runtime Sample.forest_only = Ok w1 /\
    main Ref.runtime w1 = Ok w2 /\ files w2 = files w1 /\ database w2 = database w1.
Proof.
  pose proof (main_outcome Ref.runtime Sample.forest_only) as Hmain.
  destruct (DataFrame_empty (combined excel_files Sample.forest_only (cwd Sample.forest_only)))
    eqn:Hne; [by vm_compute in Hne|].
  destruct (initial_data_cleaning Ref.runtime
              (combined excel_files Sample.forest_only (cwd Sample.forest_only)))
    as [cleaned0|e] eqn:Hclean; [|by vm_compute in Hclean].
  destruct Hmain as (w1 & Hw1 & _).
  destruct (rerun_changes_nothing Ref.runtime Sample.forest_only w1 Hw1) as (w2 & Hrun).
  exists w1, w2. split; [exact Hw1|exact Hrun].
Defined.

(** * Properties of the dashboard *)

(** ** Distances *)

(** X16: [Distance_Numeric] holds a number only for the three distance
    labels spelled exactly as the categories are: 25, 75 and 125.  The
    conversion to categories comes first and turns every other value into
    NaN, so the tolerance of [convert_distance_numeric] for case and
    surrounding blanks never applies, and [Unknown] and missing cells give
    no number. *)
Theorem distance_numeric_exact py_strip py_lower rt v :
  (forall s, ascii_text s = true -> py_strip s = strip s) ->
  (forall s, ascii_text s = true -> py_lower s = lower s) ->
  Distance_Numeric py_strip py_lower rt v =
    if decide (v = Str "<=50 Meters") then Some 25
    else if decide (v = Str "50-100 Meters") then Some 75
    else if decide (v = Str ">100 Meters") then Some 125
    else None.
Proof.
  intros Hstrip Hlower. unfold Distance_Numeric, Categorical.
  destruct v as [|s| | | |]; try done.
  destruct (bool_decide (s ∈ distance_order)) eqn:Hs.
  - apply bool_decide_eq_true in Hs. unfold distance_order in Hs.
    split_elem Hs; unfold convert_distance_numeric; cbn [astype_str isnull orb];
      rewrite Hstrip by reflexivity;
      match goal with |- context [py_lower ?t] =>
        let t' := eval vm_compute in t in change t with t' end;
      rewrite Hlower by reflexivity; vm_compute; reflexivity.
  - apply bool_decide_eq_false in Hs. unfold distance_order in Hs.
    rewrite !not_elem_of_cons in Hs. destruct Hs as (H1 & H2 & H3 & _).
    rewrite !decide_False by congruence. done.
Qed.

Lemma distance_numeric_exact_witness :
  Distance_Numeric strip lower Ref.runtime (Str "50-100 Meters") = Some 75 /\
  Distance_Numeric strip lower Ref.runtime (Str "50-100 meters") = None.
Proof.
  split.
  - rewrite (distance_numeric_exact strip lower Ref.runtime (Str "50-100 Meters"));
      [reflexivity|reflexivity|reflexivity].
  - rewrite (distance_numeric_exact strip lower Ref.runtime (Str "50-100 meters"));
      [reflexivity|reflexivity|reflexivity].
Defined.

(** ** The global filters *)

Lemma no_year_selected df selected_location_type selected_observers :
  all_common_names df selected_location_type [] selected_observers
    = Raise (KeyError "Common_Name").
Proof. reflexivity. Qed.

Lemma zip_with_andb_lookup (l1 l2 : list bool) i b1 b2 :
  l1 !! i = Some b1 -> l2 !! i = Some b2 -> zip_with andb l1 l2 !! i = Some (b1 && b2).
Proof. intros H1 H2. by rewrite lookup_zip_with, H1; simpl; rewrite H2. Qed.

Lemma rows_boolean_index mask df :
  well_formed df = true -> length mask = index_len df ->
  rows (boolean_index mask df) = select mask (rows df).
Proof.
  intros [_ Hlen]%well_formed_spec Hmask. unfold boolean_index.
  set (sel := select mask (seq 0 (index_len df))).
  assert (length (select mask mask) = length sel) as Hsel.
  { apply select_length. by rewrite length_seq. }
  unfold rows at 1. cbn [index_len]. rewrite Hsel.
  transitivity (row df <$> sel).
  2: { unfold sel, rows. by rewrite select_fmap. }
  apply list_eq. intros j. rewrite !list_lookup_fmap.
  destruct (decide (j < length sel)%nat) as [Hlt|Hge].
  2: { rewrite lookup_seq_ge by lia. by rewrite (lookup_ge_None_2 sel) by lia. }
  rewrite lookup_seq_lt by done.
  destruct (lookup_lt_is_Some_2 sel j Hlt) as [i Hi]. rewrite Hi. simpl. f_equal.
  unfold row. cbn [columns]. rewrite <- list_fmap_compose.
  apply list_fmap_ext. intros p [c vs] Hcv; simpl.
  apply list_elem_of_lookup_2 in Hcv.
  rewrite Forall_forall in Hlen. specialize (Hlen _ Hcv). simpl in Hlen.
  rewrite (list_as_seq vs) at 1. rewrite Hlen, select_fmap. fold sel.
  by rewrite list_lookup_fmap, Hi.
Qed.

Lemma well_formed_boolean_index mask df :
  well_formed df = true -> length mask = index_len df ->
  well_formed (boolean_index mask df) = true.
Proof.
  intros Hwf Hmask. unfold boolean_index.
  apply well_formed_spec in Hwf as [Hnd Hlen]. apply well_formed_spec.
  unfold column_names in *. cbn [columns index_len]. split.
  - assert (((fun cv : string * list value => (cv.1, select mask cv.2)) <$> columns df).*1
            = (columns df).*1) as ->; [|done].
    rewrite <- list_fmap_compose. by apply list_fmap_ext.
  - apply Forall_fmap. eapply Forall_impl; [exact Hlen|].
    intros [c vs] Hvs; simpl in *. apply length_select_keep. by rewrite Hmask.
Qed.

(** X18: with a year selected, on a well-formed table that has the three
    filter columns, the filters return a well-formed frame with the same
    columns whose rows are the rows of the table, in their order, whose
    habitat, year and observer are all among the selected values; no
    other row is kept and none is changed. *)
Theorem global_filters_keep_selected df sel_lt sel_years sel_obs lt yr ob :
  well_formed df = true ->
  sel_years ≠ [] ->
  lookup_col "Location_Type" (columns df) = Some lt ->
  lookup_col "ObservationYear" (columns df) = Some yr ->
  lookup_col "Observer" (columns df) = Some ob ->
  exists filtered mask,
    apply_global_filters df sel_lt sel_years sel_obs = Ok filtered /\
    length mask = index_len df /\
    (forall i a b c, lt !! i = Some a -> yr !! i = Some b -> ob !! i = Some c ->
       mask !! i = Some (isin sel_lt a && isin sel_years b && isin sel_obs c)) /\
    rows filtered = select mask (rows df) /\
    rows filtered `sublist_of` rows df /\
    column_names filtered = column_names df /\
    well_formed filtered = true.
Proof.
  intros Hwf Hne Hlt Hyr Hob.
  pose proof (lookup_col_length _ _ _ Hwf Hlt) as Llt.
  pose proof (lookup_col_length _ _ _ Hwf Hyr) as Lyr.
  pose proof (lookup_col_length _ _ _ Hwf Hob) as Lob.
  set (mask := filter_mask sel_lt sel_years sel_obs lt yr ob).
  assert (Hmask : length mask = index_len df).
  { unfold mask, filter_mask. rewrite !length_zip_with, !length_fmap. lia. }
  exists (boolean_index mask df), mask.
  split.
  { unfold apply_global_filters, getitem.
    rewrite bool_decide_eq_false_2 by done. by rewrite Hlt, Hyr, Hob. }
  split; [done|]. split.
  { intros i a b c Ha Hb Hc. unfold mask, filter_mask.
    apply zip_with_andb_lookup; [apply zip_with_andb_lookup|];
      by rewrite list_lookup_fmap; (rewrite Ha || rewrite Hb || rewrite Hc). }
  split; [by apply rows_boolean_index|].
  split; [rewrite rows_boolean_index by done; apply select_sublist|].
  split; [|by apply well_formed_boolean_index].
  unfold column_names, boolean_index; simpl.
  rewrite <- list_fmap_compose. by apply list_fmap_ext.
Qed.

Lemma global_filters_keep_selected_witness :
  exists filtered,
    apply_global_filters Sample.observations [Str "Forest"] [Int 2018] [Str "A. Smith"]
      = Ok filtered /\
    rows filtered = [[Str "Forest"; Str "A. Smith"; Str "Wood Thrush"; Int 2018]].
Proof.
  destruct (global_filters_keep_selected Sample.observations
              [Str "Forest"] [Int 2018] [Str "A. Smith"]
              [Str "Forest"; Str "Grassland"; Str "Forest"]
              [Int 2018; Int 2018; Int 0]
              [Str "A. Smith"; Str "B. Jones"; Str "A. Smith"])
    as (filtered & mask & Hf & _);
    [vm_compute; reflexivity|discriminate|reflexivity|reflexivity|reflexivity|].
  exists filtered. split; [exact Hf|].
  vm_compute in Hf. injection Hf as <-. vm_compute. reflexivity.
Defined.

(** ** The sidebar *)

Lemma select_none {A} (mask : list bool) (l : list A) :
  Forall (fun b => b = false) mask -> select mask l = [].
Proof.
  intros H. revert l. induction H as [|b mask -> _ IH]; intros [|x l]; simpl; auto.
Qed.

Lemma gt_zero_none vs :
  Forall (fun v => exists z, v = Int z /\ z <= 0) vs ->
  exists mask, gt_zero vs = Ok mask /\ Forall (fun b => b = false) mask.
Proof.
  induction 1 as [|v vs (z & -> & Hz) _ (mask & IH & Hmask)].
  - by exists [].
  - exists (false :: mask). simpl. rewrite IH. simpl. split; [|by constructor].
    do 2 f_equal. apply negb_false_iff, Qle_bool_iff.
    unfold Qle; simpl. lia.
Qed.

Lemma lookup_boolean_index c mask df :
  lookup_col c (columns (boolean_index mask df)) = select mask <$> lookup_col c (columns df).
Proof. unfold boolean_index; simpl. apply lookup_col_fmap. Qed.

Lemma all_years_none df yr :
  lookup_col "ObservationYear" (columns df) = Some yr ->
  Forall (fun v => exists z, v = Int z /\ z <= 0) yr ->
  all_years df = Ok [].
Proof.
  intros Hyr Hall. destruct (gt_zero_none yr Hall) as (mask & Hmask & Hfalse).
  unfold all_years, getitem. rewrite Hyr. cbn [mbind result_bind]. rewrite Hmask.
  cbn [mbind result_bind]. rewrite lookup_boolean_index, Hyr. simpl.
  by rewrite (select_none mask yr Hfalse).
Qed.

(** X17: the sidebar needs a year.  On a table in which no date parsed,
    so that every [ObservationYear] is 0, no year is on offer, the filtered
    frame is the column-less [pd.DataFrame()], and the next statement,
    which reads [Common_Name] from it, raises [KeyError]; the same happens
    when the user deselects every year.  Nothing the user picks in the
    other filters avoids it. *)
Theorem sidebar_needs_a_year ui df lt yr ob :
  lookup_col "Location_Type" (columns df) = Some lt ->
  lookup_col "ObservationYear" (columns df) = Some yr ->
  lookup_col "Observer" (columns df) = Some ob ->
  (Forall (fun v => exists z, v = Int z /\ z <= 0) yr ->
     sidebar ui df = Raise (KeyError "Common_Name")) /\
  (forall years, all_years df = Ok years -> choose_years ui years = [] ->
     sidebar ui df = Raise (KeyError "Common_Name")).
Proof.
  intros Hlt Hyr Hob. split.
  - intros Hall. unfold sidebar, getitem. rewrite Hlt. cbn [mbind result_bind].
    rewrite (all_years_none df yr Hyr Hall). cbn [mbind result_bind].
    rewrite Hob. cbn [mbind result_bind].
    rewrite bool_decide_eq_true_2 by done. apply no_year_selected.
  - intros years Hyears Hchoose. unfold sidebar, getitem. rewrite Hlt.
    cbn [mbind result_bind]. rewrite Hyears. cbn [mbind result_bind].
    rewrite Hob. cbn [mbind result_bind].
    destruct (bool_decide (years = [])); [apply no_year_selected|].
    rewrite Hchoose. apply no_year_selected.
Qed.

Lemma sidebar_needs_a_year_witness :
  sidebar (mkWidgets id id id)
    (mkDataFrame 1 [("Location_Type", [Str "Forest"]); ("Observer", [Str "A. Smith"]);
                    ("Common_Name", [Str "Wood Thrush"]); ("ObservationYear", [Int 0])])
  = Raise (KeyError "Common_Name").
Proof.
  destruct (sidebar_needs_a_year (mkWidgets id id id)
              (mkDataFrame 1 [("Location_Type", [Str "Forest"]); ("Observer", [Str "A. Smith"]);
                              ("Common_Name", [Str "Wood Thrush"]);
                              ("ObservationYear", [Int 0])])
              [Str "Forest"] [Int 0] [Str "A. Smith"] eq_refl eq_refl eq_refl) as [Hnone _].
  apply Hnone. repeat constructor. exists 0. split; [reflexivity|lia].
Defined.
